(** * The approval workflow, the audit log and user management of the
      catalog backend

    A shallow embedding of the Express handlers of
    [routes/pending-changes.routes.ts] and [routes/users.routes.ts], of the
    Drizzle models they call ([PendingChangeModel], [AuditLogModel],
    [UserModel]) and of the tables of [db/schema.ts].

    - A table is the list of its rows, in insertion order.
    - A handler is a function from the database to a response and the
      database it leaves behind.
    - Whatever a statement gets from outside the program (whether the
      driver rejects, the uuid drawn by [defaultRandom()], the clock) is an
      explicit argument of type [Stmt].
    - An [id] column is a PostgreSQL [uuid]. A row carries its id as the
      driver hands it back, the text [uuid_out] prints; a parameter that is
      compared with the column is read by [uuid_in], which takes several
      spellings of one uuid and fails on a text that is none. A token
      carries the id of its user as the login read it from the row.
    - [audit_logs.user_id], [pending_changes.user_id] and
      [pending_changes.reviewed_by] refer to [users.id]: a user that such a
      row refers to is not deleted ([UserModel.deleteById]); a row that
      refers to a user that is not stored is one of the things a statement
      is rejected for. *)

From Stdlib Require Import List String ZArith Bool Lia.
From Stdlib Require Import Sorting.Sorted.
From Stdlib Require Ascii.
From Stdlib Require Strings.Byte.
Import ListNotations.
Open Scope string_scope.
Open Scope Z_scope.

Set Implicit Arguments.

(** ** JSON values: request bodies and [json] columns *)

#[local] Set Warnings "-register-all".

Inductive Json : Type :=
| JNull
| JBool (b : bool)
| JNum (n : Z)
| JStr (s : string)
| JArr (items : list Json)
| JObj (fields : list (string * Json)).

(** [obj[key]]: [None] is JavaScript's [undefined]. *)
Fixpoint assoc (key : string) (fields : list (string * Json)) : option Json :=
  match fields with
  | [] => None
  | (k, v) :: rest => if String.eqb k key then Some v else assoc key rest
  end.

(** An object literal: properties whose value is [undefined] are not
    serialised. *)
Fixpoint defined (props : list (string * option Json))
  : list (string * Json) :=
  match props with
  | [] => []
  | (k, Some v) :: rest => (k, v) :: defined rest
  | (_, None) :: rest => defined rest
  end.

Definition object (props : list (string * option Json)) : Json :=
  JObj (defined props).

(** ** [uuid] columns

    PostgreSQL keeps a [uuid] as sixteen bytes ([pg_uuid_t]). [input] is
    [uuid_in] ([string_to_uuid] of [utils/adt/uuid.c]): an optional opening
    brace, sixteen pairs of hexadecimal digits in either case, a hyphen
    allowed after every second pair, the closing brace if there was an
    opening one, and nothing after. [out] is [uuid_out]: lower case, in
    groups of 8, 4, 4, 4 and 12 digits. *)

Module Uuid.

Record t : Type := mk
  { d0 : Byte.byte; d1 : Byte.byte; d2 : Byte.byte; d3 : Byte.byte;
    d4 : Byte.byte; d5 : Byte.byte; d6 : Byte.byte; d7 : Byte.byte;
    d8 : Byte.byte; d9 : Byte.byte; d10 : Byte.byte; d11 : Byte.byte;
    d12 : Byte.byte; d13 : Byte.byte; d14 : Byte.byte; d15 : Byte.byte }.

Definition data (u : t) : list Byte.byte :=
  [d0 u; d1 u; d2 u; d3 u; d4 u; d5 u; d6 u; d7 u;
   d8 u; d9 u; d10 u; d11 u; d12 u; d13 u; d14 u; d15 u].

Definition of_data (l : list Byte.byte) : option t :=
  match l with
  | [a0; a1; a2; a3; a4; a5; a6; a7; a8; a9; a10; a11; a12; a13; a14; a15] =>
      Some (mk a0 a1 a2 a3 a4 a5 a6 a7 a8 a9 a10 a11 a12 a13 a14 a15)
  | _ => None
  end.

Definition hyphen : Ascii.ascii := Ascii.ascii_of_nat 45.
Definition left_brace : Ascii.ascii := Ascii.ascii_of_nat 123.
Definition right_brace : Ascii.ascii := Ascii.ascii_of_nat 125.

(** [hex_chars[n]], with [hex_chars = "0123456789abcdef"] *)
Definition hex_char (n : N) : Ascii.ascii :=
  if (n <? 10)%N then Ascii.ascii_of_N (48 + n)
  else Ascii.ascii_of_N (87 + n).

(** [data[i] >> 4] and [data[i] & 0x0F] *)
Definition hi (b : Byte.byte) : N := (Byte.to_N b / 16)%N.
Definition lo (b : Byte.byte) : N := (Byte.to_N b mod 16)%N.

(** The loop of [uuid_out]: a hyphen in front of the bytes 4, 6, 8 and
    10. *)
Fixpoint print (i : nat) (l : list Byte.byte) : string :=
  match l with
  | [] => EmptyString
  | b :: rest =>
      let digits :=
        String (hex_char (hi b)) (String (hex_char (lo b)) (print (S i) rest))
      in
      match i with
      | 4%nat | 6%nat | 8%nat | 10%nat => String hyphen digits
      | _ => digits
      end
  end.

Definition out (u : t) : string := print 0 (data u).

(** [isxdigit(c)], and the value [strtoul(.., 16)] gives the digit. *)
Definition digit (c : Ascii.ascii) : option N :=
  let n := Ascii.N_of_ascii c in
  if (48 <=? n)%N && (n <=? 57)%N then Some (n - 48)%N
  else if (97 <=? n)%N && (n <=? 102)%N then Some (n - 87)%N
  else if (65 <=? n)%N && (n <=? 70)%N then Some (n - 55)%N
  else None.

Definition byte_of (h l : N) : Byte.byte :=
  match Byte.of_N (16 * h + l)%N with
  | Some b => b
  | None => Byte.x00
  end.

(** [if (src[0] == '-' && (i % 2) == 1 && i < UUID_LEN - 1) src++;] *)
Definition skip_hyphen (i : nat) (src : string) : string :=
  match src with
  | String c rest =>
      if Ascii.eqb c hyphen && Nat.odd i && (i <? 15)%nat then rest else src
  | EmptyString => src
  end.

(** The loop of [string_to_uuid], with [n] bytes left to read. *)
Fixpoint read_bytes (n i : nat) (src : string)
  : option (list Byte.byte * string) :=
  match n with
  | O => Some ([], src)
  | S n' =>
      match src with
      | String c0 (String c1 rest) =>
          match digit c0, digit c1 with
          | Some h, Some l =>
              match read_bytes n' (S i) (skip_hyphen i rest) with
              | Some (bytes, src') => Some (byte_of h l :: bytes, src')
              | None => None
              end
          | _, _ => None
          end
      | _ => None
      end
  end.

(** [uuid_in]: [None] is the error "invalid input syntax for type uuid". *)
Definition input (source : string) : option t :=
  let (braces, src) :=
    match source with
    | String c rest =>
        if Ascii.eqb c left_brace then (true, rest) else (false, source)
    | EmptyString => (false, source)
    end in
  match read_bytes 16 0 src with
  | Some (bytes, src') =>
      let src'' :=
        if braces then
          match src' with
          | String c rest =>
              if Ascii.eqb c right_brace then Some rest else None
          | EmptyString => None
          end
        else Some src' in
      match src'' with
      | Some EmptyString => of_data bytes
      | _ => None
      end
  | None => None
  end.

End Uuid.

Arguments Uuid.out : simpl never.
Arguments Uuid.input : simpl never.

(** ** [types/auth.ts] *)

Inductive UserRole : Type := ADMIN | EDITOR.

Inductive ActionType : Type :=
| CREATE | UPDATE | DELETE | LOGIN | LOGOUT | APPROVE | REJECT.

Inductive ChangeStatus : Type := PENDING | APPROVED | REJECTED.

Definition UserRole_value (r : UserRole) : string :=
  match r with ADMIN => "admin" | EDITOR => "editor" end.

Definition ActionType_value (a : ActionType) : string :=
  match a with
  | CREATE => "create" | UPDATE => "update" | DELETE => "delete"
  | LOGIN => "login" | LOGOUT => "logout"
  | APPROVE => "approve" | REJECT => "reject"
  end.

Definition ChangeStatus_value (s : ChangeStatus) : string :=
  match s with
  | PENDING => "pending" | APPROVED => "approved" | REJECTED => "rejected"
  end.

Definition UserRole_eqb (a b : UserRole) : bool :=
  match a, b with ADMIN, ADMIN | EDITOR, EDITOR => true | _, _ => false end.

Definition ChangeStatus_eqb (a b : ChangeStatus) : bool :=
  match a, b with
  | PENDING, PENDING | APPROVED, APPROVED | REJECTED, REJECTED => true
  | _, _ => false
  end.

(** A [Date], in milliseconds. *)
Definition Date := Z.

(** What [authenticateToken] reads from a token: [userId] is the id of a
    user as the login read it from the database. *)
Module JWTPayload.
Record t : Type := mk
  { userId : string;
    email : string;
    role : UserRole }.
End JWTPayload.

(** ** [db/schema.ts]: the rows of the three tables

    A [uuid] column holds the text [Uuid.out] prints. *)

Module User.
Record t : Type := mk
  { id : string;
    email : string;
    password : string;
    role : UserRole;
    isActive : bool;
    createdAt : Date;
    updatedAt : Date }.
End User.

Module AuditLog.
Record t : Type := mk
  { id : string;
    userId : string;
    action : ActionType;
    resourceType : option string;
    resourceId : option string;
    details : option Json;
    ipAddress : option string;
    userAgent : option string;
    createdAt : Date }.
End AuditLog.

Module PendingChange.
Record t : Type := mk
  { id : string;
    userId : string;
    action : ActionType;
    resourceType : string;
    resourceId : option string;
    changeData : Json;
    previousData : option Json;
    status : ChangeStatus;
    reviewedBy : option string;
    reviewedAt : option Date;
    reviewNotes : option string;
    createdAt : Date;
    updatedAt : Date }.
End PendingChange.

Record DB : Type := mkDB
  { users : list User.t;
    auditLogs : list AuditLog.t;
    pendingChanges : list PendingChange.t }.

Definition with_users (t : list User.t) (db : DB) : DB :=
  mkDB t (auditLogs db) (pendingChanges db).
Definition with_auditLogs (t : list AuditLog.t) (db : DB) : DB :=
  mkDB (users db) t (pendingChanges db).
Definition with_pendingChanges (t : list PendingChange.t) (db : DB) : DB :=
  mkDB (users db) (auditLogs db) t.

(** ** The statements Drizzle builds *)

Section Statements.
Context {Row : Type}.

(** [select().from(t).where(p)] *)
Definition select_where (p : Row -> bool) (t : list Row) : list Row :=
  filter p t.

(** [update(t).set(s).where(p)]: the table afterwards. *)
Definition update_where (p : Row -> bool) (s : Row -> Row) (t : list Row)
  : list Row :=
  map (fun r => if p r then s r else r) t.

(** [update(t).set(s).where(p).returning()]: the rows as updated. *)
Definition update_returning (p : Row -> bool) (s : Row -> Row)
    (t : list Row) : list Row :=
  map s (filter p t).

(** [delete(t).where(p)]: the table afterwards; [.returning()] gives
    [select_where p t]. *)
Definition delete_where (p : Row -> bool) (t : list Row) : list Row :=
  filter (fun r => negb (p r)) t.

(** A [primaryKey()] or [unique()] column: does [k] already occur? *)
Definition taken (col : Row -> string) (k : string) (t : list Row) : bool :=
  existsb (fun r => String.eqb (col r) k) t.

(** [result[0] || null] *)
Definition first_or_null (result : list Row) : option Row := hd_error result.

(** [.orderBy(desc(col))]: rows with equal keys come in some order; here a
    row is placed in front of the first row with a smaller key. *)
Fixpoint place_desc (col : Row -> Z) (r : Row) (sorted : list Row)
  : list Row :=
  match sorted with
  | [] => [r]
  | x :: rest =>
      if col x <? col r then r :: sorted else x :: place_desc col r rest
  end.

Definition order_by_desc (col : Row -> Z) (t : list Row) : list Row :=
  fold_right (place_desc col) [] t.

(** [.limit(n)] *)
Definition limit (n : nat) (t : list Row) : list Row := firstn n t.
End Statements.

(** What one statement receives from its environment. *)
Record Stmt : Type := mkStmt
  { rejects : bool;   (* the driver rejects the promise: connection lost,
                         a reference to a user that is not stored, ... *)
    drawn : Uuid.t;   (* what [defaultRandom()] draws *)
    clock : Date;     (* [defaultNow()], or the first [new Date()] *)
    clock' : Date }.  (* the second [new Date()] of the statement *)

(** The id of an inserted row, as [.returning()] hands it back. *)
Definition uuid (io : Stmt) : string := Uuid.out (drawn io).
Arguments uuid : simpl never.

(** ** Responses *)

Inductive Data : Type :=
| NoData
| Null
| PendingChangeData (pc : PendingChange.t)
| UserData (id email : string) (role : UserRole) (isActive : bool).

Inductive Body : Type :=
| Error (error : string)
| ErrorIssues (error : string)               (* with [details: error.issues] *)
| Success (message : string) (data : Data).

Record Response : Type := mkResponse
  { statusCode : Z;
    body : Body }.

(** [res.status(c).json(b)], and [res.json(b)] which leaves the status at 200. *)
Definition res_status (c : Z) (b : Body) : Response := mkResponse c b.
Definition res_json (b : Body) : Response := mkResponse 200 b.

(** ** Handler bodies: a state monad over the database with exceptions and
       early [return] *)

Inductive Exn : Type := ZodError | DbError.

Inductive Outcome (A : Type) : Type :=
| Value (a : A)
| Responded (r : Response)
| Thrown (e : Exn).
Arguments Value {A} a.
Arguments Responded {A} r.
Arguments Thrown {A} e.

Definition Task (A : Type) : Type := DB -> Outcome A * DB.

Definition ret {A} (a : A) : Task A := fun db => (Value a, db).
Definition respond {A} (r : Response) : Task A := fun db => (Responded r, db).
Definition throw {A} (e : Exn) : Task A := fun db => (Thrown e, db).

Definition bind {A B} (m : Task A) (k : A -> Task B) : Task B :=
  fun db =>
    match m db with
    | (Value a, db') => k a db'
    | (Responded r, db') => (Responded r, db')
    | (Thrown e, db') => (Thrown e, db')
    end.

Notation "x <- m ;; k" := (bind m (fun x => k))
  (at level 61, m at next level, right associativity).
Notation "m ;;; k" := (bind m (fun _ => k))
  (at level 61, right associativity).

(** [if (c) { res...; return; }] *)
Definition return_if (c : bool) (r : Response) : Task unit :=
  if c then respond r else ret tt.

(** [if (!x) { res...; return; }] on a value that may be [undefined]. *)
Definition return_unless {A} (x : option A) (r : Response) : Task A :=
  match x with Some a => ret a | None => respond r end.

(** [zod.parse]: the parsed value, or a thrown [ZodError]. *)
Definition parsed {A} (o : option A) : Task A :=
  match o with Some a => ret a | None => throw ZodError end.

Definition Handler : Type := DB -> Response * DB.

(** [try { body } catch (error) { onError(error) }] around a handler body. *)
Definition try_catch (tryBlock : Task Response) (onError : Exn -> Response)
  : Handler :=
  fun db =>
    match tryBlock db with
    | (Value r, db') => (r, db')
    | (Responded r, db') => (r, db')
    | (Thrown e, db') => (onError e, db')
    end.

(** An awaited statement: rejected by the driver, or run on the database. *)
Definition await {A} (io : Stmt) (run : DB -> Outcome A * DB) : Task A :=
  fun db => if rejects io then (Thrown DbError, db) else run db.

(** ** Handlers whose success is not a [Response]

    A handler that answers with a list, a cookie or a bare message: what it
    sends on success is a value of its own type, what it sends otherwise is
    an error [Response]. *)

Definition Sending (A : Type) : Type := DB -> (Response + A) * DB.

(** [try { ... res.json(answer) } catch (error) { onError(error) }] *)
Definition try_catch_sending {A} (tryBlock : Task A)
    (onError : Exn -> Response) : Sending A :=
  fun db =>
    match tryBlock db with
    | (Value a, db') => (inr a, db')
    | (Responded r, db') => (inl r, db')
    | (Thrown e, db') => (inl (onError e), db')
    end.

(** [res.json({ success: true, data, total: data.length })] *)
Inductive Page (Row : Type) : Type :=
| mkPage (data : list Row) (total : Z).
Arguments mkPage {Row} data total.

Definition page_data {Row} (p : Page Row) : list Row :=
  match p with mkPage data _ => data end.

Definition page_total {Row} (p : Page Row) : Z :=
  match p with mkPage _ total => total end.

Definition res_page {Row} (data : list Row) : Page Row :=
  mkPage data (Z.of_nat (List.length data)).

(** ** Zod schemas *)

(** A property of the request body is [None] when it is [undefined]. *)
Definition z_string (v : option Json) : option string :=
  match v with Some (JStr s) => Some s | _ => None end.

Definition z_boolean (v : option Json) : option bool :=
  match v with Some (JBool b) => Some b | _ => None end.

(** [z.enum([...])], read at the TypeScript enum the handler casts it to:
    the member whose string value the body carries. *)
Definition z_enum {A} (value : A -> string) (members : list A)
    (v : option Json) : option A :=
  match v with
  | Some (JStr s) => find (fun m => String.eqb (value m) s) members
  | _ => None
  end.

Definition z_optional {A} (schema : option Json -> option A)
    (v : option Json) : option (option A) :=
  match v with
  | None => Some None
  | Some _ => option_map Some (schema v)
  end.

(** [z.any()] accepts everything, [undefined] included. *)
Definition z_any (v : option Json) : option (option Json) := Some v.

Notation "'let?' x := m 'in' k" :=
  (match m with Some x => k | None => None end)
  (at level 10, x name, m at level 100, k at level 200).

(** A route parameter as [if (!id)] sees it: the empty string is falsy, as
    [undefined] is. *)
Definition truthy (s : option string) : option string :=
  match s with
  | None => None
  | Some s => if String.eqb s "" then None else Some s
  end.

(** A [null] bound to a nullable column is SQL [NULL], as [undefined] is. *)
Definition nullable (v : option Json) : option Json :=
  match v with Some JNull => None | _ => v end.

Module AuthRequest.
Record t : Type := mk
  { user : option JWTPayload.t;   (* set by [authenticateToken] *)
    id : option string;           (* [req.params.id] *)
    body : Json }.
End AuthRequest.

(** ** [models/pending-change.model.ts] *)

Module PendingChangeModel.

Record CreatePendingChangeData : Type := mkCreate
  { userId : string;
    action : ActionType;
    resourceType : string;
    resourceId : option string;
    changeData : option Json;
    previousData : option Json }.

Record ReviewPendingChangeData : Type := mkReview
  { reviewedBy : string;
    status : ChangeStatus;
    reviewNotes : option string }.

(** [db.insert(pendingChanges).values({..., status: 'pending'}).returning()].
    [change_data] is [notNull()], [id] is the primary key; the columns left
    out take their defaults. *)
Definition create (io : Stmt) (data : CreatePendingChangeData)
  : Task PendingChange.t :=
  await io (fun db =>
    match nullable (changeData data) with
    | None => (Thrown DbError, db)
    | Some cd =>
        if taken PendingChange.id (uuid io) (pendingChanges db)
        then (Thrown DbError, db)
        else
          let row :=
            {| PendingChange.id := uuid io;
               PendingChange.userId := userId data;
               PendingChange.action := action data;
               PendingChange.resourceType := resourceType data;
               PendingChange.resourceId := resourceId data;
               PendingChange.changeData := cd;
               PendingChange.previousData := nullable (previousData data);
               PendingChange.status := PENDING;
               PendingChange.reviewedBy := None;
               PendingChange.reviewedAt := None;
               PendingChange.reviewNotes := None;
               PendingChange.createdAt := clock io;
               PendingChange.updatedAt := clock io |} in
          (Value row, with_pendingChanges (pendingChanges db ++ [row]) db)
    end).

(** [eq(pendingChanges.id, id)], once PostgreSQL has read the parameter
    as the uuid [id]. *)
Definition has_id (id : Uuid.t) (r : PendingChange.t) : bool :=
  String.eqb (PendingChange.id r) (Uuid.out id).

(** The row [getById] reads for the parameter [id]: the first row whose id
    is the uuid the parameter spells; none when it spells no uuid (the
    statement fails then). *)
Definition lookup (id : string) (db : DB) : option PendingChange.t :=
  match Uuid.input id with
  | Some u => first_or_null (select_where (has_id u) (pendingChanges db))
  | None => None
  end.

(** [select().from(pendingChanges).where(eq(pendingChanges.id, id))
    .limit(1)], then [result[0] || null]. *)
Definition getById (io : Stmt) (id : string)
  : Task (option PendingChange.t) :=
  await io (fun db =>
    match Uuid.input id with
    | Some _ => (Value (lookup id db), db)
    | None => (Thrown DbError, db)
    end).

(** [.set({...})] of [review]: a property that is [undefined] is left out
    of the update. *)
Definition review_set (io : Stmt) (reviewData : ReviewPendingChangeData)
    (r : PendingChange.t) : PendingChange.t :=
  {| PendingChange.id := PendingChange.id r;
     PendingChange.userId := PendingChange.userId r;
     PendingChange.action := PendingChange.action r;
     PendingChange.resourceType := PendingChange.resourceType r;
     PendingChange.resourceId := PendingChange.resourceId r;
     PendingChange.changeData := PendingChange.changeData r;
     PendingChange.previousData := PendingChange.previousData r;
     PendingChange.status := status reviewData;
     PendingChange.reviewedBy := Some (reviewedBy reviewData);
     PendingChange.reviewedAt := Some (clock io);
     PendingChange.reviewNotes :=
       match reviewNotes reviewData with
       | Some notes => Some notes
       | None => PendingChange.reviewNotes r
       end;
     PendingChange.createdAt := PendingChange.createdAt r;
     PendingChange.updatedAt := clock' io |}.

(** [db.update(pendingChanges).set({...}).where(eq(pendingChanges.id, id))
    .returning()], then [result[0] || null]. *)
Definition review (io : Stmt) (id : string)
    (reviewData : ReviewPendingChangeData)
  : Task (option PendingChange.t) :=
  await io (fun db =>
    match Uuid.input id with
    | Some u =>
        let t := pendingChanges db in
        (Value (first_or_null
                  (update_returning (has_id u) (review_set io reviewData) t)),
         with_pendingChanges
           (update_where (has_id u) (review_set io reviewData) t) db)
    | None => (Thrown DbError, db)
    end).

(** [select().from(pendingChanges).where(eq(pendingChanges.status, status))
    .orderBy(desc(pendingChanges.createdAt))] *)
Definition getByStatus (io : Stmt) (status : ChangeStatus)
  : Task (list PendingChange.t) :=
  await io (fun db =>
    (Value (order_by_desc PendingChange.createdAt
              (select_where
                 (fun r => ChangeStatus_eqb (PendingChange.status r) status)
                 (pendingChanges db))),
     db)).

Definition getAllPending (io : Stmt) : Task (list PendingChange.t) :=
  await io (fun db =>
    (Value (order_by_desc PendingChange.createdAt
              (select_where
                 (fun r => ChangeStatus_eqb (PendingChange.status r) PENDING)
                 (pendingChanges db))),
     db)).

Definition getByUserId (io : Stmt) (userId : string)
  : Task (list PendingChange.t) :=
  await io (fun db =>
    (Value (order_by_desc PendingChange.createdAt
              (select_where
                 (fun r => String.eqb (PendingChange.userId r) userId)
                 (pendingChanges db))),
     db)).

(** [db.delete(pendingChanges).where(eq(pendingChanges.id, id)).returning()],
    then [result.length > 0]. *)
Definition delete (io : Stmt) (id : string) : Task bool :=
  await io (fun db =>
    match Uuid.input id with
    | Some u =>
        let t := pendingChanges db in
        (Value (0 <? Z.of_nat (List.length (select_where (has_id u) t))),
         with_pendingChanges (delete_where (has_id u) t) db)
    | None => (Thrown DbError, db)
    end).

End PendingChangeModel.

(** ** [models/audit-log.model.ts] *)

Module AuditLogModel.

Record CreateAuditLogData : Type := mkCreate
  { userId : string;
    action : ActionType;
    resourceType : option string;
    resourceId : option string;
    details : option Json;
    ipAddress : option string;
    userAgent : option string }.

Definition create (io : Stmt) (data : CreateAuditLogData)
  : Task AuditLog.t :=
  await io (fun db =>
    if taken AuditLog.id (uuid io) (auditLogs db)
    then (Thrown DbError, db)
    else
      let row :=
        {| AuditLog.id := uuid io;
           AuditLog.userId := userId data;
           AuditLog.action := action data;
           AuditLog.resourceType := resourceType data;
           AuditLog.resourceId := resourceId data;
           AuditLog.details := nullable (details data);
           AuditLog.ipAddress := ipAddress data;
           AuditLog.userAgent := userAgent data;
           AuditLog.createdAt := clock io |} in
      (Value row, with_auditLogs (auditLogs db ++ [row]) db)).

(** [getByUserId(userId, limit = 50)]: [None] is a call without the second
    argument. [userId] is the id of a user in the spelling rows and tokens
    carry it in; a text PostgreSQL does not read as a uuid is one of the
    things the statement is rejected for. *)
Definition getByUserId (io : Stmt) (userId : string) (limit_ : option nat)
  : Task (list AuditLog.t) :=
  let limit_ := match limit_ with Some n => n | None => 50%nat end in
  await io (fun db =>
    (Value
       (limit limit_
          (order_by_desc AuditLog.createdAt
             (select_where
                (fun r => String.eqb (AuditLog.userId r) userId)
                (auditLogs db)))),
     db)).





Definition getByResourceId (io : Stmt) (resourceId : string)
  : Task (list AuditLog.t) :=
  await io (fun db =>
    (Value
       (order_by_desc AuditLog.createdAt
          (select_where
             (fun r =>
                match AuditLog.resourceId r with
                | Some id => String.eqb id resourceId
                | None => false
                end)
             (auditLogs db))),
     db)).

End AuditLogModel.

(** ** [models/user.model.ts] *)

Module UserModel.

(** [eq(users.id, id)], once PostgreSQL has read the parameter as the
    uuid [id]. *)
Definition has_id (id : Uuid.t) (u : User.t) : bool :=
  String.eqb (User.id u) (Uuid.out id).

(** The row [findById] reads for the parameter [id]: the first row whose id
    is the uuid the parameter spells; none when it spells no uuid (the
    statement fails then). *)
Definition lookup (id : string) (db : DB) : option User.t :=
  match Uuid.input id with
  | Some u => first_or_null (select_where (has_id u) (users db))
  | None => None
  end.

Definition findById (io : Stmt) (id : string) : Task (option User.t) :=
  await io (fun db =>
    match Uuid.input id with
    | Some _ => (Value (lookup id db), db)
    | None => (Thrown DbError, db)
    end).

Definition findByEmail (io : Stmt) (email : string)
  : Task (option User.t) :=
  await io (fun db =>
    (Value (first_or_null
              (select_where (fun u => String.eqb (User.email u) email)
                 (users db))),
     db)).

(** [db.insert(users).values({email, password, role, isActive: true})]:
    [id] is the primary key and [email] is [unique()]. *)
Definition create (io : Stmt) (email password : string) (role : UserRole)
  : Task User.t :=
  await io (fun db =>
    if taken User.id (uuid io) (users db)
       || taken User.email email (users db)
    then (Thrown DbError, db)
    else
      let newUser :=
        {| User.id := uuid io;
           User.email := email;
           User.password := password;
           User.role := role;
           User.isActive := true;
           User.createdAt := clock io;
           User.updatedAt := clock io |} in
      (Value newUser, with_users (users db ++ [newUser]) db)).

Definition set_role (io : Stmt) (role : UserRole) (u : User.t) : User.t :=
  {| User.id := User.id u;
     User.email := User.email u;
     User.password := User.password u;
     User.role := role;
     User.isActive := User.isActive u;
     User.createdAt := User.createdAt u;
     User.updatedAt := clock io |}.

Definition updateRole (io : Stmt) (userId : string) (role : UserRole)
  : Task bool :=
  await io (fun db =>
    match Uuid.input userId with
    | Some u =>
        let t := users db in
        (Value (0 <? Z.of_nat
                  (List.length
                     (update_returning (has_id u) (set_role io role) t))),
         with_users (update_where (has_id u) (set_role io role) t) db)
    | None => (Thrown DbError, db)
    end).

Definition set_isActive (io : Stmt) (isActive : bool) (u : User.t)
  : User.t :=
  {| User.id := User.id u;
     User.email := User.email u;
     User.password := User.password u;
     User.role := User.role u;
     User.isActive := isActive;
     User.createdAt := User.createdAt u;
     User.updatedAt := clock io |}.

Definition toggleActive (io : Stmt) (userId : string) (isActive : bool)
  : Task bool :=
  await io (fun db =>
    match Uuid.input userId with
    | Some u =>
        let t := users db in
        (Value (0 <? Z.of_nat
                  (List.length
                     (update_returning (has_id u)
                        (set_isActive io isActive) t))),
         with_users
           (update_where (has_id u) (set_isActive io isActive) t) db)
    | None => (Thrown DbError, db)
    end).

(** The rows that refer to the user [id]: [audit_logs.user_id],
    [pending_changes.user_id] and [pending_changes.reviewed_by] are
    [references(() => users.id)], without [onDelete]. *)
Definition referred_to (id : Uuid.t) (db : DB) : bool :=
  existsb (fun e => String.eqb (AuditLog.userId e) (Uuid.out id))
    (auditLogs db)
  || existsb
       (fun pc =>
          String.eqb (PendingChange.userId pc) (Uuid.out id)
          || match PendingChange.reviewedBy pc with
             | Some reviewer => String.eqb reviewer (Uuid.out id)
             | None => false
             end)
       (pendingChanges db).

(** [db.delete(users).where(eq(users.id, id)).returning()], then
    [result.length > 0]: PostgreSQL refuses to delete a user that a row of
    [audit_logs] or [pending_changes] refers to. *)
Definition deleteById (io : Stmt) (id : string) : Task bool :=
  await io (fun db =>
    match Uuid.input id with
    | Some u =>
        let t := users db in
        let deleted := select_where (has_id u) t in
        if match deleted with [] => false | _ :: _ => referred_to u db end
        then (Thrown DbError, db)
        else
          (Value (0 <? Z.of_nat (List.length deleted)),
           with_users (delete_where (has_id u) t) db)
    | None => (Thrown DbError, db)
    end).

Definition set_password (io : Stmt) (hashedPassword : string) (u : User.t)
  : User.t :=
  {| User.id := User.id u;
     User.email := User.email u;
     User.password := hashedPassword;
     User.role := User.role u;
     User.isActive := User.isActive u;
     User.createdAt := User.createdAt u;
     User.updatedAt := clock io |}.

Definition updatePassword (io : Stmt) (userId hashedPassword : string)
  : Task bool :=
  await io (fun db =>
    match Uuid.input userId with
    | Some u =>
        let t := users db in
        (Value (0 <? Z.of_nat
                  (List.length
                     (update_returning (has_id u)
                        (set_password io hashedPassword) t))),
         with_users
           (update_where (has_id u) (set_password io hashedPassword) t) db)
    | None => (Thrown DbError, db)
    end).

End UserModel.

(** ** [routes/pending-changes.routes.ts]

    Each handler is the last callback of its route, the one that runs once
    [authenticateToken] and the role middleware have called [next()]. *)

(** The [catch] block the handlers share. *)
Definition on_error (error : Exn) : Response :=
  match error with
  | ZodError => res_status 400 (ErrorIssues "Invalid input")
  | DbError => res_status 500 (Error "Internal server error")
  end.

Module PendingChangesRoutes.

Record CreateChange : Type := mkCreateChange
  { action : ActionType;
    resourceType : string;
    resourceId : option string;
    changeData : option Json;
    previousData : option Json }.

Definition createChangeSchema (body : Json) : option CreateChange :=
  match body with
  | JObj fields =>
      let? action :=
        z_enum ActionType_value [CREATE; UPDATE; DELETE]
          (assoc "action" fields) in
      let? resourceType := z_string (assoc "resourceType" fields) in
      let? resourceId := z_optional z_string (assoc "resourceId" fields) in
      let? changeData := z_any (assoc "changeData" fields) in
      let? previousData := z_any (assoc "previousData" fields) in
      Some (mkCreateChange action resourceType resourceId changeData
              previousData)
  | _ => None
  end.

(** [router.post('/', authenticateToken, requireEditor, ...)] *)
Definition POST_root (req : AuthRequest.t) (io_create io_audit : Stmt)
  : Handler :=
  try_catch
    (user <- return_unless (AuthRequest.user req)
               (res_status 401 (Error "Not authenticated")) ;;
     (* Super admins don't need approval *)
     return_if (UserRole_eqb (JWTPayload.role user) ADMIN)
       (res_status 400
          (Error "Super admins do not need approval for changes")) ;;;
     data <- parsed (createChangeSchema (AuthRequest.body req)) ;;
     pendingChange <-
       PendingChangeModel.create io_create
         {| PendingChangeModel.userId := JWTPayload.userId user;
            PendingChangeModel.action := action data;
            PendingChangeModel.resourceType := resourceType data;
            PendingChangeModel.resourceId := resourceId data;
            PendingChangeModel.changeData := changeData data;
            PendingChangeModel.previousData := previousData data |} ;;
     (* Log the action *)
     AuditLogModel.create io_audit
       {| AuditLogModel.userId := JWTPayload.userId user;
          AuditLogModel.action := CREATE;
          AuditLogModel.resourceType := Some "pending_change";
          AuditLogModel.resourceId := Some (PendingChange.id pendingChange);
          AuditLogModel.details :=
            Some (object
                    [("changeType",
                       Some (JStr (ActionType_value (action data))));
                     ("targetResource", Some (JStr (resourceType data)))]);
          AuditLogModel.ipAddress := None;
          AuditLogModel.userAgent := None |} ;;;
     ret (res_json
            (Success "Change submitted for approval"
               (PendingChangeData pendingChange))))
    on_error.

Record Review : Type := mkReview
  { status : ChangeStatus;
    reviewNotes : option string }.

Definition reviewSchema (body : Json) : option Review :=
  match body with
  | JObj fields =>
      let? status :=
        z_enum ChangeStatus_value [APPROVED; REJECTED]
          (assoc "status" fields) in
      let? reviewNotes :=
        z_optional z_string (assoc "reviewNotes" fields) in
      Some (mkReview status reviewNotes)
  | _ => None
  end.

(** The audit entry of a review. *)
Definition review_audit (user : JWTPayload.t) (id : string) (data : Review)
    (pendingChange : PendingChange.t) : AuditLogModel.CreateAuditLogData :=
  {| AuditLogModel.userId := JWTPayload.userId user;
     AuditLogModel.action :=
       if ChangeStatus_eqb (status data) APPROVED then APPROVE else REJECT;
     AuditLogModel.resourceType := Some "pending_change";
     AuditLogModel.resourceId := Some id;
     AuditLogModel.details :=
       Some (object
               [("originalAction",
                  Some (JStr (ActionType_value
                                (PendingChange.action pendingChange))));
                ("targetResource",
                  Some (JStr (PendingChange.resourceType pendingChange)));
                ("reviewNotes", option_map JStr (reviewNotes data))]);
     AuditLogModel.ipAddress := None;
     AuditLogModel.userAgent := None |}.

(** [data: reviewed], where [reviewed] may be [null]. *)
Definition reviewed_data (reviewed : option PendingChange.t) : Data :=
  match reviewed with
  | Some r => PendingChangeData r
  | None => Null
  end.

(** [router.post('/:id/review', authenticateToken, requireAdmin, ...)] *)
Definition POST_id_review (req : AuthRequest.t)
    (io_get io_review io_audit : Stmt) : Handler :=
  try_catch
    (user <- return_unless (AuthRequest.user req)
               (res_status 401 (Error "Not authenticated")) ;;
     id <- return_unless (truthy (AuthRequest.id req))
             (res_status 400 (Error "Change ID is required")) ;;
     data <- parsed (reviewSchema (AuthRequest.body req)) ;;
     (* Get the pending change *)
     found <- PendingChangeModel.getById io_get id ;;
     pendingChange <- return_unless found
                        (res_status 404 (Error "Pending change not found")) ;;
     return_if
       (negb (ChangeStatus_eqb (PendingChange.status pendingChange) PENDING))
       (res_status 400 (Error "This change has already been reviewed")) ;;;
     (* Review the change *)
     reviewed <-
       PendingChangeModel.review io_review id
         {| PendingChangeModel.reviewedBy := JWTPayload.userId user;
            PendingChangeModel.status := status data;
            PendingChangeModel.reviewNotes := reviewNotes data |} ;;
     (* Log the review action *)
     AuditLogModel.create io_audit (review_audit user id data pendingChange) ;;;
     ret (res_json
            (Success ("Change " ++ ChangeStatus_value (status data))
               (reviewed_data reviewed))))
    on_error.

(** [router.get('/pending', authenticateToken, requireAdmin, ...)] *)
Definition GET_pending (io : Stmt) : Sending (Page PendingChange.t) :=
  try_catch_sending
    (pendingChanges <- PendingChangeModel.getAllPending io ;;
     ret (res_page pendingChanges))
    (fun _ => res_status 500 (Error "Internal server error")).

(** [router.get('/my-changes', authenticateToken, ...)] *)
Definition GET_my_changes (req : AuthRequest.t) (io : Stmt)
  : Sending (Page PendingChange.t) :=
  try_catch_sending
    (user <- return_unless (AuthRequest.user req)
               (res_status 401 (Error "Not authenticated")) ;;
     changes <- PendingChangeModel.getByUserId io (JWTPayload.userId user) ;;
     ret (res_page changes))
    (fun _ => res_status 500 (Error "Internal server error")).

(** [!status || !['pending', 'approved', 'rejected'].includes(status)]
    fails exactly when the parameter is the value of a [ChangeStatus]. *)
Definition valid_status (status : option string) : option ChangeStatus :=
  match truthy status with
  | Some s =>
      find (fun m => String.eqb (ChangeStatus_value m) s)
        [PENDING; APPROVED; REJECTED]
  | None => None
  end.

(** [router.get('/status/:status', authenticateToken, requireAdmin, ...)];
    [status] is [req.params.status]. *)
Definition GET_status (status : option string) (io : Stmt)
  : Sending (Page PendingChange.t) :=
  try_catch_sending
    (status <- return_unless (valid_status status)
                 (res_status 400 (Error "Invalid status")) ;;
     changes <- PendingChangeModel.getByStatus io status ;;
     ret (res_page changes))
    (fun _ => res_status 500 (Error "Internal server error")).

End PendingChangesRoutes.

(** ** [routes/users.routes.ts] *)

Module UsersRoutes.
Section Libraries.

(** What the handlers take from libraries: Zod's test of an e-mail address
    and [argon2.hash]. *)
Variable is_email : string -> bool.
Variable argon2_hash : string -> string.

Record CreateUser : Type := mkCreateUser
  { email : string;
    password : string;
    role : UserRole }.

Definition createUserSchema (body : Json) : option CreateUser :=
  match body with
  | JObj fields =>
      let? email := z_string (assoc "email" fields) in
      if negb (is_email email) then None else
      let? password := z_string (assoc "password" fields) in
      if (Z.of_nat (String.length password) <? 6) then None else
      let? role := z_enum UserRole_value [EDITOR] (assoc "role" fields) in
      Some (mkCreateUser email password role)
  | _ => None
  end.

(** [router.post('/', authenticateToken, requireAdmin, ...)] *)
Definition POST_root (req : AuthRequest.t)
    (io_find io_create io_audit : Stmt) : Handler :=
  try_catch
    (user <- return_unless (AuthRequest.user req)
               (res_status 401 (Error "Not authenticated")) ;;
     data <- parsed (createUserSchema (AuthRequest.body req)) ;;
     (* Check if user already exists *)
     existingUser <- UserModel.findByEmail io_find (email data) ;;
     return_if (match existingUser with Some _ => true | None => false end)
       (res_status 400 (Error "User with this email already exists")) ;;;
     (* Hash password *)
     let hashedPassword := argon2_hash (password data) in
     (* Create user *)
     newUser <-
       UserModel.create io_create (email data) hashedPassword (role data) ;;
     (* Log the action *)
     AuditLogModel.create io_audit
       {| AuditLogModel.userId := JWTPayload.userId user;
          AuditLogModel.action := CREATE;
          AuditLogModel.resourceType := Some "user";
          AuditLogModel.resourceId := Some (User.id newUser);
          AuditLogModel.details :=
            Some (object
                    [("email", Some (JStr (User.email newUser)));
                     ("role",
                       Some (JStr (UserRole_value (User.role newUser))))]);
          AuditLogModel.ipAddress := None;
          AuditLogModel.userAgent := None |} ;;;
     ret (res_json
            (Success "User created successfully"
               (UserData (User.id newUser) (User.email newUser)
                  (User.role newUser) (User.isActive newUser)))))
    on_error.

Definition updateRoleSchema (body : Json) : option UserRole :=
  match body with
  | JObj fields => z_enum UserRole_value [EDITOR] (assoc "role" fields)
  | _ => None
  end.

(** [router.patch('/:id/role', authenticateToken, requireAdmin, ...)] *)
Definition PATCH_id_role (req : AuthRequest.t)
    (io_find io_update io_audit : Stmt) : Handler :=
  try_catch
    (me <- return_unless (AuthRequest.user req)
             (res_status 401 (Error "Not authenticated")) ;;
     id <- return_unless (truthy (AuthRequest.id req))
             (res_status 400 (Error "User ID is required")) ;;
     role <- parsed (updateRoleSchema (AuthRequest.body req)) ;;
     (* Check if user exists *)
     found <- UserModel.findById io_find id ;;
     user <- return_unless found
               (res_status 404 (Error "User not found")) ;;
     (* Prevent changing admin role *)
     return_if (UserRole_eqb (User.role user) ADMIN)
       (res_status 403 (Error "Cannot change admin role")) ;;;
     (* Update role *)
     UserModel.updateRole io_update id role ;;;
     (* Log the action *)
     AuditLogModel.create io_audit
       {| AuditLogModel.userId := JWTPayload.userId me;
          AuditLogModel.action := UPDATE;
          AuditLogModel.resourceType := Some "user";
          AuditLogModel.resourceId := Some id;
          AuditLogModel.details :=
            Some (object
                    [("oldRole",
                       Some (JStr (UserRole_value (User.role user))));
                     ("newRole", Some (JStr (UserRole_value role)))]);
          AuditLogModel.ipAddress := None;
          AuditLogModel.userAgent := None |} ;;;
     ret (res_json (Success "User role updated successfully" NoData)))
    on_error.

Definition toggleActiveSchema (body : Json) : option bool :=
  match body with
  | JObj fields => z_boolean (assoc "isActive" fields)
  | _ => None
  end.

Definition activated (isActive : bool) : string :=
  if isActive then "activated" else "deactivated".

(** [router.patch('/:id/active', authenticateToken, requireAdmin, ...)] *)
Definition PATCH_id_active (req : AuthRequest.t)
    (io_find io_update io_audit : Stmt) : Handler :=
  try_catch
    (me <- return_unless (AuthRequest.user req)
             (res_status 401 (Error "Not authenticated")) ;;
     id <- return_unless (truthy (AuthRequest.id req))
             (res_status 400 (Error "User ID is required")) ;;
     isActive <- parsed (toggleActiveSchema (AuthRequest.body req)) ;;
     (* Check if user exists *)
     found <- UserModel.findById io_find id ;;
     user <- return_unless found
               (res_status 404 (Error "User not found")) ;;
     (* Prevent deactivating admin *)
     return_if (UserRole_eqb (User.role user) ADMIN)
       (res_status 403 (Error "Cannot deactivate admin")) ;;;
     (* Prevent deactivating self *)
     return_if (String.eqb id (JWTPayload.userId me))
       (res_status 403 (Error "Cannot deactivate your own account")) ;;;
     (* Toggle active status *)
     UserModel.toggleActive io_update id isActive ;;;
     (* Log the action *)
     AuditLogModel.create io_audit
       {| AuditLogModel.userId := JWTPayload.userId me;
          AuditLogModel.action := UPDATE;
          AuditLogModel.resourceType := Some "user";
          AuditLogModel.resourceId := Some id;
          AuditLogModel.details :=
            Some (object [("action", Some (JStr (activated isActive)))]);
          AuditLogModel.ipAddress := None;
          AuditLogModel.userAgent := None |} ;;;
     ret (res_json
            (Success ("User " ++ activated isActive ++ " successfully")
               NoData)))
    on_error.

(** [router.delete('/:id', authenticateToken, requireAdmin, ...)]; its
    [catch] block has the one answer. *)
Definition DELETE_id (req : AuthRequest.t)
    (io_find io_delete io_audit : Stmt) : Handler :=
  try_catch
    (me <- return_unless (AuthRequest.user req)
             (res_status 401 (Error "Not authenticated")) ;;
     id <- return_unless (truthy (AuthRequest.id req))
             (res_status 400 (Error "User ID is required")) ;;
     (* Check if user exists *)
     found <- UserModel.findById io_find id ;;
     user <- return_unless found
               (res_status 404 (Error "User not found")) ;;
     (* Prevent deleting admin *)
     return_if (UserRole_eqb (User.role user) ADMIN)
       (res_status 403 (Error "Cannot delete admin")) ;;;
     (* Prevent deleting self *)
     return_if (String.eqb id (JWTPayload.userId me))
       (res_status 403 (Error "Cannot delete your own account")) ;;;
     (* Delete user *)
     UserModel.deleteById io_delete id ;;;
     (* Log the action *)
     AuditLogModel.create io_audit
       {| AuditLogModel.userId := JWTPayload.userId me;
          AuditLogModel.action := DELETE;
          AuditLogModel.resourceType := Some "user";
          AuditLogModel.resourceId := Some id;
          AuditLogModel.details :=
            Some (object
                    [("email", Some (JStr (User.email user)));
                     ("role",
                       Some (JStr (UserRole_value (User.role user))))]);
          AuditLogModel.ipAddress := None;
          AuditLogModel.userAgent := None |} ;;;
     ret (res_json (Success "User deleted successfully" NoData)))
    (fun _ => res_status 500 (Error "Internal server error")).

(** A call of the user-management API that writes. *)
Inductive Call : Type :=
| CreateUserCall
| UpdateRoleCall
| ToggleActiveCall
| DeleteUserCall.

Definition handle (c : Call) : AuthRequest.t -> Stmt -> Stmt -> Stmt -> Handler :=
  match c with
  | CreateUserCall => POST_root
  | UpdateRoleCall => PATCH_id_role
  | ToggleActiveCall => PATCH_id_active
  | DeleteUserCall => DELETE_id
  end.

Record Invocation : Type := mkInvocation
  { call : Call;
    request : AuthRequest.t;
    io1 : Stmt;
    io2 : Stmt;
    io3 : Stmt }.

(** The database after a sequence of calls, served one after the other. *)
Fixpoint serve (calls : list Invocation) (db : DB) : DB :=
  match calls with
  | [] => db
  | c :: rest =>
      serve rest (snd (handle (call c) (request c) (io1 c) (io2 c) (io3 c) db))
  end.

End Libraries.
End UsersRoutes.

(** ** The review handler between its [await]s

    Node runs a handler up to an [await], then lets other requests run. The
    review handler awaits three statements; [resume] runs one call from where
    it waits up to its next [await]: the awaited statement runs on the
    database as it is at that moment. *)

Module ReviewCall.

Import PendingChangesRoutes.

Inductive t : Type :=
| Received (req : AuthRequest.t)
| Reviewing (user : JWTPayload.t) (id : string) (data : Review)
    (pendingChange : PendingChange.t)
| Logging (user : JWTPayload.t) (id : string) (data : Review)
    (pendingChange : PendingChange.t) (reviewed : option PendingChange.t)
| Sent (r : Response).

(** The call's three statements. *)
Record Ios : Type := mkIos
  { io_get : Stmt;
    io_review : Stmt;
    io_audit : Stmt }.

Definition settle (body : Task t) : DB -> t * DB :=
  fun db =>
    match body db with
    | (Value c, db') => (c, db')
    | (Responded r, db') => (Sent r, db')
    | (Thrown e, db') => (Sent (on_error e), db')
    end.

Definition resume (io : Ios) (c : t) : DB -> t * DB :=
  match c with
  | Received req =>
      settle
        (user <- return_unless (AuthRequest.user req)
                   (res_status 401 (Error "Not authenticated")) ;;
         id <- return_unless (truthy (AuthRequest.id req))
                 (res_status 400 (Error "Change ID is required")) ;;
         data <- parsed (reviewSchema (AuthRequest.body req)) ;;
         found <- PendingChangeModel.getById (io_get io) id ;;
         pendingChange <-
           return_unless found
             (res_status 404 (Error "Pending change not found")) ;;
         return_if
           (negb (ChangeStatus_eqb (PendingChange.status pendingChange)
                    PENDING))
           (res_status 400 (Error "This change has already been reviewed")) ;;;
         ret (Reviewing user id data pendingChange))
  | Reviewing user id data pendingChange =>
      settle
        (reviewed <-
           PendingChangeModel.review (io_review io) id
             {| PendingChangeModel.reviewedBy := JWTPayload.userId user;
                PendingChangeModel.status := status data;
                PendingChangeModel.reviewNotes := reviewNotes data |} ;;
         ret (Logging user id data pendingChange reviewed))
  | Logging user id data pendingChange reviewed =>
      settle
        (AuditLogModel.create (io_audit io)
           (review_audit user id data pendingChange) ;;;
         ret (Sent (res_json
                      (Success ("Change " ++ ChangeStatus_value (status data))
                         (reviewed_data reviewed)))))
  | Sent r => fun db => (Sent r, db)
  end.

(** Two calls in flight; the schedule says which one runs next ([true]:
    the first). *)
Fixpoint interleave (schedule : list bool) (io1 io2 : Ios) (c1 c2 : t)
    (db : DB) : t * t * DB :=
  match schedule with
  | [] => (c1, c2, db)
  | true :: rest =>
      let (c1', db') := resume io1 c1 db in
      interleave rest io1 io2 c1' c2 db'
  | false :: rest =>
      let (c2', db') := resume io2 c2 db in
      interleave rest io1 io2 c1 c2' db'
  end.

End ReviewCall.

(** ** Sequences of calls of the approval workflow *)

Module Workflow.

Inductive Call : Type :=
| Submit (req : AuthRequest.t) (io_create io_audit : Stmt)
| Review (req : AuthRequest.t) (io_get io_review io_audit : Stmt).

Definition handle (c : Call) : Handler :=
  match c with
  | Submit req io_create io_audit =>
      PendingChangesRoutes.POST_root req io_create io_audit
  | Review req io_get io_review io_audit =>
      PendingChangesRoutes.POST_id_review req io_get io_review io_audit
  end.

(** The database after the calls, served one after the other. *)
Fixpoint serve (calls : list Call) (db : DB) : DB :=
  match calls with
  | [] => db
  | c :: rest => serve rest (snd (handle c db))
  end.

End Workflow.

(** ** The specification's vocabulary *)

(** The error kinds, as the handlers answer them. *)
Definition PolicyViolation : Response :=
  res_status 400 (Error "Super admins do not need approval for changes").
Definition InvalidState : Response :=
  res_status 400 (Error "This change has already been reviewed").
Definition ValidationError : Response :=
  res_status 400 (ErrorIssues "Invalid input").
Definition StorageFailure : Response :=
  res_status 500 (Error "Internal server error").
Definition Forbidden (why : string) : Response :=
  res_status 403 (Error why).

(** A response that reports success. *)
Definition succeeded (r : Response) : Prop := statusCode r = 200.

(** A review request: sent by [user], naming the change [id], with a body
    the schema accepts as [data]. *)
Definition review_request (req : AuthRequest.t) (user : JWTPayload.t)
    (id : string) (data : PendingChangesRoutes.Review) : Prop :=
  AuthRequest.user req = Some user /\
  truthy (AuthRequest.id req) = Some id /\
  PendingChangesRoutes.reviewSchema (AuthRequest.body req) = Some data.

(** Review metadata: all of it unset. *)
Definition unreviewed (pc : PendingChange.t) : Prop :=
  PendingChange.reviewedBy pc = None /\
  PendingChange.reviewedAt pc = None /\
  PendingChange.reviewNotes pc = None.

(** The invariant of the data model on one row. *)
Definition metadata_invariant (pc : PendingChange.t) : Prop :=
  match PendingChange.status pc with
  | PENDING => unreviewed pc
  | APPROVED | REJECTED =>
      PendingChange.reviewedBy pc <> None /\
      PendingChange.reviewedAt pc <> None
  end.

(** Newest first. *)
Definition newer_or_equal (a b : AuditLog.t) : Prop :=
  AuditLog.createdAt b <= AuditLog.createdAt a.

(** The [role] property of a request body. *)
Definition body_role (body : Json) : option Json :=
  match body with
  | JObj fields => assoc "role" fields
  | _ => None
  end.

Definition is_admin (u : User.t) : bool := UserRole_eqb (User.role u) ADMIN.

(** The primary key of [users] holds. *)
Definition users_keyed (db : DB) : Prop := NoDup (map User.id (users db)).

(** ** Sample data: the scenarios of the specification *)

Module Sample.

(** Sample uuids go by a name: the uuid whose bytes are the characters of
    the name, followed by zeros. [id name] is its text. *)
Definition named (name : string) : Uuid.t :=
  match Uuid.of_data
          (firstn 16 (list_byte_of_string name ++ repeat Byte.x00 16)) with
  | Some u => u
  | None =>
      Uuid.mk Byte.x00 Byte.x00 Byte.x00 Byte.x00 Byte.x00 Byte.x00 Byte.x00
        Byte.x00 Byte.x00 Byte.x00 Byte.x00 Byte.x00 Byte.x00 Byte.x00
        Byte.x00 Byte.x00
  end.

Definition id (name : string) : string := Uuid.out (named name).

Definition editor1 : JWTPayload.t :=
  JWTPayload.mk (id "editor1") "editor@gogreen.com" EDITOR.
Definition admin1 : JWTPayload.t :=
  JWTPayload.mk (id "admin1") "admin@gogreen.com" ADMIN.
Definition admin2 : JWTPayload.t :=
  JWTPayload.mk (id "admin2") "second@gogreen.com" ADMIN.

(** A statement the driver runs, drawing the uuid of this name, and one it
    rejects. *)
Definition io (name : string) (now : Date) : Stmt :=
  mkStmt false (named name) now now.
Definition down : Stmt := mkStmt true (named "") 0 0.

(** [submit(user, update, "product", "p1", {price: "12.00"})] *)
Definition submit (user : JWTPayload.t) : AuthRequest.t :=
  AuthRequest.mk (Some user) None
    (JObj [("action", JStr "update");
           ("resourceType", JStr "product");
           ("resourceId", JStr "p1");
           ("changeData", JObj [("price", JStr "12.00")])]).

(** [review(id, user, decision, notes)] *)
Definition review (user : JWTPayload.t) (id decision notes : string)
  : AuthRequest.t :=
  AuthRequest.mk (Some user) (Some id)
    (JObj [("status", JStr decision); ("reviewNotes", JStr notes)]).

Definition user_row (name email : string) (role : UserRole) : User.t :=
  User.mk (id name) email "$argon2id$" role true 0 0.

(** The seeded users; no change and no audit entry yet. *)
Definition seeded : DB :=
  mkDB [user_row "admin1" "admin@gogreen.com" ADMIN;
        user_row "admin2" "second@gogreen.com" ADMIN;
        user_row "editor1" "editor@gogreen.com" EDITOR] [] [].

(** [editor1] submits the change [pc1]. *)
Definition submission : Response * DB :=
  PendingChangesRoutes.POST_root (submit editor1)
    (io "pc1" 10) (io "log1" 11) seeded.
Definition submitted : DB := snd submission.

(** [admin1] approves it. *)
Definition approval : Response * DB :=
  PendingChangesRoutes.POST_id_review
    (review admin1 (id "pc1") "approved" "ok")
    (io "" 20) (io "" 21) (io "log2" 22) submitted.
Definition approved : DB := snd approval.

(** What comes later: another submission, and [admin2] trying to reject
    [pc1]. *)
Definition later : list Workflow.Call :=
  [Workflow.Submit (submit editor1) (io "pc2" 30) (io "log3" 31);
   Workflow.Review (review admin2 (id "pc1") "rejected" "no")
     (io "" 40) (io "" 41) (io "log4" 42)].

(** Two administrators review [pc1] at the same time. *)
Definition first_call : ReviewCall.Ios :=
  ReviewCall.mkIos (io "" 20) (io "" 22) (io "log2" 24).
Definition second_call : ReviewCall.Ios :=
  ReviewCall.mkIos (io "" 21) (io "" 23) (io "log3" 25).

Definition is_email (s : string) : bool := true.
Definition argon2_hash (s : string) : string := "$argon2id$" ++ s.

(** A request on the user [id], sent by [user]. *)
Definition on_user (user : JWTPayload.t) (id : string) (body : Json)
  : AuthRequest.t :=
  AuthRequest.mk (Some user) (Some id) body.

(** Calls on the seeded users: [admin1] creates an editor, tries to
    deactivate itself, and deletes [editor1]. *)
Definition calls : list UsersRoutes.Invocation :=
  [UsersRoutes.mkInvocation UsersRoutes.CreateUserCall
     (AuthRequest.mk (Some admin1) None
        (JObj [("email", JStr "new@gogreen.com");
               ("password", JStr "secret1");
               ("role", JStr "editor")]))
     (io "" 50) (io "editor2" 51) (io "log5" 52);
   UsersRoutes.mkInvocation UsersRoutes.ToggleActiveCall
     (on_user admin1 (id "admin1") (JObj [("isActive", JBool false)]))
     (io "" 60) (io "" 61) (io "log6" 62);
   UsersRoutes.mkInvocation UsersRoutes.DeleteUserCall
     (on_user admin1 (id "editor1") JNull)
     (io "" 70) (io "" 71) (io "log7" 72)].



End Sample.

(** ** [routes/audit.routes.ts]: the trail of one resource *)

Module AuditRoutes.

(** [router.get('/resource/:resourceId', authenticateToken, requireAdmin,
    ...)]; [resourceId] is [req.params.resourceId]. *)
Definition GET_resource (resourceId : option string) (io : Stmt)
  : Sending (Page AuditLog.t) :=
  try_catch_sending
    (resourceId <- return_unless (truthy resourceId)
                     (res_status 400 (Error "Resource ID is required")) ;;
     logs <- AuditLogModel.getByResourceId io resourceId ;;
     ret (res_page logs))
    (fun _ => res_status 500 (Error "Internal server error")).

End AuditRoutes.

(** ** [routes/auth.routes.ts] *)

Module AuthRoutes.
Section Libraries.

(** What the handlers take from libraries: Zod's test of an e-mail address,
    [argon2.hash], [argon2.verify(hash, plain)] and [jwt.sign] with the
    secret and the expiry of [config.jwt]. *)
Variable is_email : string -> bool.
Variable argon2_hash : string -> string.
Variable argon2_verify : string -> string -> bool.
Variable jwt_sign : JWTPayload.t -> string.

Record Login : Type := mkLogin
  { email : string;
    password : string }.

Definition loginSchema (body : Json) : option Login :=
  match body with
  | JObj fields =>
      let? email := z_string (assoc "email" fields) in
      if negb (is_email email) then None else
      let? password := z_string (assoc "password" fields) in
      if (Z.of_nat (String.length password) <? 6) then None else
      Some (mkLogin email password)
  | _ => None
  end.

(** What a successful login sends: the cookie [admin_session] with the
    token, and [{ message: 'Login successful', user: {id, email, role} }]. *)
Record LoggedIn : Type := mkLoggedIn
  { cookie : string;
    user_id : string;
    user_email : string;
    user_role : UserRole }.

(** [router.post('/login', ...)] *)
Definition POST_login (body : Json) (io_find : Stmt) : Sending LoggedIn :=
  try_catch_sending
    (data <- parsed (loginSchema body) ;;
     (* Find user *)
     found <- UserModel.findByEmail io_find (email data) ;;
     user <- return_unless found
               (res_status 401 (Error "Invalid credentials")) ;;
     (* Verify password *)
     return_if (negb (argon2_verify (User.password user) (password data)))
       (res_status 401 (Error "Invalid credentials")) ;;;
     (* Generate JWT *)
     let payload :=
       {| JWTPayload.userId := User.id user;
          JWTPayload.email := User.email user;
          JWTPayload.role := User.role user |} in
     ret (mkLoggedIn (jwt_sign payload) (User.id user) (User.email user)
            (User.role user)))
    on_error.

(** What [/me] sends: [{id, email, role}]. *)
Record Me : Type := mkMe
  { me_id : string;
    me_email : string;
    me_role : UserRole }.

(** [router.get('/me', authenticateToken, ...)] *)
Definition GET_me (req : AuthRequest.t) (io_find : Stmt) : Sending Me :=
  try_catch_sending
    (me <- return_unless (AuthRequest.user req)
             (res_status 401 (Error "Not authenticated")) ;;
     found <- UserModel.findById io_find (JWTPayload.userId me) ;;
     user <- return_unless found
               (res_status 404 (Error "User not found")) ;;
     ret (mkMe (User.id user) (User.email user) (User.role user)))
    (fun _ => res_status 500 (Error "Internal server error")).

Record ChangePassword : Type := mkChangePassword
  { currentPassword : string;
    newPassword : string }.

Definition changePasswordSchema (body : Json) : option ChangePassword :=
  match body with
  | JObj fields =>
      let? currentPassword := z_string (assoc "currentPassword" fields) in
      let? newPassword := z_string (assoc "newPassword" fields) in
      if (Z.of_nat (String.length newPassword) <? 6) then None else
      Some (mkChangePassword currentPassword newPassword)
  | _ => None
  end.

(** [router.post('/change-password', authenticateToken, ...)]; on success
    it sends [{ message: 'Password changed successfully' }]. *)
Definition POST_change_password (req : AuthRequest.t)
    (io_find io_update : Stmt) : Sending string :=
  try_catch_sending
    (me <- return_unless (AuthRequest.user req)
             (res_status 401 (Error "Not authenticated")) ;;
     data <- parsed (changePasswordSchema (AuthRequest.body req)) ;;
     found <- UserModel.findById io_find (JWTPayload.userId me) ;;
     user <- return_unless found
               (res_status 404 (Error "User not found")) ;;
     (* Verify current password *)
     return_if
       (negb (argon2_verify (User.password user) (currentPassword data)))
       (res_status 401 (Error "Current password is incorrect")) ;;;
     (* Hash new password *)
     let hashedPassword := argon2_hash (newPassword data) in
     (* Update password *)
     UserModel.updatePassword io_update (User.id user) hashedPassword ;;;
     ret "Password changed successfully")
    on_error.

End Libraries.
End AuthRoutes.

(** ** [middleware/audit.middleware.ts] *)

(** The [data] a response was sent with. *)
Definition sent (r : Response) : Body := body r.

Module AuditMiddleware.
Section Libraries.

(** [String.prototype.trim]. *)
Variable trim : string -> string.

(** The request as the middleware reads it. *)
Record Request : Type := mkRequest
  { user : option JWTPayload.t;
    method : string;
    path : string;
    body : Json;
    query : Json;
    params : list (string * string);
    x_forwarded_for : option string;    (* [req.headers['x-forwarded-for']] *)
    user_agent : option string;         (* [req.headers['user-agent']] *)
    remoteAddress : option string }.    (* [req.socket.remoteAddress] *)

(** [req.params[key]] *)
Fixpoint param (key : string) (params : list (string * string))
  : option string :=
  match params with
  | [] => None
  | (k, v) :: rest => if String.eqb k key then Some v else param key rest
  end.

Definition comma : Ascii.ascii := Ascii.ascii_of_nat 44.

(** [s.split(',')[0]] *)
Fixpoint before_comma (s : string) : string :=
  match s with
  | EmptyString => EmptyString
  | String c rest =>
      if Ascii.eqb c comma then EmptyString
      else String c (before_comma rest)
  end.

(** [a || b] on strings that may be [undefined]. *)
Definition or_else (a b : option string) : option string :=
  match truthy a with
  | Some s => Some s
  | None => b
  end.

Definition ipAddress (req : Request) : string :=
  trim (before_comma
          (match or_else (x_forwarded_for req)
                   (or_else (remoteAddress req) (Some "")) with
           | Some s => s
           | None => ""
           end)).

Definition userAgent (req : Request) : string :=
  match or_else (user_agent req) (Some "") with
  | Some s => s
  | None => ""
  end.

(** [data?.id] and [data?.data?.id] of the bodies the handlers of this
    development send: none has an [id] of its own, and [data.data] is the
    change or the user. *)
Definition data_id (data : Body) : option string := None.

Definition data_data_id (data : Body) : option string :=
  match data with
  | Success _ (PendingChangeData pc) => Some (PendingChange.id pc)
  | Success _ (UserData id _ _ _) => Some id
  | _ => None
  end.

(** [req.params.id || data?.id || data?.data?.id] *)
Definition resourceId (req : Request) (data : Body) : option string :=
  or_else (param "id" (params req)) (or_else (data_id data) (data_data_id data)).

Definition details (req : Request) : Json :=
  object
    [("method", Some (JStr (method req)));
     ("path", Some (JStr (path req)));
     ("body", Some (body req));
     ("query", Some (query req));
     ("params", Some (JObj (map (fun kv => (fst kv, JStr (snd kv)))
                             (params req))))].

(** [auditLog(action, resourceType)] in front of the handler [next]: with a
    user on the request, [res.json] is replaced by a function that, when
    the status is below 400, starts [AuditLogModel.create] (its rejection
    is caught and logged) and then sends the data as before. *)
Definition auditLog (action : ActionType) (resourceType : option string)
    (req : Request) (io : Stmt) (next : Handler) : Handler :=
  fun db =>
    match user req with
    | Some user =>
        let (r, db1) := next db in
        if statusCode r <? 400 then
          let (_, db2) :=
            AuditLogModel.create io
              {| AuditLogModel.userId := JWTPayload.userId user;
                 AuditLogModel.action := action;
                 AuditLogModel.resourceType := resourceType;
                 AuditLogModel.resourceId :=
                   resourceId req (sent r);
                 AuditLogModel.details := Some (details req);
                 AuditLogModel.ipAddress := Some (ipAddress req);
                 AuditLogModel.userAgent := Some (userAgent req) |} db1 in
          (r, db2)
        else (r, db1)
    | None => next db
    end.

End Libraries.
End AuditMiddleware.

(** ** All the calls that write, in sequence *)

Module Api.
Section Libraries.

Variable is_email : string -> bool.
Variable argon2_hash : string -> string.
Variable argon2_verify : string -> string -> bool.

Inductive Call : Type :=
| WorkflowCall (c : Workflow.Call)
| UsersCall (c : UsersRoutes.Invocation)
| ChangePasswordCall (req : AuthRequest.t) (io_find io_update : Stmt).

(** The database a call leaves behind. *)
Definition effect (c : Call) (db : DB) : DB :=
  match c with
  | WorkflowCall c => snd (Workflow.handle c db)
  | UsersCall c =>
      snd (UsersRoutes.handle is_email argon2_hash (UsersRoutes.call c)
             (UsersRoutes.request c) (UsersRoutes.io1 c) (UsersRoutes.io2 c)
             (UsersRoutes.io3 c) db)
  | ChangePasswordCall req io_find io_update =>
      snd (AuthRoutes.POST_change_password argon2_hash argon2_verify req
             io_find io_update db)
  end.

Fixpoint serve (calls : list Call) (db : DB) : DB :=
  match calls with
  | [] => db
  | c :: rest => serve rest (effect c db)
  end.

End Libraries.
End Api.

(** ** What a task keeps

    [keeps R m]: whatever [m] answers, the database it leaves is related by
    [R] to the one it found. *)

Definition keeps (R : DB -> DB -> Prop) {A} (m : Task A) : Prop :=
  forall db, R db (snd (m db)).

(** The audit log has only grown. *)
Definition audit_grows (db db' : DB) : Prop :=
  exists added, auditLogs db' = (auditLogs db ++ added)%list.

Definition same_users (db db' : DB) : Prop := users db' = users db.

Definition same_pendingChanges (db db' : DB) : Prop :=
  pendingChanges db' = pendingChanges db.

(** [users.email] is [unique()]. *)
Definition emails_unique (db : DB) : Prop :=
  NoDup (map User.email (users db)).

(** The primary key of [pending_changes] holds. *)
Definition changes_keyed (db : DB) : Prop :=
  NoDup (map PendingChange.id (pendingChanges db)).

(** Who is stored, under which id, e-mail address, role and active flag:
    all of a user but the password and the dates. *)
Definition identity (u : User.t) : string * string * UserRole * bool :=
  (User.id u, User.email u, User.role u, User.isActive u).

(** Newest first, for changes. *)
Definition newer_change (a b : PendingChange.t) : Prop :=
  PendingChange.createdAt b <= PendingChange.createdAt a.

(** The constraints and the invariant of [pending_changes] together. *)
Definition changes_ok (db : DB) : Prop :=
  changes_keyed db /\ Forall metadata_invariant (pendingChanges db).

Definition changes_kept (db db' : DB) : Prop := changes_ok db -> changes_ok db'.

(** The constraints of [users] together. *)
Definition users_ok (db : DB) : Prop := users_keyed db /\ emails_unique db.

Definition users_kept (db db' : DB) : Prop := users_ok db -> users_ok db'.

(** The administrators' accounts. *)
Definition administrators (db : DB)
  : list (string * string * UserRole * bool) :=
  map identity (filter is_admin (users db)).

Definition same_administrators (db db' : DB) : Prop :=
  administrators db' = administrators db.

(** ** Sample data: accounts, logins and the audit middleware *)

Module Scenario.

(** Stand-ins for [argon2.verify], [jwt.sign] and [trim]. *)
Definition argon2_verify (hash plain : string) : bool :=
  String.eqb hash (Sample.argon2_hash plain).
Definition jwt_sign (payload : JWTPayload.t) : string :=
  "jwt." ++ JWTPayload.userId payload.
Definition trim (s : string) : string := s.

Definition account (name email password : string) (role : UserRole)
  : User.t :=
  User.mk (Sample.id name) email (Sample.argon2_hash password) role true 0 0.

Definition admin : User.t :=
  account "admin1" "admin@gogreen.com" "admin-secret" ADMIN.
Definition editor : User.t :=
  account "editor1" "editor@gogreen.com" "secret1" EDITOR.

(** The accounts, with the change [pc1] of [editor1] submitted. *)
Definition accounts : DB :=
  mkDB [admin; editor] (auditLogs Sample.submitted)
    (pendingChanges Sample.submitted).

(** [{email, password}] *)
Definition credentials (email password : string) : Json :=
  JObj [("email", JStr email); ("password", JStr password)].

(** [editor1] changes its password. *)
Definition new_password (current new : string) : AuthRequest.t :=
  AuthRequest.mk (Some Sample.editor1) None
    (JObj [("currentPassword", JStr current); ("newPassword", JStr new)]).

(** [admin1] creates a user. *)
Definition new_user (email : string) : AuthRequest.t :=
  AuthRequest.mk (Some Sample.admin1) None
    (JObj [("email", JStr email);
           ("password", JStr "secret2");
           ("role", JStr "editor")]).

(** Calls of every kind, one after the other: [admin1] approves [pc1],
    creates [editor2], deactivates [editor1]; [editor1] changes its
    password; [admin1] asks for the deletion of [editor1], to whom [pc1]
    and its audit entry refer. *)
Definition calls : list Api.Call :=
  [Api.WorkflowCall
     (Workflow.Review (Sample.review Sample.admin1 (Sample.id "pc1") "approved" "ok")
        (Sample.io "" 20) (Sample.io "" 21) (Sample.io "log2" 22));
   Api.UsersCall
     (UsersRoutes.mkInvocation UsersRoutes.CreateUserCall
        (new_user "new@gogreen.com")
        (Sample.io "" 50) (Sample.io "editor2" 51) (Sample.io "log5" 52));
   Api.UsersCall
     (UsersRoutes.mkInvocation UsersRoutes.ToggleActiveCall
        (Sample.on_user Sample.admin1 (Sample.id "editor1")
           (JObj [("isActive", JBool false)]))
        (Sample.io "" 60) (Sample.io "" 61) (Sample.io "log6" 62));
   Api.ChangePasswordCall (new_password "secret1" "secret3")
     (Sample.io "" 70) (Sample.io "" 71);
   Api.UsersCall
     (UsersRoutes.mkInvocation UsersRoutes.DeleteUserCall
        (Sample.on_user Sample.admin1 (Sample.id "editor1") JNull)
        (Sample.io "" 80) (Sample.io "" 81) (Sample.io "log7" 82))].

(** A request behind a proxy, as the audit middleware reads it, and a
    handler that answers with a change. *)
Definition request : AuditMiddleware.Request :=
  AuditMiddleware.mkRequest (Some Sample.admin1) "POST" "/api/categories"
    (JObj [("name", JStr "Planters")]) (JObj []) []
    (Some "203.0.113.7,10.0.0.1") (Some "curl/8.0") (Some "10.0.0.1").

Definition answered : Handler :=
  PendingChangesRoutes.POST_root (Sample.submit Sample.editor1)
    (Sample.io "pc2" 30) (Sample.io "log3" 31).

Definition pc1_respelled : string :=
  "{70633100-0000-0000-0000-000000000000}".


End Scenario.

(** * Proofs *)

(** ** Running a handler body *)

Ltac unfold_task :=
  unfold try_catch, bind, return_unless, return_if, parsed, await, ret,
    respond, throw in *.

Ltac invert_pair H := inversion H; subst; clear H.

(** ** Uuids *)

Lemma Uuid_byte b :
  Uuid.digit (Uuid.hex_char (Uuid.hi b)) = Some (Uuid.hi b) /\
  Uuid.digit (Uuid.hex_char (Uuid.lo b)) = Some (Uuid.lo b) /\
  Uuid.byte_of (Uuid.hi b) (Uuid.lo b) = b /\
  Ascii.eqb (Uuid.hex_char (Uuid.hi b)) Uuid.hyphen = false /\
  Ascii.eqb (Uuid.hex_char (Uuid.hi b)) Uuid.left_brace = false.
Proof. destruct b; vm_compute; repeat split. Qed.

Lemma Uuid_read_byte n i b rest :
  Uuid.read_bytes (S n) i
    (String (Uuid.hex_char (Uuid.hi b))
       (String (Uuid.hex_char (Uuid.lo b)) rest))
  = match Uuid.read_bytes n (S i) (Uuid.skip_hyphen i rest) with
    | Some (bytes, src') => Some (b :: bytes, src')
    | None => None
    end.
Proof.
  destruct (Uuid_byte b) as (Hh & Hl & Hb & _).
  cbn [Uuid.read_bytes]. rewrite Hh, Hl, Hb. reflexivity.
Qed.

Lemma Uuid_skip_digit i b rest :
  Uuid.skip_hyphen i (String (Uuid.hex_char (Uuid.hi b)) rest)
  = String (Uuid.hex_char (Uuid.hi b)) rest.
Proof.
  destruct (Uuid_byte b) as (_ & _ & _ & Hh & _).
  unfold Uuid.skip_hyphen. rewrite Hh. reflexivity.
Qed.

(** What [uuid_out] prints, [uuid_in] reads back. *)
Lemma Uuid_input_out u : Uuid.input (Uuid.out u) = Some u.
Proof.
  destruct u. unfold Uuid.out, Uuid.input, Uuid.data.
  cbn [Uuid.print Uuid.d0 Uuid.d1 Uuid.d2 Uuid.d3 Uuid.d4 Uuid.d5 Uuid.d6
         Uuid.d7 Uuid.d8 Uuid.d9 Uuid.d10 Uuid.d11 Uuid.d12 Uuid.d13
         Uuid.d14 Uuid.d15].
  destruct (Uuid_byte d0) as (_ & _ & _ & _ & Hb). rewrite Hb.
  repeat (rewrite Uuid_read_byte;
          first [ rewrite Uuid_skip_digit
                | change (Uuid.skip_hyphen ?i (String Uuid.hyphen ?r)) with r
                | change (Uuid.skip_hyphen ?i EmptyString)
                    with EmptyString ]).
  reflexivity.
Qed.

Lemma Uuid_out_inj a b : Uuid.out a = Uuid.out b -> a = b.
Proof.
  intros E. assert (Some a = Some b) as H
      by (rewrite <- !Uuid_input_out, E; reflexivity).
  congruence.
Qed.

Lemma Uuid_input_uuid io : Uuid.input (uuid io) = Some (drawn io).
Proof. apply Uuid_input_out. Qed.

Lemma Uuid_eq_dec (a b : Uuid.t) : {a = b} + {a <> b}.
Proof.
  destruct (String.string_dec (Uuid.out a) (Uuid.out b)) as [E|Hne].
  - left. apply Uuid_out_inj, E.
  - right. intros ->. apply Hne. reflexivity.
Qed.

(** Two uuids select different rows. *)
Lemma change_has_other_id id id' r :
  id <> id' ->
  PendingChangeModel.has_id id r = true ->
  PendingChangeModel.has_id id' r = false.
Proof.
  unfold PendingChangeModel.has_id. intros Hne Hr.
  apply String.eqb_eq in Hr. apply String.eqb_neq. intros E.
  apply Hne, Uuid_out_inj. congruence.
Qed.

Lemma user_has_other_id id id' r :
  id <> id' ->
  UserModel.has_id id r = true -> UserModel.has_id id' r = false.
Proof.
  unfold UserModel.has_id. intros Hne Hr.
  apply String.eqb_eq in Hr. apply String.eqb_neq. intros E.
  apply Hne, Uuid_out_inj. congruence.
Qed.

(** A parameter under which a row is found spells a uuid. *)
Lemma change_lookup_input id db r :
  PendingChangeModel.lookup id db = Some r ->
  exists u,
    Uuid.input id = Some u /\
    first_or_null
      (select_where (PendingChangeModel.has_id u) (pendingChanges db))
    = Some r.
Proof.
  unfold PendingChangeModel.lookup.
  destruct (Uuid.input id) as [u|]; [|discriminate].
  intros H. exists u. auto.
Qed.

Lemma user_lookup_input id db r :
  UserModel.lookup id db = Some r ->
  exists u,
    Uuid.input id = Some u /\
    first_or_null (select_where (UserModel.has_id u) (users db)) = Some r.
Proof.
  unfold UserModel.lookup.
  destruct (Uuid.input id) as [u|]; [|discriminate].
  intros H. exists u. auto.
Qed.

Lemma UserRole_eqb_eq (a b : UserRole) : UserRole_eqb a b = true <-> a = b.
Proof. destruct a, b; simpl; split; congruence. Qed.

Lemma ChangeStatus_eqb_eq (a b : ChangeStatus) :
  ChangeStatus_eqb a b = true <-> a = b.
Proof. destruct a, b; simpl; split; congruence. Qed.

(** ** The models *)

Lemma PendingChangeModel_create_inv io data db pc db' :
  PendingChangeModel.create io data db = (Value pc, db') ->
  rejects io = false /\
  taken PendingChange.id (uuid io) (pendingChanges db) = false /\
  PendingChange.id pc = uuid io /\
  PendingChange.userId pc = PendingChangeModel.userId data /\
  PendingChange.action pc = PendingChangeModel.action data /\
  PendingChange.resourceType pc = PendingChangeModel.resourceType data /\
  PendingChange.resourceId pc = PendingChangeModel.resourceId data /\
  Some (PendingChange.changeData pc) = PendingChangeModel.changeData data /\
  PendingChange.status pc = PENDING /\
  unreviewed pc /\
  db' = with_pendingChanges (pendingChanges db ++ [pc]) db.
Proof.
  unfold PendingChangeModel.create, await, nullable. intros H.
  destruct (rejects io); [discriminate|].
  destruct (PendingChangeModel.changeData data) as [[]|] eqn:Hcd;
    try discriminate;
    (destruct (taken _ _ _); [discriminate|]);
    invert_pair H; repeat split; reflexivity.
Qed.

Lemma PendingChangeModel_create_other io data db o db' :
  PendingChangeModel.create io data db = (o, db') ->
  (forall pc, o <> Value pc) -> db' = db.
Proof.
  unfold PendingChangeModel.create, await. intros H Ho.
  destruct (rejects io); [congruence|].
  destruct (nullable _); [|congruence].
  destruct (taken _ _ _); [congruence|].
  invert_pair H. exfalso. eapply Ho. reflexivity.
Qed.

Lemma AuditLogModel_create_inv io data db entry db' :
  AuditLogModel.create io data db = (Value entry, db') ->
  rejects io = false /\
  AuditLog.id entry = uuid io /\
  AuditLog.userId entry = AuditLogModel.userId data /\
  AuditLog.action entry = AuditLogModel.action data /\
  AuditLog.resourceType entry = AuditLogModel.resourceType data /\
  AuditLog.resourceId entry = AuditLogModel.resourceId data /\
  AuditLog.details entry = nullable (AuditLogModel.details data) /\
  AuditLog.createdAt entry = clock io /\
  db' = with_auditLogs (auditLogs db ++ [entry]) db.
Proof.
  unfold AuditLogModel.create, await. intros H.
  destruct (rejects io); [discriminate|].
  destruct (taken _ _ _); [discriminate|].
  invert_pair H. repeat split; reflexivity.
Qed.

(** ** Submitting a change *)

(** What a submission that reports success has done. *)
Lemma POST_root_succeeded req io_create io_audit db r db' :
  PendingChangesRoutes.POST_root req io_create io_audit db = (r, db') ->
  succeeded r ->
  exists user data pc entry db1,
    AuthRequest.user req = Some user /\
    JWTPayload.role user = EDITOR /\
    PendingChangesRoutes.createChangeSchema (AuthRequest.body req)
      = Some data /\
    PendingChangeModel.create io_create
      {| PendingChangeModel.userId := JWTPayload.userId user;
         PendingChangeModel.action := PendingChangesRoutes.action data;
         PendingChangeModel.resourceType :=
           PendingChangesRoutes.resourceType data;
         PendingChangeModel.resourceId := PendingChangesRoutes.resourceId data;
         PendingChangeModel.changeData := PendingChangesRoutes.changeData data;
         PendingChangeModel.previousData :=
           PendingChangesRoutes.previousData data |} db = (Value pc, db1) /\
    AuditLogModel.create io_audit
      {| AuditLogModel.userId := JWTPayload.userId user;
         AuditLogModel.action := CREATE;
         AuditLogModel.resourceType := Some "pending_change";
         AuditLogModel.resourceId := Some (PendingChange.id pc);
         AuditLogModel.details :=
           Some (object
                   [("changeType",
                      Some (JStr (ActionType_value
                                    (PendingChangesRoutes.action data))));
                    ("targetResource",
                      Some (JStr (PendingChangesRoutes.resourceType data)))]);
         AuditLogModel.ipAddress := None;
         AuditLogModel.userAgent := None |} db1 = (Value entry, db') /\
    r = res_json (Success "Change submitted for approval"
                    (PendingChangeData pc)).
Proof.
  unfold PendingChangesRoutes.POST_root, succeeded. unfold_task.
  intros H Hr.
  destruct (AuthRequest.user req) as [user|];
    [|invert_pair H; discriminate].
  destruct (JWTPayload.role user) eqn:Hrole; simpl in H;
    [invert_pair H; discriminate|].
  destruct (PendingChangesRoutes.createChangeSchema _) as [data|];
    [|invert_pair H; discriminate].
  destruct (PendingChangeModel.create _ _ _) as [[pc| |e] db1] eqn:Hc;
    [| invert_pair H | invert_pair H; destruct e; discriminate ].
  2:{ exfalso. revert Hc. unfold PendingChangeModel.create, await.
      destruct (rejects _); [discriminate|]. destruct (nullable _);
        [|discriminate]. destruct (taken _ _ _); discriminate. }
  destruct (AuditLogModel.create _ _ _) as [[entry| |e] db2] eqn:Ha;
    [| invert_pair H | invert_pair H; destruct e; discriminate ].
  2:{ exfalso. revert Ha. unfold AuditLogModel.create, await.
      destruct (rejects _); [discriminate|].
      destruct (taken _ _ _); discriminate. }
  invert_pair H. exists user, data, pc, entry, db1. repeat split; auto.
Qed.

Lemma taken_false_not_In {Row} (col : Row -> string) k t :
  taken col k t = false -> ~ In k (map col t).
Proof.
  unfold taken. intros H Hin. apply in_map_iff in Hin as (r & Hr & Hin).
  assert (existsb (fun r => String.eqb (col r) k) t = true) as E.
  { apply existsb_exists. exists r. split; [assumption|].
    rewrite Hr. apply String.eqb_refl. }
  congruence.
Qed.

(** C4. A submission by an administrator is answered with the policy
    violation "Super admins do not need approval for changes", whatever its
    body, and leaves the database as it was: no pending change is stored. *)
Theorem admin_submit_policy_violation req user io_create io_audit db :
  AuthRequest.user req = Some user ->
  JWTPayload.role user = ADMIN ->
  PendingChangesRoutes.POST_root req io_create io_audit db
    = (PolicyViolation, db).
Proof.
  intros Hu Hrole. unfold PendingChangesRoutes.POST_root. unfold_task.
  rewrite Hu, Hrole. reflexivity.
Qed.

(** C6. A submission that reports success has appended one row to
    [pending_changes], under an id no stored row had; the row is the one the
    response carries, its status is [pending] and its reviewer, review time
    and review notes are unset. If every stored row satisfied the invariant
    of the data model (pending rows carry no review metadata, other rows
    carry a reviewer and a review time), every row still does. *)
Theorem submit_stores_pending req io_create io_audit db r db' :
  PendingChangesRoutes.POST_root req io_create io_audit db = (r, db') ->
  succeeded r ->
  exists pc,
    r = res_json (Success "Change submitted for approval"
                    (PendingChangeData pc)) /\
    pendingChanges db' = (pendingChanges db ++ [pc])%list /\
    ~ In (PendingChange.id pc) (map PendingChange.id (pendingChanges db)) /\
    PendingChange.status pc = PENDING /\
    unreviewed pc /\
    (Forall metadata_invariant (pendingChanges db) ->
     Forall metadata_invariant (pendingChanges db')).
Proof.
  intros H Hr.
  destruct (POST_root_succeeded _ _ _ _ H Hr)
    as (user & data & pc & entry & db1 & _ & _ & _ & Hc & Ha & ->).
  apply PendingChangeModel_create_inv in Hc
    as (_ & Hfresh & Hid & _ & _ & _ & _ & _ & Hst & Hun & ->).
  apply AuditLogModel_create_inv in Ha as (_ & _ & _ & _ & _ & _ & _ & _ & ->).
  exists pc. simpl. repeat split; try assumption; try apply Hun.
  - rewrite Hid. apply taken_false_not_In. assumption.
  - intros Hinv. apply Forall_app. split; [assumption|].
    constructor; [|constructor]. unfold metadata_invariant.
    rewrite Hst. assumption.
Qed.

(** ** Updates and the rows a key selects *)

Section UpdateLemmas.
Context {Row : Type}.
Variables (p q : Row -> bool) (s : Row -> Row).

Lemma first_or_null_map (t : list Row) :
  first_or_null (map s t) = option_map s (first_or_null t).
Proof. destruct t; reflexivity. Qed.

(** An update that does not move rows in or out of [q] commutes with the
    selection of [q]. *)
Lemma select_update_where (t : list Row) :
  (forall r, q (s r) = q r) ->
  select_where q (update_where p s t)
    = update_where p s (select_where q t).
Proof.
  intros Hq. unfold select_where, update_where.
  induction t as [|r t IH]; simpl; [reflexivity|].
  destruct (p r) eqn:Hp.
  - rewrite Hq. destruct (q r); simpl; rewrite ?Hp, IH; reflexivity.
  - destruct (q r); simpl; rewrite ?Hp, IH; reflexivity.
Qed.

Lemma update_where_all (t : list Row) :
  Forall (fun r => p r = true) t -> update_where p s t = map s t.
Proof.
  unfold update_where. induction 1 as [|r t Hr _ IH]; simpl;
    [reflexivity|]. rewrite Hr, IH. reflexivity.
Qed.

Lemma update_where_none (t : list Row) :
  Forall (fun r => p r = false) t -> update_where p s t = t.
Proof.
  unfold update_where. induction 1 as [|r t Hr _ IH]; simpl;
    [reflexivity|]. rewrite Hr, IH. reflexivity.
Qed.

Lemma select_where_all (t : list Row) :
  Forall (fun r => q r = true) (select_where q t).
Proof.
  apply Forall_forall. intros r Hr. apply filter_In in Hr. apply Hr.
Qed.
End UpdateLemmas.

Lemma first_or_null_app {Row} (t t' : list Row) r :
  first_or_null t = Some r -> first_or_null (t ++ t') = Some r.
Proof. destruct t; simpl; [discriminate|auto]. Qed.

(** The rows another key selects are not touched by a review. *)
Lemma select_other_id_review io data id id' t :
  id <> id' ->
  select_where (PendingChangeModel.has_id id)
    (update_where (PendingChangeModel.has_id id')
       (PendingChangeModel.review_set io data) t)
  = select_where (PendingChangeModel.has_id id) t.
Proof.
  intros Hne. rewrite select_update_where by reflexivity.
  apply update_where_none.
  eapply Forall_impl; [|apply select_where_all].
  intros r Hr. eapply change_has_other_id; eassumption.
Qed.

(** The rows the reviewed key selects are the old ones, reviewed. *)
Lemma select_same_id_review io data id t :
  select_where (PendingChangeModel.has_id id)
    (update_where (PendingChangeModel.has_id id)
       (PendingChangeModel.review_set io data) t)
  = update_returning (PendingChangeModel.has_id id)
      (PendingChangeModel.review_set io data) t.
Proof.
  rewrite select_update_where by reflexivity.
  apply update_where_all, select_where_all.
Qed.

Lemma PendingChangeModel_review_inv io id data db reviewed db' :
  PendingChangeModel.review io id data db = (Value reviewed, db') ->
  rejects io = false /\
  reviewed = option_map (PendingChangeModel.review_set io data)
               (PendingChangeModel.lookup id db) /\
  PendingChangeModel.lookup id db' = reviewed /\
  exists u,
    Uuid.input id = Some u /\
    db' = with_pendingChanges
            (update_where (PendingChangeModel.has_id u)
               (PendingChangeModel.review_set io data) (pendingChanges db))
            db.
Proof.
  unfold PendingChangeModel.review, await. intros H.
  destruct (rejects io); [discriminate|].
  unfold PendingChangeModel.lookup.
  destruct (Uuid.input id) as [u|]; [|discriminate]. invert_pair H.
  simpl.
  rewrite select_same_id_review. unfold update_returning.
  rewrite first_or_null_map.
  split; [reflexivity|]. split; [reflexivity|]. split; [reflexivity|].
  exists u. split; reflexivity.
Qed.

Lemma PendingChangeModel_review_thrown io id data db :
  rejects io = true ->
  PendingChangeModel.review io id data db = (Thrown DbError, db).
Proof. unfold PendingChangeModel.review, await. intros ->. reflexivity. Qed.

(** ** Reviewing a change *)

(** What a review that reports success has done. *)
Lemma POST_id_review_succeeded req io_get io_review io_audit db r db' :
  PendingChangesRoutes.POST_id_review req io_get io_review io_audit db
    = (r, db') ->
  succeeded r ->
  exists user id data old reviewed entry db1,
    review_request req user id data /\
    rejects io_get = false /\
    PendingChangeModel.lookup id db = Some old /\
    PendingChange.status old = PENDING /\
    PendingChangeModel.review io_review id
      {| PendingChangeModel.reviewedBy := JWTPayload.userId user;
         PendingChangeModel.status := PendingChangesRoutes.status data;
         PendingChangeModel.reviewNotes :=
           PendingChangesRoutes.reviewNotes data |} db
      = (Value reviewed, db1) /\
    AuditLogModel.create io_audit
      (PendingChangesRoutes.review_audit user id data old) db1
      = (Value entry, db') /\
    r = res_json
          (Success ("Change "
                    ++ ChangeStatus_value (PendingChangesRoutes.status data))
             (PendingChangesRoutes.reviewed_data reviewed)).
Proof.
  unfold PendingChangesRoutes.POST_id_review, succeeded, review_request.
  unfold_task. intros H Hr.
  destruct (AuthRequest.user req) as [user|];
    [|invert_pair H; discriminate].
  destruct (truthy (AuthRequest.id req)) as [id|];
    [|invert_pair H; discriminate].
  destruct (PendingChangesRoutes.reviewSchema _) as [data|];
    [|invert_pair H; discriminate].
  unfold PendingChangeModel.getById, await in H.
  destruct (rejects io_get); [invert_pair H; discriminate|].
  destruct (Uuid.input id) as [uu|] eqn:Hinput; [|invert_pair H; discriminate].
  destruct (PendingChangeModel.lookup id db) as [old|] eqn:Hold;
    [|invert_pair H; discriminate].
  destruct (ChangeStatus_eqb (PendingChange.status old) PENDING) eqn:Hst;
    simpl in H; [|invert_pair H; discriminate].
  apply ChangeStatus_eqb_eq in Hst.
  destruct (PendingChangeModel.review _ _ _ _) as [[reviewed| |e] db1] eqn:Hrev.
  2:{ exfalso. revert Hrev. unfold PendingChangeModel.review, await.
      destruct (rejects _); [discriminate|]. rewrite Hinput. discriminate. }
  2:{ invert_pair H. destruct e; discriminate. }
  destruct (AuditLogModel.create _ _ _) as [[entry| |e] db2] eqn:Ha.
  2:{ exfalso. revert Ha. unfold AuditLogModel.create, await.
      destruct (rejects _); [discriminate|].
      destruct (taken _ _ _); discriminate. }
  2:{ invert_pair H. destruct e; discriminate. }
  invert_pair H.
  exists user, id, data, old, reviewed, entry, db1. repeat split; auto.
Qed.

(** What a review answers on a change that is no longer pending. *)
Lemma POST_id_review_not_pending req user id data io_get io_review io_audit
    db pc :
  review_request req user id data ->
  rejects io_get = false ->
  PendingChangeModel.lookup id db = Some pc ->
  PendingChange.status pc <> PENDING ->
  PendingChangesRoutes.POST_id_review req io_get io_review io_audit db
    = (InvalidState, db).
Proof.
  intros (Hu & Hid & Hdata) Hio Hpc Hst.
  unfold PendingChangesRoutes.POST_id_review. unfold_task.
  rewrite Hu, Hid, Hdata. unfold PendingChangeModel.getById, await.
  destruct (change_lookup_input _ _ Hpc) as (uu & Hinput & _).
  rewrite Hio, Hinput, Hpc.
  destruct (ChangeStatus_eqb (PendingChange.status pc) PENDING) eqn:E.
  - apply ChangeStatus_eqb_eq in E. contradiction.
  - reflexivity.
Qed.

Lemma z_enum_member {A} (value : A -> string) members v m :
  z_enum value members v = Some m -> In m members.
Proof.
  unfold z_enum. destruct v as [[]|]; try discriminate.
  intros H. apply find_some in H. apply H.
Qed.

Lemma reviewSchema_decision body data :
  PendingChangesRoutes.reviewSchema body = Some data ->
  PendingChangesRoutes.status data = APPROVED \/
  PendingChangesRoutes.status data = REJECTED.
Proof.
  unfold PendingChangesRoutes.reviewSchema. destruct body; try discriminate.
  destruct (z_enum _ _ _) as [st|] eqn:E; [|discriminate].
  destruct (z_optional _ _); [|discriminate].
  intros H. invert_pair H. simpl. apply z_enum_member in E.
  destruct E as [<-|[<-|[]]]; auto.
Qed.

(** C7. A review that reports success found the change pending, and has
    set its status to the decision of the request ([approved] or
    [rejected]), its reviewer to the caller, its review time to the clock of
    the update and its review notes to the notes of the request (notes left
    out of the request leave the column as it was: unset, on a change that
    carried no review metadata); nothing else in the row changes but
    [updatedAt]. The row as updated is what the response carries and what
    [getById] reads from then on. *)
Theorem review_sets_decision req io_get io_review io_audit db r db' :
  PendingChangesRoutes.POST_id_review req io_get io_review io_audit db
    = (r, db') ->
  succeeded r ->
  exists user id data old new,
    review_request req user id data /\
    PendingChangeModel.lookup id db = Some old /\
    PendingChange.status old = PENDING /\
    r = res_json
          (Success ("Change "
                    ++ ChangeStatus_value (PendingChangesRoutes.status data))
             (PendingChangeData new)) /\
    PendingChangeModel.lookup id db' = Some new /\
    PendingChange.status new = PendingChangesRoutes.status data /\
    (PendingChange.status new = APPROVED \/
     PendingChange.status new = REJECTED) /\
    PendingChange.reviewedBy new = Some (JWTPayload.userId user) /\
    PendingChange.reviewedAt new = Some (clock io_review) /\
    (forall notes, PendingChangesRoutes.reviewNotes data = Some notes ->
                   PendingChange.reviewNotes new = Some notes) /\
    (PendingChangesRoutes.reviewNotes data = None ->
     PendingChange.reviewNotes new = PendingChange.reviewNotes old) /\
    (unreviewed old ->
     PendingChange.reviewNotes new = PendingChangesRoutes.reviewNotes data) /\
    new = PendingChangeModel.review_set io_review
            {| PendingChangeModel.reviewedBy := JWTPayload.userId user;
               PendingChangeModel.status := PendingChangesRoutes.status data;
               PendingChangeModel.reviewNotes :=
                 PendingChangesRoutes.reviewNotes data |} old.
Proof.
  intros H Hr.
  destruct (POST_id_review_succeeded _ _ _ _ _ H Hr)
    as (user & id & data & old & reviewed & entry & db1
        & Hreq & _ & Hold & Hst & Hrev & Ha & ->).
  apply PendingChangeModel_review_inv in Hrev as (_ & Hnew & Hlook & ureviewed & Hureviewed & ->).
  apply AuditLogModel_create_inv in Ha as (_ & _ & _ & _ & _ & _ & _ & _ & ->).
  rewrite Hold in Hnew. simpl in Hnew. subst reviewed.
  pose proof (reviewSchema_decision _ (proj2 (proj2 Hreq))) as Hdec.
  eexists user, id, data, old, _. repeat split; try eassumption;
    try apply Hreq; try reflexivity; simpl.
  - intros notes ->. reflexivity.
  - intros ->. reflexivity.
  - intros (_ & _ & Hn). rewrite Hn.
    destruct (PendingChangesRoutes.reviewNotes data); reflexivity.
Qed.

(** C5. A submission that reports success has appended exactly one entry to
    the audit log: action [create], resource type [pending_change], the id
    of the new change, written in the name of the caller. A review that
    reports success has appended exactly one entry: action [approve] for the
    decision [approved] and [reject] for [rejected], resource type
    [pending_change], the id of the change, and details that are an object
    in which [originalAction] reads as the action of the change,
    [targetResource] as its resource type and [reviewNotes] as the notes of
    the request ([undefined] when it has none). *)
Theorem audit_pairing :
  (forall req io_create io_audit db r db',
      PendingChangesRoutes.POST_root req io_create io_audit db = (r, db') ->
      succeeded r ->
      exists user pc entry,
        AuthRequest.user req = Some user /\
        r = res_json (Success "Change submitted for approval"
                        (PendingChangeData pc)) /\
        auditLogs db' = (auditLogs db ++ [entry])%list /\
        AuditLog.userId entry = JWTPayload.userId user /\
        AuditLog.action entry = CREATE /\
        AuditLog.resourceType entry = Some "pending_change" /\
        AuditLog.resourceId entry = Some (PendingChange.id pc)) /\
  (forall req io_get io_review io_audit db r db',
      PendingChangesRoutes.POST_id_review req io_get io_review io_audit db
        = (r, db') ->
      succeeded r ->
      exists user id data old entry,
        review_request req user id data /\
        PendingChangeModel.lookup id db = Some old /\
        auditLogs db' = (auditLogs db ++ [entry])%list /\
        AuditLog.userId entry = JWTPayload.userId user /\
        AuditLog.action entry
          = match PendingChangesRoutes.status data with
            | APPROVED => APPROVE
            | _ => REJECT
            end /\
        (AuditLog.action entry = APPROVE /\
         PendingChangesRoutes.status data = APPROVED \/
         AuditLog.action entry = REJECT /\
         PendingChangesRoutes.status data = REJECTED) /\
        AuditLog.resourceType entry = Some "pending_change" /\
        AuditLog.resourceId entry = Some id /\
        AuditLog.details entry
          = Some (object
                    [("originalAction",
                       Some (JStr (ActionType_value
                                     (PendingChange.action old))));
                     ("targetResource",
                       Some (JStr (PendingChange.resourceType old)));
                     ("reviewNotes",
                       option_map JStr
                         (PendingChangesRoutes.reviewNotes data))]) /\
        exists fields,
          AuditLog.details entry = Some (JObj fields) /\
          assoc "originalAction" fields
          = Some (JStr (ActionType_value (PendingChange.action old))) /\
          assoc "targetResource" fields
          = Some (JStr (PendingChange.resourceType old)) /\
          assoc "reviewNotes" fields
          = option_map JStr (PendingChangesRoutes.reviewNotes data)).
Proof.
  split.
  - intros req io_create io_audit db r db' H Hr.
    destruct (POST_root_succeeded _ _ _ _ H Hr)
      as (user & data & pc & entry & db1 & Hu & _ & _ & Hc & Ha & ->).
    apply PendingChangeModel_create_inv in Hc
      as (_ & _ & _ & _ & _ & _ & _ & _ & _ & _ & ->).
    apply AuditLogModel_create_inv in Ha
      as (_ & _ & Huid & Hact & Hty & Hrid & _ & _ & ->).
    exists user, pc, entry. simpl in *. repeat split; assumption.
  - intros req io_get io_review io_audit db r db' H Hr.
    destruct (POST_id_review_succeeded _ _ _ _ _ H Hr)
      as (user & id & data & old & reviewed & entry & db1
          & Hreq & _ & Hold & _ & Hrev & Ha & ->).
    apply PendingChangeModel_review_inv in Hrev
      as (_ & _ & _ & ureviewed & _ & ->).
    apply AuditLogModel_create_inv in Ha
      as (_ & _ & Huid & Hact & Hty & Hrid & Hdet & _ & ->).
    pose proof (reviewSchema_decision _ (proj2 (proj2 Hreq))) as Hdec.
    exists user, id, data, old, entry. simpl in *.
    repeat split; try assumption; try apply Hreq.
    + rewrite Hact. destruct (PendingChangesRoutes.status data); reflexivity.
    + rewrite Hact. destruct Hdec as [E|E]; rewrite E; simpl; auto.
    + rewrite Hdet. eexists. split; [reflexivity|].
      split; [reflexivity|]. split; [reflexivity|].
      destruct (PendingChangesRoutes.reviewNotes data); reflexivity.
Qed.

(** ** What the workflow's calls do to [pending_changes], whatever they
       answer *)

Lemma AuditLogModel_create_pendingChanges io data db :
  pendingChanges (snd (AuditLogModel.create io data db)) = pendingChanges db.
Proof.
  unfold AuditLogModel.create, await.
  destruct (rejects io); [reflexivity|].
  destruct (taken _ _ _); reflexivity.
Qed.

Lemma POST_root_pendingChanges req io_create io_audit db :
  exists added,
    pendingChanges
      (snd (PendingChangesRoutes.POST_root req io_create io_audit db))
    = (pendingChanges db ++ added)%list.
Proof.
  unfold PendingChangesRoutes.POST_root. unfold_task.
  destruct (AuthRequest.user req) as [user|];
    [|exists []; simpl; symmetry; apply app_nil_r].
  destruct (UserRole_eqb _ _);
    [exists []; simpl; symmetry; apply app_nil_r|].
  destruct (PendingChangesRoutes.createChangeSchema _) as [data|];
    [|exists []; simpl; symmetry; apply app_nil_r].
  destruct (PendingChangeModel.create _ _ _) as [[pc| |e] db1] eqn:Hc.
  - apply PendingChangeModel_create_inv in Hc
      as (_ & _ & _ & _ & _ & _ & _ & _ & _ & _ & ->).
    exists [pc].
    match goal with
    | |- context [AuditLogModel.create ?io ?d ?b] =>
        pose proof (AuditLogModel_create_pendingChanges io d b) as Ha;
        destruct (AuditLogModel.create io d b) as [[| |] ?]
    end; simpl in *; assumption.
  - apply PendingChangeModel_create_other in Hc; [|discriminate].
    subst. exists []. simpl. symmetry. apply app_nil_r.
  - apply PendingChangeModel_create_other in Hc; [|discriminate].
    subst. exists []. simpl. symmetry. apply app_nil_r.
Qed.

Lemma POST_id_review_pendingChanges req io_get io_review io_audit db :
  let db' :=
    snd (PendingChangesRoutes.POST_id_review req io_get io_review io_audit db)
  in
  pendingChanges db' = pendingChanges db \/
  exists id u old io data,
    Uuid.input id = Some u /\
    PendingChangeModel.lookup id db = Some old /\
    PendingChange.status old = PENDING /\
    pendingChanges db'
    = update_where (PendingChangeModel.has_id u)
        (PendingChangeModel.review_set io data) (pendingChanges db).
Proof.
  unfold PendingChangesRoutes.POST_id_review. unfold_task.
  destruct (AuthRequest.user req) as [user|]; [|left; reflexivity].
  destruct (truthy _) as [id|]; [|left; reflexivity].
  destruct (PendingChangesRoutes.reviewSchema _) as [data|];
    [|left; reflexivity].
  unfold PendingChangeModel.getById, await.
  destruct (rejects io_get); [left; reflexivity|].
  destruct (Uuid.input id) as [uu|] eqn:Hinput; [|left; reflexivity].
  destruct (PendingChangeModel.lookup id db) as [old|] eqn:Hold;
    [|left; reflexivity].
  destruct (ChangeStatus_eqb _ _) eqn:Hst; simpl; [|left; reflexivity].
  apply ChangeStatus_eqb_eq in Hst.
  destruct (rejects io_review) eqn:Hio.
  - rewrite PendingChangeModel_review_thrown by assumption. left. reflexivity.
  - right. exists id, uu, old, io_review. eexists.
    split; [assumption|]. split; [eassumption|].
    split; [assumption|].
    unfold PendingChangeModel.review, await. rewrite Hio, Hinput.
    match goal with
    | |- context [AuditLogModel.create ?io ?d ?b] =>
        pose proof (AuditLogModel_create_pendingChanges io d b) as Ha;
        destruct (AuditLogModel.create io d b) as [[| |] ?]
    end; simpl in *; rewrite Ha; reflexivity.
Qed.

(** A change that has been reviewed stays as it is, whatever is submitted or
    reviewed afterwards. *)
Lemma reviewed_change_stays id pc c db :
  PendingChangeModel.lookup id db = Some pc ->
  PendingChange.status pc <> PENDING ->
  PendingChangeModel.lookup id (snd (Workflow.handle c db)) = Some pc.
Proof.
  intros Hpc Hst.
  destruct (change_lookup_input _ _ Hpc) as (u & Hin & Hrow).
  unfold PendingChangeModel.lookup. rewrite Hin.
  destruct c as [req io_create io_audit | req io_get io_review io_audit];
    simpl.
  - destruct (POST_root_pendingChanges req io_create io_audit db)
      as (added & ->).
    unfold select_where. rewrite filter_app.
    apply first_or_null_app. assumption.
  - destruct (POST_id_review_pendingChanges req io_get io_review io_audit db)
      as [-> | (id' & u' & old & io & data & Hin' & Hold & Hpending & ->)];
      [assumption|].
    destruct (Uuid_eq_dec u u') as [<-|Hne].
    + unfold PendingChangeModel.lookup in Hold. rewrite Hin' in Hold.
      congruence.
    + rewrite select_other_id_review by assumption. assumption.
Qed.

Lemma reviewed_change_stays_serve id pc calls : forall db,
  PendingChangeModel.lookup id db = Some pc ->
  PendingChange.status pc <> PENDING ->
  PendingChangeModel.lookup id (Workflow.serve calls db) = Some pc.
Proof.
  induction calls as [|c calls IH]; intros db Hpc Hst; simpl;
    [assumption|].
  apply IH; [|assumption]. apply reviewed_change_stays; assumption.
Qed.

(** C1. A review request for a change that is stored with a status other
    than [pending] is answered "This change has already been reviewed"
    (the specification's InvalidState) and leaves the database as it was.
    Consequently, once a review of a change has reported success, every
    later review request for that change gets that answer, whatever has
    been submitted or reviewed in between. (The request is one that reaches
    the test: sent by an authenticated caller, with a body the schema
    accepts, and with the lookup not failing in the driver.) *)
Theorem review_requires_pending :
  (forall req user id data io_get io_review io_audit db pc,
      review_request req user id data ->
      rejects io_get = false ->
      PendingChangeModel.lookup id db = Some pc ->
      PendingChange.status pc <> PENDING ->
      PendingChangesRoutes.POST_id_review req io_get io_review io_audit db
        = (InvalidState, db)) /\
  (forall req1 io_get1 io_review1 io_audit1 db r db1 id,
      PendingChangesRoutes.POST_id_review req1 io_get1 io_review1 io_audit1 db
        = (r, db1) ->
      succeeded r ->
      truthy (AuthRequest.id req1) = Some id ->
      forall calls req user data io_get io_review io_audit,
        review_request req user id data ->
        rejects io_get = false ->
        PendingChangesRoutes.POST_id_review req io_get io_review io_audit
          (Workflow.serve calls db1)
        = (InvalidState, Workflow.serve calls db1)).
Proof.
  split.
  - intros. eapply POST_id_review_not_pending; eassumption.
  - intros req1 io_get1 io_review1 io_audit1 db r db1 id H Hr Hid
      calls req user data io_get io_review io_audit Hreq Hio.
    destruct (POST_id_review_succeeded _ _ _ _ _ H Hr)
      as (user1 & id1 & data1 & old & reviewed & entry & db0
          & Hreq1 & _ & Hold & _ & Hrev & Ha & _).
    assert (id1 = id) as -> by (destruct Hreq1 as (_ & E & _); congruence).
    apply PendingChangeModel_review_inv in Hrev as (_ & Hnew & Hlook & Hdb0).
    apply AuditLogModel_create_inv in Ha
      as (_ & _ & _ & _ & _ & _ & _ & _ & ->).
    rewrite Hold in Hnew. simpl in Hnew. subst reviewed.
    eapply POST_id_review_not_pending; try eassumption.
    + apply reviewed_change_stays_serve; [exact Hlook|].
      simpl.
      destruct (reviewSchema_decision _ (proj2 (proj2 Hreq1))) as [E|E];
        rewrite E; discriminate.
    + simpl.
      destruct (reviewSchema_decision _ (proj2 (proj2 Hreq1))) as [E|E];
        rewrite E; discriminate.
Qed.

(** ** The awaits of the review handler *)

(** A call that runs alone does what the handler does. *)
Lemma resume_alone io req db :
  let (c1, db1) := ReviewCall.resume io (ReviewCall.Received req) db in
  let (c2, db2) := ReviewCall.resume io c1 db1 in
  let (c3, db3) := ReviewCall.resume io c2 db2 in
  let (r, db') :=
    PendingChangesRoutes.POST_id_review req (ReviewCall.io_get io)
      (ReviewCall.io_review io) (ReviewCall.io_audit io) db in
  c3 = ReviewCall.Sent r /\ db3 = db'.
Proof.
  unfold PendingChangesRoutes.POST_id_review, ReviewCall.resume at 1,
    ReviewCall.settle.
  unfold_task.
  destruct (AuthRequest.user req) as [user|]; [|simpl; auto].
  destruct (truthy _) as [id|]; [|simpl; auto].
  destruct (PendingChangesRoutes.reviewSchema _) as [data|]; [|simpl; auto].
  unfold PendingChangeModel.getById, await.
  destruct (rejects (ReviewCall.io_get io)); [simpl; auto|].
  destruct (Uuid.input id) as [uu|] eqn:Hinput; [|simpl; auto].
  destruct (PendingChangeModel.lookup id db) as [old|]; [|simpl; auto].
  destruct (ChangeStatus_eqb _ _); simpl; [|auto].
  unfold ReviewCall.settle, bind, ret.
  destruct (PendingChangeModel.review _ _ _ _) as [[reviewed| |e] db1];
    simpl; [|auto|auto].
  unfold ReviewCall.settle, bind, ret.
  destruct (AuditLogModel.create _ _ _) as [[entry| |e] db2]; simpl; auto.
Qed.

(** What a review answers on a pending change when its three statements go
    through. *)
Lemma POST_id_review_pending req user id data io_get io_review io_audit db pc :
  review_request req user id data ->
  PendingChangeModel.lookup id db = Some pc ->
  PendingChange.status pc = PENDING ->
  rejects io_get = false ->
  rejects io_review = false ->
  rejects io_audit = false ->
  taken AuditLog.id (uuid io_audit) (auditLogs db) = false ->
  exists reviewed db1,
    reviewed
    = PendingChangeModel.review_set io_review
        {| PendingChangeModel.reviewedBy := JWTPayload.userId user;
           PendingChangeModel.status := PendingChangesRoutes.status data;
           PendingChangeModel.reviewNotes :=
             PendingChangesRoutes.reviewNotes data |} pc /\
    PendingChangeModel.lookup id db1 = Some reviewed /\
    PendingChangesRoutes.POST_id_review req io_get io_review io_audit db
    = (res_json
         (Success ("Change "
                   ++ ChangeStatus_value (PendingChangesRoutes.status data))
            (PendingChangeData reviewed)),
       db1).
Proof.
  intros (Hu & Hid & Hdata) Hpc Hst Hget Hreview Haudit Hfresh.
  unfold PendingChangesRoutes.POST_id_review. unfold_task.
  rewrite Hu, Hid, Hdata. unfold PendingChangeModel.getById, await.
  destruct (change_lookup_input _ _ Hpc) as (uu & Hinput & _).
  rewrite Hget, Hinput, Hpc, Hst. simpl.
  destruct (PendingChangeModel.review io_review id
              {| PendingChangeModel.reviewedBy := JWTPayload.userId user;
                 PendingChangeModel.status := PendingChangesRoutes.status data;
                 PendingChangeModel.reviewNotes :=
                   PendingChangesRoutes.reviewNotes data |} db)
    as [o db0] eqn:Hrev.
  assert (exists reviewed, o = Value reviewed) as (reviewed & ->).
  { revert Hrev. unfold PendingChangeModel.review, await.
    rewrite Hreview, Hinput.
    intros H. invert_pair H. eexists. reflexivity. }
  apply PendingChangeModel_review_inv in Hrev as (_ & Hnew & Hlook & ureviewed & Hureviewed & ->).
  rewrite Hpc in Hnew. simpl in Hnew. subst reviewed.
  unfold AuditLogModel.create, await. rewrite Haudit. simpl.
  rewrite Hfresh. simpl.
  eexists _, _. split; [reflexivity|]. split; [|reflexivity].
  exact Hlook.
Qed.

(** C2. The code does not review by one conditional update. The update of
    [PendingChangeModel.review] selects by id alone: run on the change [pc1]
    once it is approved, it rewrites it as rejected. The handler tests the
    status on an earlier read: when two administrators review the pending
    change [pc1] at the same time, the one approving and the other
    rejecting, and both reads come before both updates, both calls report
    success, neither is answered "already reviewed", the change is stored
    as rejected, and the audit log records an approval and a rejection. *)
Lemma concurrent_reviews_both_succeed :
  (option_map PendingChange.status
     (PendingChangeModel.lookup (Sample.id "pc1") Sample.approved)
   = Some APPROVED /\
   option_map (option_map PendingChange.status)
     (match PendingChangeModel.review (Sample.io "" 30) (Sample.id "pc1")
              (PendingChangeModel.mkReview (Sample.id "admin2") REJECTED
                 (Some "no"))
              Sample.approved with
      | (Value reviewed, _) => Some reviewed
      | _ => None
      end) = Some (Some REJECTED)) /\
  (let '(c1, c2, db) :=
     ReviewCall.interleave [true; false; true; false; true; false]
       Sample.first_call Sample.second_call
       (ReviewCall.Received
          (Sample.review Sample.admin1 (Sample.id "pc1") "approved" "ok"))
       (ReviewCall.Received
          (Sample.review Sample.admin2 (Sample.id "pc1") "rejected" "no"))
       Sample.submitted in
   exists r1 r2 pc1 pc2,
     c1 = ReviewCall.Sent r1 /\ c2 = ReviewCall.Sent r2 /\
     succeeded r1 /\ succeeded r2 /\
     r1 <> InvalidState /\ r2 <> InvalidState /\
     body r1 = Success "Change approved" (PendingChangeData pc1) /\
     body r2 = Success "Change rejected" (PendingChangeData pc2) /\
     PendingChange.status pc1 = APPROVED /\
     PendingChange.status pc2 = REJECTED /\
     PendingChangeModel.lookup (Sample.id "pc1") db = Some pc2 /\
     PendingChange.reviewedBy pc2 = Some (Sample.id "admin2") /\
     map AuditLog.action (auditLogs db) = [CREATE; APPROVE; REJECT]).
Proof.
  split; [split; reflexivity|].
  vm_compute. do 4 eexists.
  repeat split; try reflexivity; discriminate.
Qed.

(** C3. The handlers await the audit entry inside their [try] block: when
    the audit statement is rejected, the [catch] block answers 500
    "Internal server error". The submission of [editor1] is stored and the
    caller is told it failed; the approval by [admin1] is stored and the
    caller is told it failed. *)
Theorem audit_failure_fails_the_call :
  (let (r, db) :=
     PendingChangesRoutes.POST_root (Sample.submit Sample.editor1)
       (Sample.io "pc1" 10) Sample.down Sample.seeded in
   r = StorageFailure /\ ~ succeeded r /\
   map PendingChange.id (pendingChanges db) = [(Sample.id "pc1")] /\
   auditLogs db = []) /\
  (let (r, db) :=
     PendingChangesRoutes.POST_id_review
       (Sample.review Sample.admin1 (Sample.id "pc1") "approved" "ok")
       (Sample.io "" 20) (Sample.io "" 21) Sample.down Sample.submitted in
   r = StorageFailure /\ ~ succeeded r /\
   option_map PendingChange.status (PendingChangeModel.lookup (Sample.id "pc1") db)
     = Some APPROVED /\
   map AuditLog.action (auditLogs db) = [CREATE]).
Proof.
  split; vm_compute; repeat split; discriminate.
Qed.

(** ** User management *)

Lemma AuditLogModel_create_users io data db :
  users (snd (AuditLogModel.create io data db)) = users db.
Proof.
  unfold AuditLogModel.create, await.
  destruct (rejects io); [reflexivity|].
  destruct (taken _ _ _); reflexivity.
Qed.

Lemma first_or_null_select_In {Row} (p : Row -> bool) t r :
  first_or_null (select_where p t) = Some r -> In r t /\ p r = true.
Proof.
  unfold first_or_null, select_where. intros H. apply filter_In.
  destruct (filter p t); simpl in H; [discriminate|].
  invert_pair H. left. reflexivity.
Qed.

(** Under the primary key, the rows a key selects are the row the lookup
    finds. *)
Lemma keyed_rows_unique {Row} (col : Row -> string) t a b :
  NoDup (map col t) -> In a t -> In b t -> col a = col b -> a = b.
Proof.
  induction t as [|x t IH]; simpl; intros Hnd Ha Hb E; [contradiction|].
  inversion Hnd as [|? ? Hx Hnd']; subst.
  destruct Ha as [->|Ha], Hb as [->|Hb].
  - reflexivity.
  - exfalso. apply Hx. rewrite E. apply in_map. assumption.
  - exfalso. apply Hx. rewrite <- E. apply in_map. assumption.
  - apply IH; assumption.
Qed.

Lemma lookup_only_row id uid db u r :
  users_keyed db ->
  Uuid.input id = Some uid ->
  UserModel.lookup id db = Some u ->
  In r (users db) -> UserModel.has_id uid r = true -> r = u.
Proof.
  unfold users_keyed, UserModel.lookup. intros Hnd Hin Hu Hr Hid.
  rewrite Hin in Hu.
  apply first_or_null_select_In in Hu as (Hu & Hidu).
  unfold UserModel.has_id in *.
  apply String.eqb_eq in Hid, Hidu.
  eapply keyed_rows_unique; try eassumption. congruence.
Qed.

Section AdminRows.
Variables (p : User.t -> bool) (s : User.t -> User.t).

(** An update, or a deletion, that only selects rows of editors and leaves
    them editors does not touch the rows of administrators. *)
Lemma admins_update_where t :
  (forall r, In r t -> p r = true -> is_admin r = false) ->
  (forall r, is_admin r = false -> is_admin (s r) = false) ->
  filter is_admin (update_where p s t) = filter is_admin t.
Proof.
  intros Hp Hs. unfold update_where.
  induction t as [|r t IH]; simpl; [reflexivity|].
  rewrite IH by (intros; apply Hp; [right|]; assumption).
  destruct (p r) eqn:E; [|reflexivity].
  assert (is_admin r = false) as Hr by (apply Hp; [left|]; auto).
  rewrite (Hs _ Hr), Hr. reflexivity.
Qed.

Lemma admins_delete_where t :
  (forall r, In r t -> p r = true -> is_admin r = false) ->
  filter is_admin (delete_where p t) = filter is_admin t.
Proof.
  intros Hp. unfold delete_where.
  induction t as [|r t IH]; simpl; [reflexivity|].
  rewrite <- IH by (intros; apply Hp; [right|]; assumption).
  destruct (p r) eqn:E; simpl; [|reflexivity].
  assert (is_admin r = false) as -> by (apply Hp; [left|]; auto).
  reflexivity.
Qed.

Lemma keys_update_where t :
  (forall r, User.id (s r) = User.id r) ->
  map User.id (update_where p s t) = map User.id t.
Proof.
  intros Hs. unfold update_where. rewrite map_map. apply map_ext.
  intros r. destruct (p r); auto.
Qed.

Lemma keys_delete_where t :
  NoDup (map User.id t) -> NoDup (map User.id (delete_where p t)).
Proof.
  unfold delete_where. induction t as [|r t IH]; simpl; intros Hnd;
    [constructor|].
  inversion Hnd as [|? ? Hr Hnd']; subst.
  destruct (p r); simpl; [auto|].
  constructor; [|auto].
  intros Hin. apply Hr. apply in_map_iff in Hin as (x & Hx & Hin).
  apply filter_In in Hin as (Hin & _). rewrite <- Hx.
  apply in_map. assumption.
Qed.
End AdminRows.

Lemma keys_insert (t : list User.t) u :
  NoDup (map User.id t) ->
  taken User.id (User.id u) t = false ->
  NoDup (map User.id (t ++ [u])).
Proof.
  intros Hnd Hfresh. apply taken_false_not_In in Hfresh.
  rewrite map_app. simpl. apply NoDup_app; [assumption| |].
  - constructor; [intros []|constructor].
  - intros k Hk [<-|[]]. contradiction.
Qed.

Section UserManagement.
Variable is_email : string -> bool.
Variable argon2_hash : string -> string.

Lemma createUserSchema_role body data :
  UsersRoutes.createUserSchema is_email body = Some data ->
  UsersRoutes.role data = EDITOR.
Proof.
  unfold UsersRoutes.createUserSchema. destruct body; try discriminate.
  destruct (z_string (assoc "email" fields)); [|discriminate].
  destruct (negb _); [discriminate|].
  destruct (z_string (assoc "password" fields)); [|discriminate].
  destruct (_ <? 6); [discriminate|].
  destruct (z_enum _ _ _) as [role|] eqn:E; [|discriminate].
  intros H. invert_pair H. simpl.
  apply z_enum_member in E. destruct E as [<-|[]]. reflexivity.
Qed.

Lemma updateRoleSchema_role body role :
  UsersRoutes.updateRoleSchema body = Some role -> role = EDITOR.
Proof.
  unfold UsersRoutes.updateRoleSchema. destruct body; try discriminate.
  intros E. apply z_enum_member in E. destruct E as [<-|[]]. reflexivity.
Qed.

(** The schemas turn down every role but ["editor"]. *)
Lemma z_enum_editor_only v :
  v <> Some (JStr "editor") -> z_enum UserRole_value [EDITOR] v = None.
Proof.
  intros Hv. destruct v as [[]|]; try reflexivity.
  unfold z_enum. cbn [find UserRole_value].
  destruct (String.eqb_spec "editor" s) as [<-|]; [congruence|reflexivity].
Qed.

Lemma createUserSchema_other_role body :
  body_role body <> Some (JStr "editor") ->
  UsersRoutes.createUserSchema is_email body = None.
Proof.
  unfold body_role, UsersRoutes.createUserSchema.
  destruct body; try reflexivity. intros Hr.
  rewrite (z_enum_editor_only Hr).
  destruct (z_string (assoc "email" fields)); [|reflexivity].
  destruct (negb _); [reflexivity|].
  destruct (z_string (assoc "password" fields)); [|reflexivity].
  destruct (_ <? 6); reflexivity.
Qed.

Lemma updateRoleSchema_other_role body :
  body_role body <> Some (JStr "editor") ->
  UsersRoutes.updateRoleSchema body = None.
Proof.
  unfold body_role, UsersRoutes.updateRoleSchema.
  destruct body; try reflexivity. apply z_enum_editor_only.
Qed.

(** Finish a handler after its write: the audit entry and the answer leave
    [users] alone. *)
Ltac after_audit :=
  match goal with
  | |- context [AuditLogModel.create ?io ?d ?b] =>
      let Ha := fresh "Ha" in
      pose proof (AuditLogModel_create_users io d b) as Ha;
      destruct (AuditLogModel.create io d b) as [[| |] ?];
      unfold users_keyed; simpl in *; rewrite Ha
  end.

Lemma POST_root_admins req io_find io_create io_audit db :
  users_keyed db ->
  let db' :=
    snd (UsersRoutes.POST_root is_email argon2_hash req io_find io_create
           io_audit db) in
  users_keyed db' /\
  filter is_admin (users db') = filter is_admin (users db).
Proof.
  intros Hk. unfold UsersRoutes.POST_root. unfold_task.
  destruct (AuthRequest.user req) as [user|]; [|simpl; auto].
  destruct (UsersRoutes.createUserSchema _ _) as [data|] eqn:Hdata;
    [|simpl; auto].
  apply createUserSchema_role in Hdata.
  unfold UserModel.findByEmail, await.
  destruct (rejects io_find); [simpl; auto|].
  destruct (first_or_null _); [simpl; auto|]. simpl.
  unfold UserModel.create, await.
  destruct (rejects io_create); [simpl; auto|].
  destruct (taken User.id _ _) eqn:Hfresh; [simpl; auto|].
  destruct (taken User.email _ _); simpl; [auto|].
  after_audit; simpl; (split;
    [ apply keys_insert; assumption
    | rewrite filter_app; simpl; unfold is_admin at 2; simpl;
      rewrite Hdata; simpl; apply app_nil_r ]).
Qed.

Lemma PATCH_id_role_admins req io_find io_update io_audit db :
  users_keyed db ->
  let db' :=
    snd (UsersRoutes.PATCH_id_role req io_find io_update io_audit db) in
  users_keyed db' /\
  filter is_admin (users db') = filter is_admin (users db).
Proof.
  intros Hk. unfold UsersRoutes.PATCH_id_role. unfold_task.
  destruct (AuthRequest.user req) as [me|]; [|simpl; auto].
  destruct (truthy _) as [id|]; [|simpl; auto].
  destruct (UsersRoutes.updateRoleSchema _) as [role|] eqn:Hrole;
    [|simpl; auto].
  apply updateRoleSchema_role in Hrole. subst role.
  unfold UserModel.findById, await.
  destruct (rejects io_find); [simpl; auto|].
  destruct (Uuid.input id) as [uu|] eqn:Hinput; [|simpl; auto].
  destruct (UserModel.lookup id db) as [user|] eqn:Hu; [|simpl; auto].
  destruct (UserRole_eqb (User.role user) ADMIN) eqn:Hadm; simpl; [auto|].
  unfold UserModel.updateRole, await.
  destruct (rejects io_update); [simpl; auto|].
  try rewrite Hinput.
  after_audit; simpl; (split;
    [ unfold users_keyed; simpl; rewrite keys_update_where by reflexivity;
      exact Hk
    | apply admins_update_where;
      [ intros row Hrow Hid;
        rewrite (@lookup_only_row id uu db user row Hk Hinput Hu Hrow Hid); exact Hadm
      | reflexivity ] ]).
Qed.

Lemma PATCH_id_active_admins req io_find io_update io_audit db :
  users_keyed db ->
  let db' :=
    snd (UsersRoutes.PATCH_id_active req io_find io_update io_audit db) in
  users_keyed db' /\
  filter is_admin (users db') = filter is_admin (users db).
Proof.
  intros Hk. unfold UsersRoutes.PATCH_id_active. unfold_task.
  destruct (AuthRequest.user req) as [me|]; [|simpl; auto].
  destruct (truthy _) as [id|]; [|simpl; auto].
  destruct (UsersRoutes.toggleActiveSchema _) as [isActive|]; [|simpl; auto].
  unfold UserModel.findById, await.
  destruct (rejects io_find); [simpl; auto|].
  destruct (Uuid.input id) as [uu|] eqn:Hinput; [|simpl; auto].
  destruct (UserModel.lookup id db) as [user|] eqn:Hu; [|simpl; auto].
  destruct (UserRole_eqb (User.role user) ADMIN) eqn:Hadm; simpl; [auto|].
  destruct (String.eqb id _); simpl; [auto|].
  unfold UserModel.toggleActive, await.
  destruct (rejects io_update); [simpl; auto|].
  try rewrite Hinput.
  after_audit; simpl; (split;
    [ unfold users_keyed; simpl; rewrite keys_update_where by reflexivity;
      exact Hk
    | apply admins_update_where;
      [ intros row Hrow Hid;
        rewrite (@lookup_only_row id uu db user row Hk Hinput Hu Hrow Hid); exact Hadm
      | intros row Hrow; exact Hrow ] ]).
Qed.

Lemma DELETE_id_admins req io_find io_delete io_audit db :
  users_keyed db ->
  let db' :=
    snd (UsersRoutes.DELETE_id req io_find io_delete io_audit db) in
  users_keyed db' /\
  filter is_admin (users db') = filter is_admin (users db).
Proof.
  intros Hk. unfold UsersRoutes.DELETE_id. unfold_task.
  destruct (AuthRequest.user req) as [me|]; [|simpl; auto].
  destruct (truthy _) as [id|]; [|simpl; auto].
  unfold UserModel.findById, await.
  destruct (rejects io_find); [simpl; auto|].
  destruct (Uuid.input id) as [uu|] eqn:Hinput; [|simpl; auto].
  destruct (UserModel.lookup id db) as [user|] eqn:Hu; [|simpl; auto].
  destruct (UserRole_eqb (User.role user) ADMIN) eqn:Hadm; simpl; [auto|].
  destruct (String.eqb id _); simpl; [auto|].
  unfold UserModel.deleteById, await.
  destruct (rejects io_delete); [simpl; auto|].
  rewrite Hinput. cbv zeta.
  destruct (match select_where (UserModel.has_id uu) (users db) with
            | [] => false
            | _ :: _ => UserModel.referred_to uu db
            end); [simpl; auto|].
  after_audit; simpl; (split;
    [ unfold users_keyed; simpl; apply keys_delete_where; exact Hk
    | apply admins_delete_where;
      intros row Hrow Hid;
      rewrite (@lookup_only_row id uu db user row Hk Hinput Hu Hrow Hid); exact Hadm ]).
Qed.

(** The rows of administrators are the same before and after any sequence
    of calls, and the primary key keeps holding. *)
Lemma serve_admins calls : forall db,
  users_keyed db ->
  users_keyed (UsersRoutes.serve is_email argon2_hash calls db) /\
  filter is_admin (users (UsersRoutes.serve is_email argon2_hash calls db))
  = filter is_admin (users db).
Proof.
  induction calls as [|c calls IH]; intros db Hk; simpl; [auto|].
  assert (users_keyed
            (snd (UsersRoutes.handle is_email argon2_hash
                    (UsersRoutes.call c) (UsersRoutes.request c)
                    (UsersRoutes.io1 c) (UsersRoutes.io2 c)
                    (UsersRoutes.io3 c) db)) /\
          filter is_admin
            (users (snd (UsersRoutes.handle is_email argon2_hash
                           (UsersRoutes.call c) (UsersRoutes.request c)
                           (UsersRoutes.io1 c) (UsersRoutes.io2 c)
                           (UsersRoutes.io3 c) db)))
          = filter is_admin (users db)) as (Hk' & E).
  { destruct (UsersRoutes.call c); simpl.
    - apply POST_root_admins; assumption.
    - apply PATCH_id_role_admins; assumption.
    - apply PATCH_id_active_admins; assumption.
    - apply DELETE_id_admins; assumption. }
  destruct (IH _ Hk') as (Hk'' & E'). split; [assumption|].
  rewrite E'. exact E.
Qed.

End UserManagement.

Lemma is_admin_role u : is_admin u = true <-> User.role u = ADMIN.
Proof. apply UserRole_eqb_eq. Qed.

(** C8. A request to change the role of, to activate or deactivate, or to
    delete a user whose stored role is [admin] is never answered with
    success and leaves the database as it was, whoever sends it (the
    administrator itself included) and whatever its body; once the caller is
    authenticated, the body is well formed and the lookup has run, the
    answer is 403 "Cannot change admin role", "Cannot deactivate admin",
    "Cannot delete admin". Over any sequence of calls of the user-management
    API on a table whose ids are distinct, every administrator's row is
    still there, unchanged. *)
Theorem admins_are_protected
    (is_email : string -> bool) (argon2_hash : string -> string) :
  (forall req id target io_find io_write io_audit db,
      truthy (AuthRequest.id req) = Some id ->
      UserModel.lookup id db = Some target ->
      User.role target = ADMIN ->
      (let (r, db') :=
         UsersRoutes.PATCH_id_role req io_find io_write io_audit db in
       db' = db /\ ~ succeeded r /\
       (AuthRequest.user req <> None ->
        UsersRoutes.updateRoleSchema (AuthRequest.body req) <> None ->
        rejects io_find = false ->
        r = Forbidden "Cannot change admin role")) /\
      (let (r, db') :=
         UsersRoutes.PATCH_id_active req io_find io_write io_audit db in
       db' = db /\ ~ succeeded r /\
       (AuthRequest.user req <> None ->
        UsersRoutes.toggleActiveSchema (AuthRequest.body req) <> None ->
        rejects io_find = false ->
        r = Forbidden "Cannot deactivate admin")) /\
      (let (r, db') :=
         UsersRoutes.DELETE_id req io_find io_write io_audit db in
       db' = db /\ ~ succeeded r /\
       (AuthRequest.user req <> None ->
        rejects io_find = false ->
        r = Forbidden "Cannot delete admin"))) /\
  (forall calls db admin,
      users_keyed db ->
      In admin (users db) ->
      User.role admin = ADMIN ->
      In admin (users (UsersRoutes.serve is_email argon2_hash calls db))).
Proof.
  split.
  - intros req id target io_find io_write io_audit db Hid Hu Hadm.
    apply is_admin_role in Hadm. unfold is_admin in Hadm.
    destruct (user_lookup_input _ _ Hu) as (uu & Hinput & _).
    unfold UsersRoutes.PATCH_id_role, UsersRoutes.PATCH_id_active,
      UsersRoutes.DELETE_id, succeeded, Forbidden.
    unfold_task. rewrite Hid. unfold UserModel.findById, await.
    destruct (AuthRequest.user req) as [me|];
      [|simpl; repeat split; try discriminate; intros; congruence].
    destruct (UsersRoutes.updateRoleSchema _),
      (UsersRoutes.toggleActiveSchema _), (rejects io_find);
      rewrite ?Hinput, ?Hu, ?Hadm; simpl;
      repeat split; try discriminate; intros; congruence.
  - intros calls db admin Hk Hin Hadm.
    destruct (serve_admins is_email argon2_hash calls Hk) as (_ & E).
    apply is_admin_role in Hadm.
    assert (In admin (filter is_admin (users db))) as H
        by (apply filter_In; auto).
    rewrite <- E in H. apply filter_In in H. apply H.
Qed.

(** C9. The user-management API admits the role ["editor"] alone: a request
    to create a user, or to update a user's role, whose body does not carry
    the role ["editor"] is answered 400 "Invalid input" and leaves the
    database as it was. Over any sequence of calls of the API on a table
    whose ids are distinct, a row with the role [admin] is a row that was
    there from the start: no administrator is created and no user is
    promoted. *)
Theorem only_editors_are_admitted
    (is_email : string -> bool) (argon2_hash : string -> string) :
  (forall req user io_find io_create io_audit db,
      AuthRequest.user req = Some user ->
      body_role (AuthRequest.body req) <> Some (JStr "editor") ->
      UsersRoutes.POST_root is_email argon2_hash req io_find io_create
        io_audit db
      = (ValidationError, db)) /\
  (forall req user id io_find io_update io_audit db,
      AuthRequest.user req = Some user ->
      truthy (AuthRequest.id req) = Some id ->
      body_role (AuthRequest.body req) <> Some (JStr "editor") ->
      UsersRoutes.PATCH_id_role req io_find io_update io_audit db
      = (ValidationError, db)) /\
  (forall calls db u,
      users_keyed db ->
      In u (users (UsersRoutes.serve is_email argon2_hash calls db)) ->
      User.role u = ADMIN ->
      In u (users db)).
Proof.
  split; [|split].
  - intros req user io_find io_create io_audit db Hu Hrole.
    unfold UsersRoutes.POST_root. unfold_task.
    rewrite Hu, (createUserSchema_other_role is_email _ Hrole). reflexivity.
  - intros req user id io_find io_update io_audit db Hu Hid Hrole.
    unfold UsersRoutes.PATCH_id_role. unfold_task.
    rewrite Hu, Hid, (updateRoleSchema_other_role _ Hrole). reflexivity.
  - intros calls db u Hk Hin Hadm.
    destruct (serve_admins is_email argon2_hash calls Hk) as (_ & E).
    apply is_admin_role in Hadm.
    assert (In u (filter is_admin
                    (users (UsersRoutes.serve is_email argon2_hash calls db))))
      as H by (apply filter_In; auto).
    rewrite E in H. apply filter_In in H. apply H.
Qed.

(** ** The audit log of one user *)


Section OrderBy.
Context {Row : Type}.
Variable col : Row -> Z.

Let desc (a b : Row) : Prop := col b <= col a.

Lemma place_desc_In r x t :
  In x (place_desc col r t) <-> x = r \/ In x t.
Proof.
  induction t as [|y t IH]; simpl; [intuition|].
  destruct (col y <? col r); simpl; [intuition|].
  rewrite IH. intuition.
Qed.


Lemma place_desc_sorted r t :
  StronglySorted desc t -> StronglySorted desc (place_desc col r t).
Proof.
  induction 1 as [|y t Ht IH Hy]; simpl.
  - constructor; constructor.
  - destruct (Z.ltb_spec (col y) (col r)) as [Hlt|Hge].
    + constructor; [constructor; assumption|].
      constructor; [unfold desc; lia|].
      eapply Forall_impl; [|exact Hy]. unfold desc. intros; lia.
    + constructor; [assumption|].
      apply Forall_forall. intros x Hx. apply place_desc_In in Hx.
      destruct Hx as [->|Hx]; [exact Hge|].
      rewrite Forall_forall in Hy. apply Hy. assumption.
Qed.

Lemma order_by_desc_sorted t : StronglySorted desc (order_by_desc col t).
Proof.
  induction t as [|r t IH]; simpl; [constructor|].
  apply place_desc_sorted. assumption.
Qed.

Lemma order_by_desc_In x t : In x (order_by_desc col t) <-> In x t.
Proof.
  induction t as [|r t IH]; simpl; [reflexivity|].
  rewrite place_desc_In, IH. intuition.
Qed.


End OrderBy.


(** ** The theorems at the scenarios of the specification *)

Lemma admin_submit_policy_violation_witness :
  PendingChangesRoutes.POST_root (Sample.submit Sample.admin1)
    (Sample.io "pc1" 10) (Sample.io "log1" 11) Sample.seeded
  = (PolicyViolation, Sample.seeded).
Proof.
  apply (@admin_submit_policy_violation _ Sample.admin1); reflexivity.
Defined.

Lemma submit_stores_pending_witness :
  succeeded (fst Sample.submission) /\
  exists pc,
    fst Sample.submission
    = res_json (Success "Change submitted for approval"
                  (PendingChangeData pc)) /\
    pendingChanges Sample.submitted = (pendingChanges Sample.seeded ++ [pc])%list /\
    ~ In (PendingChange.id pc)
        (map PendingChange.id (pendingChanges Sample.seeded)) /\
    PendingChange.status pc = PENDING /\
    unreviewed pc /\
    (Forall metadata_invariant (pendingChanges Sample.seeded) ->
     Forall metadata_invariant (pendingChanges Sample.submitted)).
Proof.
  split; [reflexivity|].
  apply (@submit_stores_pending (Sample.submit Sample.editor1)
           (Sample.io "pc1" 10) (Sample.io "log1" 11) Sample.seeded);
    reflexivity.
Defined.

Lemma review_sets_decision_witness :
  succeeded (fst Sample.approval) /\
  exists user id data old new,
    review_request (Sample.review Sample.admin1 (Sample.id "pc1") "approved" "ok")
      user id data /\
    PendingChangeModel.lookup id Sample.submitted = Some old /\
    PendingChange.status old = PENDING /\
    fst Sample.approval
    = res_json
        (Success ("Change "
                  ++ ChangeStatus_value (PendingChangesRoutes.status data))
           (PendingChangeData new)) /\
    PendingChangeModel.lookup id Sample.approved = Some new /\
    PendingChange.status new = PendingChangesRoutes.status data /\
    (PendingChange.status new = APPROVED \/
     PendingChange.status new = REJECTED) /\
    PendingChange.reviewedBy new = Some (JWTPayload.userId user) /\
    PendingChange.reviewedAt new = Some (clock (Sample.io "" 21)) /\
    (forall notes, PendingChangesRoutes.reviewNotes data = Some notes ->
                   PendingChange.reviewNotes new = Some notes) /\
    (PendingChangesRoutes.reviewNotes data = None ->
     PendingChange.reviewNotes new = PendingChange.reviewNotes old) /\
    (unreviewed old ->
     PendingChange.reviewNotes new = PendingChangesRoutes.reviewNotes data) /\
    new = PendingChangeModel.review_set (Sample.io "" 21)
            {| PendingChangeModel.reviewedBy := JWTPayload.userId user;
               PendingChangeModel.status := PendingChangesRoutes.status data;
               PendingChangeModel.reviewNotes :=
                 PendingChangesRoutes.reviewNotes data |} old.
Proof.
  split; [reflexivity|].
  apply (@review_sets_decision
           (Sample.review Sample.admin1 (Sample.id "pc1") "approved" "ok")
           (Sample.io "" 20) (Sample.io "" 21) (Sample.io "log2" 22)
           Sample.submitted);
    reflexivity.
Defined.

Lemma review_requires_pending_witness :
  PendingChangesRoutes.POST_id_review
    (Sample.review Sample.admin2 (Sample.id "pc1") "rejected" "no")
    (Sample.io "" 50) (Sample.io "" 51) (Sample.io "log5" 52) Sample.approved
  = (InvalidState, Sample.approved) /\
  succeeded (fst Sample.approval) /\
  PendingChangesRoutes.POST_id_review
    (Sample.review Sample.admin2 (Sample.id "pc1") "rejected" "no")
    (Sample.io "" 50) (Sample.io "" 51) (Sample.io "log5" 52)
    (Workflow.serve Sample.later Sample.approved)
  = (InvalidState, Workflow.serve Sample.later Sample.approved).
Proof.
  split; [|split; [reflexivity|]].
  - eapply (proj1 review_requires_pending) with (user := Sample.admin2);
      [ repeat split; reflexivity | reflexivity | reflexivity
      | vm_compute; discriminate ].
  - eapply (proj2 review_requires_pending
              (Sample.review Sample.admin1 (Sample.id "pc1") "approved" "ok")
              (Sample.io "" 20) (Sample.io "" 21) (Sample.io "log2" 22)
              Sample.submitted)
      with (user := Sample.admin2);
      [ reflexivity | reflexivity | reflexivity
      | repeat split; reflexivity | reflexivity ].
Defined.

Lemma audit_pairing_witness :
  (succeeded (fst Sample.submission) /\
   exists user pc entry,
     AuthRequest.user (Sample.submit Sample.editor1) = Some user /\
     fst Sample.submission
     = res_json (Success "Change submitted for approval"
                   (PendingChangeData pc)) /\
     auditLogs Sample.submitted = (auditLogs Sample.seeded ++ [entry])%list /\
     AuditLog.userId entry = JWTPayload.userId user /\
     AuditLog.action entry = CREATE /\
     AuditLog.resourceType entry = Some "pending_change" /\
     AuditLog.resourceId entry = Some (PendingChange.id pc)) /\
  (succeeded (fst Sample.approval) /\
   exists user id data old entry,
     review_request (Sample.review Sample.admin1 (Sample.id "pc1") "approved" "ok")
       user id data /\
     PendingChangeModel.lookup id Sample.submitted = Some old /\
     auditLogs Sample.approved = (auditLogs Sample.submitted ++ [entry])%list /\
     AuditLog.userId entry = JWTPayload.userId user /\
     AuditLog.action entry
       = match PendingChangesRoutes.status data with
         | APPROVED => APPROVE
         | _ => REJECT
         end /\
     (AuditLog.action entry = APPROVE /\
      PendingChangesRoutes.status data = APPROVED \/
      AuditLog.action entry = REJECT /\
      PendingChangesRoutes.status data = REJECTED) /\
     AuditLog.resourceType entry = Some "pending_change" /\
     AuditLog.resourceId entry = Some id /\
     AuditLog.details entry
       = Some (object
                 [("originalAction",
                    Some (JStr (ActionType_value
                                  (PendingChange.action old))));
                  ("targetResource",
                    Some (JStr (PendingChange.resourceType old)));
                  ("reviewNotes",
                    option_map JStr
                      (PendingChangesRoutes.reviewNotes data))]) /\
     exists fields,
       AuditLog.details entry = Some (JObj fields) /\
       assoc "originalAction" fields
       = Some (JStr (ActionType_value (PendingChange.action old))) /\
       assoc "targetResource" fields
       = Some (JStr (PendingChange.resourceType old)) /\
       assoc "reviewNotes" fields
       = option_map JStr (PendingChangesRoutes.reviewNotes data)).
Proof.
  split; (split; [reflexivity|]).
  - apply (proj1 audit_pairing (Sample.submit Sample.editor1)
             (Sample.io "pc1" 10) (Sample.io "log1" 11) Sample.seeded
             (fst Sample.submission) Sample.submitted);
      reflexivity.
  - apply (proj2 audit_pairing
             (Sample.review Sample.admin1 (Sample.id "pc1") "approved" "ok")
             (Sample.io "" 20) (Sample.io "" 21) (Sample.io "log2" 22)
             Sample.submitted (fst Sample.approval) Sample.approved);
      reflexivity.
Defined.

Lemma admins_are_protected_witness :
  (* [admin1] on its own account *)
  UsersRoutes.PATCH_id_role
    (Sample.on_user Sample.admin1 (Sample.id "admin1") (JObj [("role", JStr "editor")]))
    (Sample.io "" 50) (Sample.io "" 51) (Sample.io "log5" 52) Sample.seeded
  = (Forbidden "Cannot change admin role", Sample.seeded) /\
  UsersRoutes.PATCH_id_active
    (Sample.on_user Sample.admin1 (Sample.id "admin1") (JObj [("isActive", JBool false)]))
    (Sample.io "" 50) (Sample.io "" 51) (Sample.io "log5" 52) Sample.seeded
  = (Forbidden "Cannot deactivate admin", Sample.seeded) /\
  UsersRoutes.DELETE_id
    (Sample.on_user Sample.admin1 (Sample.id "admin1") JNull)
    (Sample.io "" 50) (Sample.io "" 51) (Sample.io "log5" 52) Sample.seeded
  = (Forbidden "Cannot delete admin", Sample.seeded) /\
  In (Sample.user_row "admin1" "admin@gogreen.com" ADMIN)
    (users (UsersRoutes.serve Sample.is_email Sample.argon2_hash Sample.calls
              Sample.seeded)).
Proof.
  pose proof (proj1 (admins_are_protected Sample.is_email Sample.argon2_hash))
    as H.
  split; [|split; [|split]].
  - specialize (H (Sample.on_user Sample.admin1 (Sample.id "admin1")
                     (JObj [("role", JStr "editor")]))
                  (Sample.id "admin1") (Sample.user_row "admin1" "admin@gogreen.com" ADMIN)
                  (Sample.io "" 50) (Sample.io "" 51) (Sample.io "log5" 52)
                  Sample.seeded eq_refl eq_refl eq_refl).
    destruct H as (H & _ & _).
    destruct (UsersRoutes.PATCH_id_role _ _ _ _ _) as [r db'].
    destruct H as (Hdb & _ & Hr).
    rewrite Hdb, Hr; [reflexivity|discriminate|discriminate|reflexivity].
  - specialize (H (Sample.on_user Sample.admin1 (Sample.id "admin1")
                     (JObj [("isActive", JBool false)]))
                  (Sample.id "admin1") (Sample.user_row "admin1" "admin@gogreen.com" ADMIN)
                  (Sample.io "" 50) (Sample.io "" 51) (Sample.io "log5" 52)
                  Sample.seeded eq_refl eq_refl eq_refl).
    destruct H as (_ & H & _).
    destruct (UsersRoutes.PATCH_id_active _ _ _ _ _) as [r db'].
    destruct H as (Hdb & _ & Hr).
    rewrite Hdb, Hr; [reflexivity|discriminate|discriminate|reflexivity].
  - specialize (H (Sample.on_user Sample.admin1 (Sample.id "admin1") JNull)
                  (Sample.id "admin1") (Sample.user_row "admin1" "admin@gogreen.com" ADMIN)
                  (Sample.io "" 50) (Sample.io "" 51) (Sample.io "log5" 52)
                  Sample.seeded eq_refl eq_refl eq_refl).
    destruct H as (_ & _ & H).
    destruct (UsersRoutes.DELETE_id _ _ _ _ _) as [r db'].
    destruct H as (Hdb & _ & Hr).
    rewrite Hdb, Hr; [reflexivity|discriminate|reflexivity].
  - apply (proj2 (admins_are_protected Sample.is_email Sample.argon2_hash)).
    + unfold users_keyed. simpl.
      repeat constructor; simpl; intuition discriminate.
    + simpl. left. reflexivity.
    + reflexivity.
Defined.

Lemma only_editors_are_admitted_witness :
  UsersRoutes.POST_root Sample.is_email Sample.argon2_hash
    (AuthRequest.mk (Some Sample.admin1) None
       (JObj [("email", JStr "new@gogreen.com");
              ("password", JStr "secret1");
              ("role", JStr "admin")]))
    (Sample.io "" 50) (Sample.io "admin3" 51) (Sample.io "log5" 52)
    Sample.seeded
  = (ValidationError, Sample.seeded) /\
  UsersRoutes.PATCH_id_role
    (Sample.on_user Sample.admin1 (Sample.id "editor1") (JObj [("role", JStr "admin")]))
    (Sample.io "" 50) (Sample.io "" 51) (Sample.io "log5" 52) Sample.seeded
  = (ValidationError, Sample.seeded) /\
  (In (Sample.user_row "admin1" "admin@gogreen.com" ADMIN)
     (users (UsersRoutes.serve Sample.is_email Sample.argon2_hash Sample.calls
               Sample.seeded)) ->
   In (Sample.user_row "admin1" "admin@gogreen.com" ADMIN)
     (users Sample.seeded)).
Proof.
  destruct (only_editors_are_admitted Sample.is_email Sample.argon2_hash)
    as (Hcreate & Hrole & Hserve).
  split; [|split].
  - apply (Hcreate _ Sample.admin1); [reflexivity|].
    simpl. discriminate.
  - apply (Hrole _ Sample.admin1 (Sample.id "editor1")); [reflexivity|reflexivity|].
    simpl. discriminate.
  - intros Hin. apply (Hserve Sample.calls); [|exact Hin|reflexivity].
    unfold users_keyed. simpl.
    repeat constructor; simpl; intuition discriminate.
Defined.


(** * More of the code *)

(** ** What a handler keeps, statement by statement *)

Section Keeping.
Variable R : DB -> DB -> Prop.
Hypothesis R_refl : forall db, R db db.
Hypothesis R_trans : forall a b c, R a b -> R b c -> R a c.

Lemma keeps_ret A (a : A) : keeps R (ret a).
Proof using R_refl. intros db. apply R_refl. Qed.

Lemma keeps_respond A r : keeps R (@respond A r).
Proof using R_refl. intros db. apply R_refl. Qed.

Lemma keeps_throw A e : keeps R (@throw A e).
Proof using R_refl. intros db. apply R_refl. Qed.

Lemma keeps_return_if c r : keeps R (return_if c r).
Proof using R_refl. intros db. unfold return_if. destruct c; apply R_refl. Qed.

Lemma keeps_return_unless A (x : option A) r : keeps R (return_unless x r).
Proof using R_refl.
  intros db. unfold return_unless. destruct x; apply R_refl.
Qed.

Lemma keeps_parsed A (o : option A) : keeps R (parsed o).
Proof using R_refl. intros db. unfold parsed. destruct o; apply R_refl. Qed.

Lemma keeps_bind A B (m : Task A) (k : A -> Task B) :
  keeps R m -> (forall a, keeps R (k a)) -> keeps R (bind m k).
Proof using R_trans.
  intros Hm Hk db. unfold bind. specialize (Hm db).
  destruct (m db) as [[a|r|e] db1]; simpl in *; try assumption.
  eapply R_trans; [exact Hm|]. apply Hk.
Qed.

(** After [parsed], [return_unless] and [return_if] the rest runs on a
    value that passed the test. *)
Lemma keeps_bind_parsed A B (o : option A) (k : A -> Task B) :
  (forall a, o = Some a -> keeps R (k a)) -> keeps R (bind (parsed o) k).
Proof using R_refl.
  intros Hk db. unfold bind, parsed. destruct o as [a|]; simpl.
  - apply Hk. reflexivity.
  - apply R_refl.
Qed.

Lemma keeps_bind_return_unless A B (o : option A) r (k : A -> Task B) :
  (forall a, o = Some a -> keeps R (k a)) ->
  keeps R (bind (return_unless o r) k).
Proof using R_refl.
  intros Hk db. unfold bind, return_unless. destruct o as [a|]; simpl.
  - apply Hk. reflexivity.
  - apply R_refl.
Qed.

Lemma keeps_bind_return_if B c r (k : unit -> Task B) :
  (c = false -> keeps R (k tt)) -> keeps R (bind (return_if c r) k).
Proof using R_refl.
  intros Hk db. unfold bind, return_if. destruct c; simpl.
  - apply R_refl.
  - apply Hk. reflexivity.
Qed.

Lemma keeps_await A io (run : DB -> Outcome A * DB) :
  (forall db, R db (snd (run db))) -> keeps R (await io run).
Proof using R_refl.
  intros Hrun db. unfold await. destruct (rejects io); simpl;
    [apply R_refl|apply Hrun].
Qed.

Lemma keeps_try_catch tryBlock onError :
  keeps R tryBlock -> forall db, R db (snd (try_catch tryBlock onError db)).
Proof.
  intros H db. unfold try_catch. specialize (H db).
  destruct (tryBlock db) as [[| |] ?]; exact H.
Qed.

Lemma keeps_try_catch_sending A (tryBlock : Task A) onError :
  keeps R tryBlock ->
  forall db, R db (snd (try_catch_sending tryBlock onError db)).
Proof.
  intros H db. unfold try_catch_sending. specialize (H db).
  destruct (tryBlock db) as [[| |] ?]; exact H.
Qed.

(** Statements that only read. *)
Lemma keeps_getById io id : keeps R (PendingChangeModel.getById io id).
Proof using R_refl.
  apply keeps_await. intros db. destruct (Uuid.input id); apply R_refl.
Qed.

Lemma keeps_findById io id : keeps R (UserModel.findById io id).
Proof using R_refl.
  apply keeps_await. intros db. destruct (Uuid.input id); apply R_refl.
Qed.

Lemma keeps_findByEmail io email : keeps R (UserModel.findByEmail io email).
Proof using R_refl. apply keeps_await. intros db. apply R_refl. Qed.

End Keeping.

(** Walk down a handler body, given that the relation is reflexive and
    transitive; what is left are its writes. *)
Ltac keeps_walk refl trans :=
  repeat first
    [ apply (@keeps_ret _ refl)
    | apply (@keeps_respond _ refl)
    | apply (@keeps_throw _ refl)
    | apply (@keeps_getById _ refl)
    | apply (@keeps_findById _ refl)
    | apply (@keeps_findByEmail _ refl)
    | apply (@keeps_bind_parsed _ refl); intros ? ?
    | apply (@keeps_bind_return_unless _ refl); intros ? ?
    | apply (@keeps_bind_return_if _ refl); intros ?
    | apply (@keeps_bind _ trans); [ | intros ?]
    | progress cbv zeta ].

(** ** Relations between the database before and after *)

Lemma audit_grows_refl db : audit_grows db db.
Proof. exists []. symmetry. apply app_nil_r. Qed.

Lemma audit_grows_trans a b c :
  audit_grows a b -> audit_grows b c -> audit_grows a c.
Proof.
  intros (x & Hx) (y & Hy). exists (x ++ y)%list.
  rewrite Hy, Hx. symmetry. apply app_assoc.
Qed.

Lemma same_users_refl db : same_users db db.
Proof. reflexivity. Qed.

Lemma same_users_trans a b c :
  same_users a b -> same_users b c -> same_users a c.
Proof. unfold same_users. congruence. Qed.

Lemma same_pendingChanges_refl db : same_pendingChanges db db.
Proof. reflexivity. Qed.

Lemma same_pendingChanges_trans a b c :
  same_pendingChanges a b -> same_pendingChanges b c ->
  same_pendingChanges a c.
Proof. unfold same_pendingChanges. congruence. Qed.

Create HintDb keeps.
#[local] Hint Resolve audit_grows_refl audit_grows_trans
  same_users_refl same_users_trans
  same_pendingChanges_refl same_pendingChanges_trans : keeps.

(** Prove what one statement keeps: open it and look at each way it ends. *)
Ltac keeps_statement :=
  apply keeps_await; [solve [auto with keeps]|];
  intros db; simpl;
  repeat match goal with
         | |- context [match ?x with _ => _ end] => destruct x eqn:?
         end;
  simpl; auto with keeps.

Lemma audit_grows_same db db' :
  auditLogs db' = auditLogs db -> audit_grows db db'.
Proof. intros H. exists []. rewrite H. symmetry. apply app_nil_r. Qed.

#[local] Hint Resolve audit_grows_same : keeps.

(** *** The audit log only grows *)

Lemma keeps_audit_AuditLogModel_create io data :
  keeps audit_grows (AuditLogModel.create io data).
Proof.
  unfold AuditLogModel.create. keeps_statement.
  eexists. reflexivity.
Qed.

Lemma keeps_audit_PendingChangeModel_create io data :
  keeps audit_grows (PendingChangeModel.create io data).
Proof. unfold PendingChangeModel.create. keeps_statement. Qed.

Lemma keeps_audit_PendingChangeModel_review io id data :
  keeps audit_grows (PendingChangeModel.review io id data).
Proof. unfold PendingChangeModel.review. keeps_statement. Qed.

Lemma keeps_audit_UserModel_create io email password role :
  keeps audit_grows (UserModel.create io email password role).
Proof. unfold UserModel.create. keeps_statement. Qed.

Lemma keeps_audit_UserModel_updateRole io id role :
  keeps audit_grows (UserModel.updateRole io id role).
Proof. unfold UserModel.updateRole. keeps_statement. Qed.

Lemma keeps_audit_UserModel_toggleActive io id isActive :
  keeps audit_grows (UserModel.toggleActive io id isActive).
Proof. unfold UserModel.toggleActive. keeps_statement. Qed.

Lemma keeps_audit_UserModel_deleteById io id :
  keeps audit_grows (UserModel.deleteById io id).
Proof. unfold UserModel.deleteById. keeps_statement. Qed.

Lemma keeps_audit_UserModel_updatePassword io id hashed :
  keeps audit_grows (UserModel.updatePassword io id hashed).
Proof. unfold UserModel.updatePassword. keeps_statement. Qed.

#[local] Hint Resolve keeps_audit_AuditLogModel_create
  keeps_audit_PendingChangeModel_create keeps_audit_PendingChangeModel_review
  keeps_audit_UserModel_create keeps_audit_UserModel_updateRole
  keeps_audit_UserModel_toggleActive keeps_audit_UserModel_deleteById
  keeps_audit_UserModel_updatePassword : keeps.

(** Open a handler and walk down its body. *)
Ltac keeps_handler R refl trans :=
  intros;
  first [ apply (@keeps_try_catch R) | apply (@keeps_try_catch_sending R) ];
  keeps_walk refl trans; auto with keeps.

Lemma audit_grows_submit req io_create io_audit db :
  audit_grows db
    (snd (PendingChangesRoutes.POST_root req io_create io_audit db)).
Proof. revert db. unfold PendingChangesRoutes.POST_root. keeps_handler audit_grows audit_grows_refl audit_grows_trans. Qed.

Lemma audit_grows_review req io_get io_review io_audit db :
  audit_grows db
    (snd (PendingChangesRoutes.POST_id_review req io_get io_review io_audit
            db)).
Proof.
  revert db. unfold PendingChangesRoutes.POST_id_review. keeps_handler audit_grows audit_grows_refl audit_grows_trans.
Qed.

Lemma audit_grows_users is_email argon2_hash c req io1 io2 io3 db :
  audit_grows db
    (snd (UsersRoutes.handle is_email argon2_hash c req io1 io2 io3 db)).
Proof.
  revert db. destruct c; simpl;
    unfold UsersRoutes.POST_root, UsersRoutes.PATCH_id_role,
      UsersRoutes.PATCH_id_active, UsersRoutes.DELETE_id;
    keeps_handler audit_grows audit_grows_refl audit_grows_trans.
Qed.

Lemma audit_grows_change_password argon2_hash argon2_verify req io_find
    io_update db :
  audit_grows db
    (snd (AuthRoutes.POST_change_password argon2_hash argon2_verify req
            io_find io_update db)).
Proof.
  revert db. unfold AuthRoutes.POST_change_password. keeps_handler audit_grows audit_grows_refl audit_grows_trans.
Qed.

Lemma audit_grows_effect is_email argon2_hash argon2_verify c db :
  audit_grows db (Api.effect is_email argon2_hash argon2_verify c db).
Proof.
  destruct c as [[req io1 io2|req io1 io2 io3]|c|req io1 io2]; simpl.
  - apply audit_grows_submit.
  - apply audit_grows_review.
  - apply audit_grows_users.
  - apply audit_grows_change_password.
Qed.

(** X1. The audit log is append-only: over any sequence of calls that
    submit or review a change, manage users or change a password, whatever
    each of them answers, the log at the end is the log at the start with
    entries added at its end; no entry is changed, removed or moved. *)
Theorem audit_log_append_only
    (is_email : string -> bool) (argon2_hash : string -> string)
    (argon2_verify : string -> string -> bool) calls db :
  exists added,
    auditLogs (Api.serve is_email argon2_hash argon2_verify calls db)
    = (auditLogs db ++ added)%list.
Proof.
  revert db. induction calls as [|c calls IH]; intros db; simpl.
  - apply audit_grows_refl.
  - eapply audit_grows_trans; [apply audit_grows_effect|apply IH].
Qed.

(** ** The approval workflow, further *)

(** X2. A review request that finds no change leaves the database as it
    was. When its id spells a uuid, under which no change is stored, it is
    answered 404 "Pending change not found"; when its id spells no uuid,
    the lookup fails in PostgreSQL and the answer is 500 "Internal server
    error". *)
Theorem review_unknown_change req user id data io_get io_review io_audit db :
  review_request req user id data ->
  rejects io_get = false ->
  PendingChangeModel.lookup id db = None ->
  PendingChangesRoutes.POST_id_review req io_get io_review io_audit db
  = (match Uuid.input id with
     | Some _ => res_status 404 (Error "Pending change not found")
     | None => StorageFailure
     end, db).
Proof.
  intros (Hu & Hid & Hdata) Hio Hnone.
  unfold PendingChangesRoutes.POST_id_review. unfold_task.
  rewrite Hu, Hid, Hdata. unfold PendingChangeModel.getById, await.
  rewrite Hio, Hnone. destruct (Uuid.input id); reflexivity.
Qed.

(** X3. A call of the workflow that is refused writes nothing: when a
    submission or a review is answered with a status other than 200 and
    500 (401, 400, 404), the database is as it was. *)
Theorem refused_workflow_calls_write_nothing c db :
  statusCode (fst (Workflow.handle c db)) <> 200 ->
  statusCode (fst (Workflow.handle c db)) <> 500 ->
  snd (Workflow.handle c db) = db.
Proof.
  destruct c as [req io_create io_audit|req io_get io_review io_audit];
    simpl.
  - unfold PendingChangesRoutes.POST_root. unfold_task.
    destruct (AuthRequest.user req) as [user|]; [|reflexivity].
    destruct (UserRole_eqb _ _); [reflexivity|].
    destruct (PendingChangesRoutes.createChangeSchema _) as [data|];
      [|reflexivity].
    destruct (PendingChangeModel.create _ _ _) as [[pc| |e] db1] eqn:Hc.
    + destruct (AuditLogModel.create _ _ _) as [[entry| |e] db2] eqn:Ha;
        simpl; intros H200 H500.
      * congruence.
      * exfalso. revert Ha. unfold AuditLogModel.create, await.
        destruct (rejects _); [discriminate|].
        destruct (taken _ _ _); discriminate.
      * exfalso. revert Ha. unfold AuditLogModel.create, await.
        destruct (rejects _); [|destruct (taken _ _ _)]; intros Ha;
          invert_pair Ha; simpl in H500; congruence.
    + intros _ _. simpl.
      apply PendingChangeModel_create_other in Hc; [assumption|discriminate].
    + intros _ _. simpl.
      apply PendingChangeModel_create_other in Hc; [assumption|discriminate].
  - unfold PendingChangesRoutes.POST_id_review. unfold_task.
    destruct (AuthRequest.user req) as [user|]; [|reflexivity].
    destruct (truthy _) as [id|]; [|reflexivity].
    destruct (PendingChangesRoutes.reviewSchema _) as [data|];
      [|reflexivity].
    unfold PendingChangeModel.getById, await.
    destruct (rejects io_get); [reflexivity|].
    destruct (Uuid.input id) as [uu|] eqn:Hinput; [|reflexivity].
    destruct (PendingChangeModel.lookup id db) as [old|]; [|reflexivity].
    destruct (ChangeStatus_eqb _ _); simpl; [|reflexivity].
    unfold PendingChangeModel.review, await.
    destruct (rejects io_review); [reflexivity|].
    try rewrite Hinput.
    unfold AuditLogModel.create, await.
    destruct (rejects io_audit); simpl; [congruence|].
    destruct (taken _ _ _); simpl; congruence.
Qed.

Lemma select_where_fresh {Row} (col : Row -> string) k t :
  taken col k t = false ->
  select_where (fun r => String.eqb (col r) k) t = [].
Proof.
  unfold taken, select_where. induction t as [|r t IH]; simpl;
    [reflexivity|].
  destruct (String.eqb (col r) k); simpl; [discriminate|exact IH].
Qed.

Lemma createChangeSchema_action body data :
  PendingChangesRoutes.createChangeSchema body = Some data ->
  In (PendingChangesRoutes.action data) [CREATE; UPDATE; DELETE].
Proof.
  unfold PendingChangesRoutes.createChangeSchema.
  destruct body; try discriminate.
  destruct (z_enum _ _ _) as [action|] eqn:E; [|discriminate].
  destruct (z_string _); [|discriminate].
  destruct (z_optional _ _); [|discriminate].
  unfold z_any. intros H. invert_pair H.
  apply z_enum_member in E. exact E.
Qed.

(** X4. A submission that reports success can be read back: [getById] on
    the id of the change in the response gives that change, stored under
    the drawn id with the caller as its author, the action (one of create,
    update, delete), the resource type, the resource id and the change data
    of the request, and the time of the insert as its creation date. *)
Theorem submit_round_trip req io_create io_audit db r db' :
  PendingChangesRoutes.POST_root req io_create io_audit db = (r, db') ->
  succeeded r ->
  exists user data pc,
    AuthRequest.user req = Some user /\
    PendingChangesRoutes.createChangeSchema (AuthRequest.body req)
      = Some data /\
    r = res_json (Success "Change submitted for approval"
                    (PendingChangeData pc)) /\
    PendingChangeModel.lookup (PendingChange.id pc) db' = Some pc /\
    PendingChange.id pc = uuid io_create /\
    PendingChange.userId pc = JWTPayload.userId user /\
    PendingChange.action pc = PendingChangesRoutes.action data /\
    In (PendingChange.action pc) [CREATE; UPDATE; DELETE] /\
    PendingChange.resourceType pc = PendingChangesRoutes.resourceType data /\
    PendingChange.resourceId pc = PendingChangesRoutes.resourceId data /\
    Some (PendingChange.changeData pc)
      = PendingChangesRoutes.changeData data /\
    PendingChange.createdAt pc = clock io_create.
Proof.
  intros H Hr.
  destruct (POST_root_succeeded _ _ _ _ H Hr)
    as (user & data & pc & entry & db1 & Hu & _ & Hdata & Hc & Ha & ->).
  assert (PendingChange.createdAt pc = clock io_create) as Hat.
  { revert Hc. unfold PendingChangeModel.create, await.
    destruct (rejects _); [discriminate|].
    destruct (nullable _); [|discriminate].
    destruct (taken _ _ _); [discriminate|].
    intros E. invert_pair E. reflexivity. }
  apply PendingChangeModel_create_inv in Hc
    as (_ & Hfresh & Hid & Huid & Hact & Hty & Hrid & Hcd & _ & _ & ->).
  apply AuditLogModel_create_inv in Ha as (_ & _ & _ & _ & _ & _ & _ & _ & ->).
  exists user, data, pc. simpl in *.
  repeat (split; [assumption || reflexivity|]).
  split.
  - unfold PendingChangeModel.lookup. rewrite Hid, Uuid_input_uuid.
    unfold PendingChangeModel.has_id. fold (uuid io_create). simpl.
    unfold select_where. rewrite filter_app.
    fold (select_where
            (fun r => String.eqb (PendingChange.id r) (uuid io_create))
            (pendingChanges db)).
    rewrite (select_where_fresh _ _ _ Hfresh). simpl.
    rewrite Hid, String.eqb_refl. reflexivity.
  - repeat (split; [assumption|]).
    split; [|repeat split; assumption].
    rewrite Hact. eapply createChangeSchema_action. exact Hdata.
Qed.

Lemma valid_status_value st :
  PendingChangesRoutes.valid_status (Some (ChangeStatus_value st)) = Some st.
Proof. destruct st; reflexivity. Qed.

Lemma valid_status_inv status st :
  PendingChangesRoutes.valid_status status = Some st ->
  status = Some (ChangeStatus_value st).
Proof.
  unfold PendingChangesRoutes.valid_status, truthy.
  destruct status as [s|]; [|discriminate].
  destruct (String.eqb s ""); [discriminate|].
  intros H. apply find_some in H as (_ & H).
  apply String.eqb_eq in H. congruence.
Qed.

Lemma changes_sorted (t : list PendingChange.t) :
  StronglySorted newer_change (order_by_desc PendingChange.createdAt t).
Proof. apply (order_by_desc_sorted PendingChange.createdAt). Qed.

(** X5. [GET /status/:status] answers 400 "Invalid status", without
    reading the database, unless the parameter is [pending], [approved] or
    [rejected]; then it sends exactly the stored changes with that status,
    newest first, and their number as [total]. [GET /pending] is
    [GET /status/pending]. *)
Theorem changes_by_status io db :
  (forall status,
      (forall st, status <> Some (ChangeStatus_value st)) ->
      PendingChangesRoutes.GET_status status io db
      = (inl (res_status 400 (Error "Invalid status")), db)) /\
  (forall st,
      rejects io = false ->
      exists changes,
        PendingChangesRoutes.GET_status (Some (ChangeStatus_value st)) io db
        = (inr (mkPage changes (Z.of_nat (List.length changes))), db) /\
        (forall pc,
            In pc changes <->
            In pc (pendingChanges db) /\ PendingChange.status pc = st) /\
        StronglySorted newer_change changes) /\
  PendingChangesRoutes.GET_pending io db
  = PendingChangesRoutes.GET_status (Some "pending") io db.
Proof.
  split; [|split].
  - intros status Hst. unfold PendingChangesRoutes.GET_status.
    unfold try_catch_sending, bind, return_unless.
    destruct (PendingChangesRoutes.valid_status status) as [st|] eqn:E;
      [|reflexivity].
    apply valid_status_inv in E. exfalso. exact (Hst st E).
  - intros st Hio. unfold PendingChangesRoutes.GET_status.
    unfold try_catch_sending, bind, return_unless, ret.
    rewrite valid_status_value.
    unfold PendingChangeModel.getByStatus, await. rewrite Hio. simpl.
    eexists. split; [reflexivity|]. split.
    + intros pc. rewrite order_by_desc_In. unfold select_where.
      rewrite filter_In, ChangeStatus_eqb_eq. reflexivity.
    + apply changes_sorted.
  - reflexivity.
Qed.

(** X6. The lists follow the workflow. After a submission that reports
    success, the new change is in the list of pending changes and in its
    author's [my-changes]. After a review that reports success, no change
    with the id of the reviewed change is in the list of pending changes
    any more (and none, of those whose id is the text of a uuid as
    PostgreSQL prints it, with the id as the request spelled it), and the
    change as reviewed is in the list of its decision. *)
Theorem lists_follow_workflow :
  (forall req io_create io_audit db pc db' io,
      PendingChangesRoutes.POST_root req io_create io_audit db
      = (res_json (Success "Change submitted for approval"
                     (PendingChangeData pc)), db') ->
      rejects io = false ->
      (exists changes,
          PendingChangesRoutes.GET_pending io db'
          = (inr (res_page changes), db') /\ In pc changes) /\
      (exists changes,
          PendingChangesRoutes.GET_my_changes req io db'
          = (inr (res_page changes), db') /\ In pc changes)) /\
  (forall req io_get io_review io_audit db message reviewed db' io,
      PendingChangesRoutes.POST_id_review req io_get io_review io_audit db
      = (res_json (Success message (PendingChangeData reviewed)), db') ->
      rejects io = false ->
      (exists changes,
          PendingChangesRoutes.GET_pending io db'
          = (inr (res_page changes), db') /\
          forall pc,
            In pc changes ->
            PendingChange.id pc <> PendingChange.id reviewed /\
            ((exists u, PendingChange.id pc = Uuid.out u) ->
             Some (PendingChange.id pc) <> truthy (AuthRequest.id req))) /\
      (exists changes,
          PendingChangesRoutes.GET_status
            (Some (ChangeStatus_value (PendingChange.status reviewed))) io db'
          = (inr (res_page changes), db') /\ In reviewed changes)).
Proof.
  split.
  - intros req io_create io_audit db pc db' io H Hio.
    destruct (POST_root_succeeded _ _ _ _ H eq_refl)
      as (user & data & pc0 & entry & db1 & Hu & _ & _ & Hc & Ha & E).
    assert (pc0 = pc) as -> by (unfold res_json in E; congruence).
    apply PendingChangeModel_create_inv in Hc
      as (_ & _ & _ & Huid & _ & _ & _ & _ & Hst & _ & ->).
    apply AuditLogModel_create_inv in Ha
      as (_ & _ & _ & _ & _ & _ & _ & _ & ->).
    split.
    + unfold PendingChangesRoutes.GET_pending, try_catch_sending, bind, ret.
      unfold PendingChangeModel.getAllPending, await. rewrite Hio. simpl.
      eexists. split; [reflexivity|].
      apply order_by_desc_In. apply filter_In. split.
      * apply in_or_app. right. left. reflexivity.
      * rewrite Hst. reflexivity.
    + unfold PendingChangesRoutes.GET_my_changes, try_catch_sending, bind,
        return_unless, ret.
      rewrite Hu.
      unfold PendingChangeModel.getByUserId, await. rewrite Hio. simpl.
      eexists. split; [reflexivity|].
      apply order_by_desc_In. apply filter_In. split.
      * apply in_or_app. right. left. reflexivity.
      * rewrite Huid. simpl. apply String.eqb_refl.
  - intros req io_get io_review io_audit db message reviewed db' io H Hio.
    destruct (POST_id_review_succeeded _ _ _ _ _ H eq_refl)
      as (user & id & data & old & reviewed0 & entry & db1
          & Hreq & _ & Hold & _ & Hrev & Ha & E).
    assert (reviewed0 = Some reviewed) as ->.
    { destruct reviewed0; unfold res_json in E; simpl in E; congruence. }
    apply PendingChangeModel_review_inv in Hrev as (_ & Hnew & Hlook & ureviewed & Hureviewed & ->).
    apply AuditLogModel_create_inv in Ha
      as (_ & _ & _ & _ & _ & _ & _ & _ & ->).
    rewrite Hold in Hnew. simpl in Hnew. invert_pair Hnew.
    destruct Hreq as (_ & Hid & Hdata).
    pose proof (reviewSchema_decision _ Hdata) as Hdec.
    split.
    + unfold PendingChangesRoutes.GET_pending, try_catch_sending, bind, ret.
      unfold PendingChangeModel.getAllPending, await. rewrite Hio. simpl.
      eexists. split; [reflexivity|].
      intros pc Hpc.
      assert (PendingChange.id old = Uuid.out ureviewed) as Hoid.
      { unfold PendingChangeModel.lookup in Hold.
        rewrite Hureviewed in Hold.
        apply first_or_null_select_In in Hold as (_ & Hoid).
        apply String.eqb_eq in Hoid. exact Hoid. }
      cbn [PendingChangeModel.review_set PendingChange.id].
      assert (PendingChange.id pc <> PendingChange.id old) as Hother.
      { intros Eid.
        apply order_by_desc_In in Hpc.
        apply filter_In in Hpc as (Hin & Hst).
        apply ChangeStatus_eqb_eq in Hst.
        unfold update_where in Hin. apply in_map_iff in Hin as (x & Hx & _).
        destruct (PendingChangeModel.has_id ureviewed x) eqn:Hxid.
        - subst pc. simpl in Hst. destruct Hdec; congruence.
        - subst x. unfold PendingChangeModel.has_id in Hxid.
          rewrite Eid, Hoid, String.eqb_refl in Hxid. discriminate. }
      split; [exact Hother|].
      intros (u & Hu) Ereq. apply Hother.
      rewrite Hid in Ereq. injection Ereq as Ereq.
      rewrite Hu in Ereq. subst id.
      rewrite Uuid_input_out in Hureviewed. injection Hureviewed as <-.
      congruence.
    + unfold PendingChangesRoutes.GET_status, try_catch_sending, bind,
        return_unless, ret.
      rewrite valid_status_value.
      unfold PendingChangeModel.getByStatus, await. rewrite Hio. simpl.
      eexists. split; [reflexivity|].
      apply order_by_desc_In. apply filter_In. split.
      * unfold PendingChangeModel.lookup in Hlook.
        rewrite Hureviewed in Hlook. simpl in Hlook.
        apply first_or_null_select_In in Hlook. apply Hlook.
      * simpl. apply ChangeStatus_eqb_eq. reflexivity.
Qed.

(** X7. A call of the workflow touches one change at most: whatever a
    submission answers, and whatever answers a review whose id does not
    spell the uuid of a stored change (it spells another uuid, or none, or
    the request has no id), that change is read back by [getById] exactly
    as it was. Two spellings of one uuid name the same change. *)
Theorem workflow_calls_touch_one_change c db id pc :
  PendingChangeModel.lookup id db = Some pc ->
  (forall req io_get io_review io_audit id',
      c = Workflow.Review req io_get io_review io_audit ->
      truthy (AuthRequest.id req) = Some id' ->
      Uuid.input id' <> Uuid.input id) ->
  PendingChangeModel.lookup id (snd (Workflow.handle c db)) = Some pc.
Proof.
  intros Hpc Hother.
  destruct (change_lookup_input _ _ Hpc) as (u & Hin & Hrow).
  unfold PendingChangeModel.lookup. rewrite Hin.
  destruct c as [req io_create io_audit | req io_get io_review io_audit];
    simpl.
  - destruct (POST_root_pendingChanges req io_create io_audit db)
      as (added & ->).
    unfold select_where. rewrite filter_app.
    apply first_or_null_app. assumption.
  - specialize (fun id' => Hother req io_get io_review io_audit id' eq_refl).
    revert Hother.
    unfold PendingChangesRoutes.POST_id_review. unfold_task.
    destruct (AuthRequest.user req) as [user|]; [|intros; assumption].
    destruct (truthy _) as [id'|]; [|intros; assumption].
    intros Hne. specialize (Hne id' eq_refl).
    destruct (PendingChangesRoutes.reviewSchema _) as [data|];
      [|assumption].
    unfold PendingChangeModel.getById, await.
    destruct (rejects io_get); [assumption|].
    destruct (Uuid.input id') as [uu|] eqn:Hinput; [|assumption].
    destruct (PendingChangeModel.lookup id' db) as [old|]; [|assumption].
    destruct (ChangeStatus_eqb _ _); simpl; [|assumption].
    unfold PendingChangeModel.review, await.
    destruct (rejects io_review); [assumption|].
    try rewrite Hinput.
    match goal with
    | |- context [AuditLogModel.create ?io ?d ?b] =>
        pose proof (AuditLogModel_create_pendingChanges io d b) as Ha;
        destruct (AuditLogModel.create io d b) as [[| |] ?]
    end; simpl in *; rewrite Ha;
      (rewrite select_other_id_review; [assumption|congruence]).
Qed.



Lemma select_where_delete_where {Row} (p q : Row -> bool) t :
  (forall r, q r = true -> p r = false) ->
  select_where q (delete_where p t) = select_where q t.
Proof.
  intros Hpq. unfold select_where, delete_where.
  induction t as [|r t IH]; simpl; [reflexivity|].
  destruct (p r) eqn:Hp; simpl.
  - destruct (q r) eqn:Hq; [|exact IH].
    rewrite (Hpq _ Hq) in Hp. discriminate.
  - rewrite IH. reflexivity.
Qed.

Lemma select_where_delete_where_same {Row} (p : Row -> bool) t :
  select_where p (delete_where p t) = [].
Proof.
  unfold select_where, delete_where.
  induction t as [|r t IH]; simpl; [reflexivity|].
  destruct (p r) eqn:Hp; simpl; [exact IH|]. rewrite Hp. exact IH.
Qed.

(** X8. [PendingChangeModel.delete] does not look at the status. Under an
    id that spells a uuid it removes what is stored under that uuid,
    pending or reviewed, and answers whether there was something to
    remove; afterwards [getById] finds nothing under the id, and under
    every id that does not spell this uuid what it found before; users and
    the audit log are not touched. Under an id that spells no uuid the
    statement fails and nothing is removed. *)
Theorem delete_change io id db :
  rejects io = false ->
  match Uuid.input id with
  | Some u =>
      exists db',
        PendingChangeModel.delete io id db
        = (Value (match PendingChangeModel.lookup id db with
                  | Some _ => true
                  | None => false
                  end), db') /\
        PendingChangeModel.lookup id db' = None /\
        (forall id', Uuid.input id' <> Some u ->
                     PendingChangeModel.lookup id' db'
                     = PendingChangeModel.lookup id' db) /\
        users db' = users db /\
        auditLogs db' = auditLogs db
  | None => PendingChangeModel.delete io id db = (Thrown DbError, db)
  end.
Proof.
  intros Hio. unfold PendingChangeModel.delete, await. rewrite Hio.
  unfold PendingChangeModel.lookup.
  destruct (Uuid.input id) as [u|]; [|reflexivity].
  eexists. split; [|split; [|split; [|split]]].
  - f_equal. f_equal. unfold first_or_null.
    destruct (select_where (PendingChangeModel.has_id u) (pendingChanges db));
      reflexivity.
  - simpl. rewrite select_where_delete_where_same. reflexivity.
  - intros id' Hne. simpl.
    destruct (Uuid.input id') as [u'|]; [|reflexivity].
    rewrite select_where_delete_where; [reflexivity|].
    intros r Hr. eapply change_has_other_id; [|eassumption]. congruence.
  - reflexivity.
  - reflexivity.
Qed.

(** *** The constraints and the invariant of [pending_changes] *)

Lemma changes_kept_refl db : changes_kept db db.
Proof. intros H. exact H. Qed.

Lemma changes_kept_trans a b c :
  changes_kept a b -> changes_kept b c -> changes_kept a c.
Proof. unfold changes_kept. auto. Qed.

Lemma changes_kept_same db db' :
  pendingChanges db' = pendingChanges db -> changes_kept db db'.
Proof.
  intros E. unfold changes_kept, changes_ok, changes_keyed. rewrite E. auto.
Qed.

#[local] Hint Resolve changes_kept_refl changes_kept_same : keeps.

Lemma keeps_changes_AuditLogModel_create io data :
  keeps changes_kept (AuditLogModel.create io data).
Proof. unfold AuditLogModel.create. keeps_statement. Qed.

Lemma keeps_changes_PendingChangeModel_create io data :
  keeps changes_kept (PendingChangeModel.create io data).
Proof.
  unfold PendingChangeModel.create. keeps_statement.
  intros (Hk & Hinv). split.
  - unfold changes_keyed in *. simpl. rewrite map_app. simpl.
    apply NoDup_app; [assumption| |].
    + constructor; [intros []|constructor].
    + intros k Hin [<-|[]].
      eapply taken_false_not_In; eassumption.
  - simpl. apply Forall_app. split; [assumption|].
    constructor; [|constructor]. repeat split.
Qed.

Lemma review_set_invariant io data r :
  PendingChangeModel.status data <> PENDING ->
  metadata_invariant (PendingChangeModel.review_set io data r).
Proof.
  intros Hst. unfold metadata_invariant. simpl.
  destruct (PendingChangeModel.status data); [contradiction| |];
    split; discriminate.
Qed.

Lemma keeps_changes_PendingChangeModel_review io id data :
  PendingChangeModel.status data <> PENDING ->
  keeps changes_kept (PendingChangeModel.review io id data).
Proof.
  intros Hst. unfold PendingChangeModel.review. keeps_statement.
  intros (Hk & Hinv). split.
  - unfold changes_keyed in *. simpl. unfold update_where.
    rewrite map_map.
    erewrite map_ext; [exact Hk|].
    intros r. destruct (PendingChangeModel.has_id _ r); reflexivity.
  - simpl. unfold update_where. apply Forall_map.
    eapply Forall_impl; [|exact Hinv]. intros r Hr.
    destruct (PendingChangeModel.has_id _ r); [|exact Hr].
    apply review_set_invariant. assumption.
Qed.

Lemma keeps_changes_UserModel_create io email password role :
  keeps changes_kept (UserModel.create io email password role).
Proof. unfold UserModel.create. keeps_statement. Qed.

Lemma keeps_changes_UserModel_updateRole io id role :
  keeps changes_kept (UserModel.updateRole io id role).
Proof. unfold UserModel.updateRole. keeps_statement. Qed.

Lemma keeps_changes_UserModel_toggleActive io id isActive :
  keeps changes_kept (UserModel.toggleActive io id isActive).
Proof. unfold UserModel.toggleActive. keeps_statement. Qed.

Lemma keeps_changes_UserModel_deleteById io id :
  keeps changes_kept (UserModel.deleteById io id).
Proof. unfold UserModel.deleteById. keeps_statement. Qed.

Lemma keeps_changes_UserModel_updatePassword io id hashed :
  keeps changes_kept (UserModel.updatePassword io id hashed).
Proof. unfold UserModel.updatePassword. keeps_statement. Qed.

#[local] Hint Resolve keeps_changes_AuditLogModel_create
  keeps_changes_PendingChangeModel_create
  keeps_changes_UserModel_create keeps_changes_UserModel_updateRole
  keeps_changes_UserModel_toggleActive keeps_changes_UserModel_deleteById
  keeps_changes_UserModel_updatePassword : keeps.

Lemma changes_kept_effect is_email argon2_hash argon2_verify c db :
  changes_kept db (Api.effect is_email argon2_hash argon2_verify c db).
Proof.
  revert db.
  destruct c as [[req io1 io2|req io1 io2 io3]|[[] req io1 io2 io3]
                |req io1 io2]; simpl;
    unfold PendingChangesRoutes.POST_root,
      PendingChangesRoutes.POST_id_review,
      UsersRoutes.POST_root, UsersRoutes.PATCH_id_role,
      UsersRoutes.PATCH_id_active, UsersRoutes.DELETE_id,
      AuthRoutes.POST_change_password;
    keeps_handler changes_kept changes_kept_refl changes_kept_trans.
  apply keeps_changes_PendingChangeModel_review. simpl.
  match goal with
  | H : PendingChangesRoutes.reviewSchema _ = Some _ |- _ =>
      destruct (reviewSchema_decision _ H) as [E|E]; rewrite E; discriminate
  end.
Qed.

(** X9. The table of pending changes stays well formed: if ids are
    distinct and every change satisfies the invariant of the data model
    (a pending change carries no reviewer, review time or notes; a reviewed
    one carries a reviewer and a review time), then so it is after any
    sequence of calls that submit or review a change, manage users or
    change a password, whatever each of them answers. *)
Theorem changes_stay_well_formed
    (is_email : string -> bool) (argon2_hash : string -> string)
    (argon2_verify : string -> string -> bool) calls db :
  changes_keyed db ->
  Forall metadata_invariant (pendingChanges db) ->
  changes_keyed (Api.serve is_email argon2_hash argon2_verify calls db) /\
  Forall metadata_invariant
    (pendingChanges (Api.serve is_email argon2_hash argon2_verify calls db)).
Proof.
  intros Hk Hinv. assert (changes_ok db) as H by (split; assumption).
  clear Hk Hinv. revert db H.
  induction calls as [|c calls IH]; intros db H; simpl; [exact H|].
  apply IH. apply changes_kept_effect. exact H.
Qed.

(** ** The audit log, further *)


Lemma logs_sorted (t : list AuditLog.t) :
  StronglySorted newer_or_equal (order_by_desc AuditLog.createdAt t).
Proof. apply (order_by_desc_sorted AuditLog.createdAt). Qed.



Lemma audit_grows_serve is_email argon2_hash argon2_verify calls : forall db,
  audit_grows db (Api.serve is_email argon2_hash argon2_verify calls db).
Proof.
  induction calls as [|c calls IH]; intros db; simpl.
  - apply audit_grows_refl.
  - eapply audit_grows_trans; [apply audit_grows_effect|apply IH].
Qed.

Lemma GET_resource_lists io resourceId db e :
  rejects io = false ->
  resourceId <> "" ->
  In e (auditLogs db) ->
  AuditLog.resourceId e = Some resourceId ->
  exists logs,
    AuditRoutes.GET_resource (Some resourceId) io db
    = (inr (res_page logs), db) /\
    In e logs /\ StronglySorted newer_or_equal logs /\
    forall e', In e' logs -> AuditLog.resourceId e' = Some resourceId.
Proof.
  intros Hio Hne Hin Hid.
  unfold AuditRoutes.GET_resource, try_catch_sending, bind, return_unless,
    ret, truthy.
  apply String.eqb_neq in Hne. rewrite Hne.
  unfold AuditLogModel.getByResourceId, await. rewrite Hio. simpl.
  eexists. split; [reflexivity|]. split; [|split].
  - apply order_by_desc_In. apply filter_In. split; [assumption|].
    rewrite Hid. apply String.eqb_refl.
  - apply logs_sorted.
  - intros e' He'. apply order_by_desc_In in He'.
    apply filter_In in He' as (_ & He').
    destruct (AuditLog.resourceId e'); [|discriminate].
    apply String.eqb_eq in He'. congruence.
Qed.

(** X11. The trail of a change is permanent. Once a submission has
    reported success, the entry it wrote is in what
    [GET /resource/:resourceId] sends for the id of the change, among
    entries about that id only and newest first, also after any further
    calls that submit or review changes, manage users or change
    passwords. Once a review has reported success, the entry it wrote is
    kept in the same way under the id as the request spelled it, one of
    the spellings of the uuid of the change: a review sent under the
    spelling PostgreSQL prints is listed with the submission, a review
    sent under another spelling is listed apart, under that spelling. *)
Theorem trail_of_a_change_is_permanent
    (is_email : string -> bool) (argon2_hash : string -> string)
    (argon2_verify : string -> string -> bool) :
  (forall req io_create io_audit db pc db' calls io,
      PendingChangesRoutes.POST_root req io_create io_audit db
      = (res_json (Success "Change submitted for approval"
                     (PendingChangeData pc)), db') ->
      PendingChange.id pc <> "" ->
      rejects io = false ->
      let later := Api.serve is_email argon2_hash argon2_verify calls db' in
      exists logs e,
        AuditRoutes.GET_resource (Some (PendingChange.id pc)) io later
        = (inr (res_page logs), later) /\
        In e logs /\
        AuditLog.action e = CREATE /\
        AuditLog.resourceType e = Some "pending_change" /\
        Some (AuditLog.userId e)
        = option_map JWTPayload.userId (AuthRequest.user req) /\
        StronglySorted newer_or_equal logs /\
        (forall e', In e' logs ->
                    AuditLog.resourceId e' = Some (PendingChange.id pc))) /\
  (forall req io_get io_review io_audit db message reviewed db' calls io,
      PendingChangesRoutes.POST_id_review req io_get io_review io_audit db
      = (res_json (Success message (PendingChangeData reviewed)), db') ->
      rejects io = false ->
      let later := Api.serve is_email argon2_hash argon2_verify calls db' in
      exists id logs e,
        truthy (AuthRequest.id req) = Some id /\
        option_map Uuid.out (Uuid.input id)
        = Some (PendingChange.id reviewed) /\
        AuditRoutes.GET_resource (Some id) io later
        = (inr (res_page logs), later) /\
        In e logs /\
        (AuditLog.action e = APPROVE /\
         PendingChange.status reviewed = APPROVED \/
         AuditLog.action e = REJECT /\
         PendingChange.status reviewed = REJECTED) /\
        AuditLog.resourceType e = Some "pending_change" /\
        Some (AuditLog.userId e)
        = option_map JWTPayload.userId (AuthRequest.user req) /\
        StronglySorted newer_or_equal logs /\
        (forall e', In e' logs -> AuditLog.resourceId e' = Some id)).
Proof.
  split.
  - intros req io_create io_audit db pc db' calls io H Hne Hio later.
    destruct (POST_root_succeeded _ _ _ _ H eq_refl)
      as (user & data & pc0 & entry & db1 & Hu & _ & _ & Hc & Ha & E).
    assert (pc0 = pc) as -> by (unfold res_json in E; congruence).
    apply AuditLogModel_create_inv in Ha
      as (_ & _ & Huid & Hact & Hty & Hrid & _ & _ & ->).
    destruct (audit_grows_serve is_email argon2_hash argon2_verify calls
                (with_auditLogs (auditLogs db1 ++ [entry]) db1))
      as (added & Hadded).
    assert (In entry (auditLogs later)) as Hin.
    { subst later. rewrite Hadded. simpl.
      apply in_or_app. left. apply in_or_app. right. left. reflexivity. }
    destruct (GET_resource_lists io later entry Hio Hne Hin Hrid)
      as (logs & Hget & Hlogs & Hsorted & Hall).
    exists logs, entry. rewrite Hu. simpl in *.
    repeat (split; [assumption || congruence|]). assumption.
  - intros req io_get io_review io_audit db message reviewed db' calls io
      H Hio later.
    destruct (POST_id_review_succeeded _ _ _ _ _ H eq_refl)
      as (user & id & data & old & reviewed0 & entry & db1
          & Hreq & _ & Hold & _ & Hrev & Ha & E).
    assert (reviewed0 = Some reviewed) as ->.
    { destruct reviewed0; unfold res_json in E; simpl in E; congruence. }
    apply PendingChangeModel_review_inv in Hrev
      as (_ & Hnew & _ & ureviewed & Hureviewed & ->).
    rewrite Hold in Hnew. simpl in Hnew. invert_pair Hnew.
    apply AuditLogModel_create_inv in Ha
      as (_ & _ & Huid & Hact & Hty & Hrid & _ & _ & ->).
    destruct Hreq as (Hu & Hid & Hdata).
    assert (PendingChange.id old = Uuid.out ureviewed) as Hoid.
    { unfold PendingChangeModel.lookup in Hold. rewrite Hureviewed in Hold.
      apply first_or_null_select_In in Hold as (_ & Hold).
      apply String.eqb_eq. exact Hold. }
    assert (id <> "") as Hne.
    { unfold truthy in Hid. destruct (AuthRequest.id req) as [s|];
        [|discriminate].
      destruct (String.eqb_spec s ""); [discriminate|]. congruence. }
    match goal with
    | later := Api.serve _ _ _ _ ?d |- _ =>
        destruct (audit_grows_serve is_email argon2_hash argon2_verify calls d)
          as (added & Hadded)
    end.
    assert (In entry (auditLogs later)) as Hin.
    { subst later. rewrite Hadded. simpl.
      apply in_or_app. left. apply in_or_app. right. left. reflexivity. }
    simpl in Hrid. simpl.
    destruct (GET_resource_lists io later entry Hio Hne Hin Hrid)
      as (logs & Hget & Hlogs & Hsorted & Hall).
    exists id, logs, entry. rewrite Hu. simpl in *.
    split; [assumption|].
    split; [rewrite Hureviewed, Hoid; reflexivity|].
    split; [assumption|]. split; [assumption|].
    split.
    { rewrite Hact.
      destruct (reviewSchema_decision _ Hdata) as [Ed|Ed]; rewrite Ed;
        simpl; auto. }
    repeat (split; [assumption || congruence|]). assumption.
Qed.

(** ** The audit middleware *)

Lemma before_comma_first first rest :
  (forall c, In c (list_ascii_of_string first) -> c <> AuditMiddleware.comma) ->
  AuditMiddleware.before_comma
    (first ++ String AuditMiddleware.comma rest) = first.
Proof.
  induction first as [|c first IH]; simpl; intros Hc.
  - try rewrite Ascii.eqb_refl. reflexivity.
  - destruct (Ascii.eqb_spec c AuditMiddleware.comma) as [E|_].
    + exfalso. apply (Hc c); [left; reflexivity|exact E].
    + rewrite IH; [reflexivity|]. intros c' Hc'. apply Hc. right. exact Hc'.
Qed.

Lemma before_comma_whole s :
  (forall c, In c (list_ascii_of_string s) -> c <> AuditMiddleware.comma) ->
  AuditMiddleware.before_comma s = s.
Proof.
  induction s as [|c s IH]; simpl; intros Hc; [reflexivity|].
  destruct (Ascii.eqb_spec c AuditMiddleware.comma) as [E|_].
  - exfalso. apply (Hc c); [left; reflexivity|exact E].
  - rewrite IH; [reflexivity|]. intros c' Hc'. apply Hc. right. exact Hc'.
Qed.

(** X12. The audit middleware never changes what the handler behind it
    answers, nor what that handler did to users and pending changes: it
    adds at most one entry at the end of the audit log. It adds none when
    the request carries no user or when the status of the answer is 400 or
    more; and when its insert is rejected, the answer is sent all the same
    and the database is as the handler left it. *)
Theorem auditLog_never_changes_the_answer
    (trim : string -> string) action resourceType req io (next : Handler) db :
  let (r, db1) := next db in
  let (r', db2) :=
    AuditMiddleware.auditLog trim action resourceType req io next db in
  r' = r /\
  users db2 = users db1 /\
  pendingChanges db2 = pendingChanges db1 /\
  (auditLogs db2 = auditLogs db1 \/
   exists e, auditLogs db2 = (auditLogs db1 ++ [e])%list) /\
  (AuditMiddleware.user req = None \/ 400 <= statusCode r -> db2 = db1) /\
  (rejects io = true -> db2 = db1).
Proof.
  unfold AuditMiddleware.auditLog.
  destruct (next db) as [r db1].
  destruct (AuditMiddleware.user req) as [user|];
    [|repeat split; auto].
  destruct (Z.ltb_spec (statusCode r) 400) as [Hlt|Hge];
    [|repeat split; auto].
  unfold AuditLogModel.create, await.
  destruct (rejects io) eqn:Hio; [repeat split; auto|].
  destruct (taken _ _ _); simpl;
    (split; [reflexivity|]); (split; [reflexivity|]);
    (split; [reflexivity|]); (split; [|split]);
    try (left; reflexivity); try (right; eexists; reflexivity);
    try discriminate;
    intros [H|H]; try discriminate; lia.
Qed.

(** X13. Behind a handler that answers with a status below 400, for a
    request that carries a user, the audit middleware writes one entry (its
    insert going through): in the name of that user, with the action and
    the resource type it was set up with, and the clock of the insert. The
    resource id is the route parameter [id] when there is one, else the id
    of the change or user in the answer. The address is the first of
    [x-forwarded-for], trimmed, and without that header the remote address
    of the socket. *)
Theorem auditLog_records_success
    (trim : string -> string) action resourceType req io (next : Handler) db
    user :
  AuditMiddleware.user req = Some user ->
  statusCode (fst (next db)) < 400 ->
  rejects io = false ->
  taken AuditLog.id (uuid io) (auditLogs (snd (next db))) = false ->
  exists e,
    auditLogs
      (snd (AuditMiddleware.auditLog trim action resourceType req io next db))
    = (auditLogs (snd (next db)) ++ [e])%list /\
    AuditLog.id e = uuid io /\
    AuditLog.userId e = JWTPayload.userId user /\
    AuditLog.action e = action /\
    AuditLog.resourceType e = resourceType /\
    AuditLog.createdAt e = clock io /\
    (forall id, AuditMiddleware.param "id" (AuditMiddleware.params req)
                = Some id ->
                id <> "" -> AuditLog.resourceId e = Some id) /\
    (AuditMiddleware.param "id" (AuditMiddleware.params req) = None ->
     (forall message pc,
         body (fst (next db)) = Success message (PendingChangeData pc) ->
         AuditLog.resourceId e = Some (PendingChange.id pc)) /\
     (forall message id email role isActive,
         body (fst (next db)) = Success message (UserData id email role isActive) ->
         AuditLog.resourceId e = Some id) /\
     (forall message, body (fst (next db)) = Success message NoData ->
                      AuditLog.resourceId e = None)) /\
    (forall first rest,
        AuditMiddleware.x_forwarded_for req
        = Some (first ++ String AuditMiddleware.comma rest) ->
        (forall c, In c (list_ascii_of_string first) ->
                   c <> AuditMiddleware.comma) ->
        AuditLog.ipAddress e = Some (trim first)) /\
    (forall address,
        AuditMiddleware.x_forwarded_for req = None ->
        AuditMiddleware.remoteAddress req = Some address ->
        (forall c, In c (list_ascii_of_string address) ->
                   c <> AuditMiddleware.comma) ->
        AuditLog.ipAddress e = Some (trim address)) /\
    (forall agent, AuditMiddleware.user_agent req = Some agent ->
                   AuditLog.userAgent e = Some agent).
Proof.
  intros Hu Hlt Hio Hfresh. unfold AuditMiddleware.auditLog. rewrite Hu.
  destruct (next db) as [r db1]. simpl in *.
  apply Z.ltb_lt in Hlt. rewrite Hlt.
  unfold AuditLogModel.create, await. rewrite Hio. simpl.
  rewrite Hfresh. simpl. eexists. split; [reflexivity|]. simpl.
  repeat (split; [reflexivity|]).
  split; [|split; [|split; [|split]]].
  - intros id Hid Hne. unfold AuditMiddleware.resourceId,
      AuditMiddleware.or_else, truthy. rewrite Hid.
    apply String.eqb_neq in Hne. rewrite Hne. reflexivity.
  - intros Hnone. unfold AuditMiddleware.resourceId,
      AuditMiddleware.or_else, truthy, sent. rewrite Hnone. simpl.
    repeat split; intros; match goal with H : body r = _ |- _ => rewrite H end;
      reflexivity.
  - intros first rest Hx Hc. unfold AuditMiddleware.ipAddress,
      AuditMiddleware.or_else, truthy. rewrite Hx.
    destruct (String.eqb_spec (first ++ String AuditMiddleware.comma rest) "")
      as [E|_].
    + destruct first; discriminate.
    + rewrite before_comma_first by assumption. reflexivity.
  - intros address Hx Hr Hc. unfold AuditMiddleware.ipAddress,
      AuditMiddleware.or_else, truthy. rewrite Hx, Hr.
    destruct (String.eqb_spec address "") as [->|_]; [reflexivity|].
    rewrite before_comma_whole by assumption. reflexivity.
  - intros agent Ha. unfold AuditMiddleware.userAgent,
      AuditMiddleware.or_else, truthy. rewrite Ha.
    destruct (String.eqb_spec agent "") as [->|_]; reflexivity.
Qed.

(** ** User management, further *)

Section UserManagementFurther.
Variable is_email : string -> bool.
Variable argon2_hash : string -> string.

(** What a user creation that reports success has done. *)
Lemma users_POST_root_succeeded req io_find io_create io_audit db r db' :
  UsersRoutes.POST_root is_email argon2_hash req io_find io_create io_audit db
  = (r, db') ->
  succeeded r ->
  exists me data newUser entry,
    AuthRequest.user req = Some me /\
    UsersRoutes.createUserSchema is_email (AuthRequest.body req)
      = Some data /\
    rejects io_find = false /\ rejects io_create = false /\
    taken User.id (uuid io_create) (users db) = false /\
    taken User.email (UsersRoutes.email data) (users db) = false /\
    newUser = User.mk (uuid io_create) (UsersRoutes.email data)
                (argon2_hash (UsersRoutes.password data)) EDITOR true
                (clock io_create) (clock io_create) /\
    AuditLogModel.create io_audit
      {| AuditLogModel.userId := JWTPayload.userId me;
         AuditLogModel.action := CREATE;
         AuditLogModel.resourceType := Some "user";
         AuditLogModel.resourceId := Some (User.id newUser);
         AuditLogModel.details :=
           Some (object
                   [("email", Some (JStr (User.email newUser)));
                    ("role",
                      Some (JStr (UserRole_value (User.role newUser))))]);
         AuditLogModel.ipAddress := None;
         AuditLogModel.userAgent := None |}
      (with_users (users db ++ [newUser]) db) = (Value entry, db') /\
    r = res_json
          (Success "User created successfully"
             (UserData (User.id newUser) (User.email newUser)
                (User.role newUser) (User.isActive newUser))).
Proof.
  unfold UsersRoutes.POST_root, succeeded. unfold_task. intros H Hr.
  destruct (AuthRequest.user req) as [me|];
    [|invert_pair H; discriminate].
  destruct (UsersRoutes.createUserSchema _ _) as [data|] eqn:Hdata;
    [|invert_pair H; discriminate].
  pose proof (createUserSchema_role _ _ Hdata) as Hrole.
  unfold UserModel.findByEmail, await in H.
  destruct (rejects io_find) eqn:Hfind; [invert_pair H; discriminate|].
  destruct (first_or_null _); simpl in H; [invert_pair H; discriminate|].
  unfold UserModel.create, await in H.
  destruct (rejects io_create) eqn:Hcreate; [invert_pair H; discriminate|].
  destruct (taken User.id _ _) eqn:Hid; simpl in H;
    [invert_pair H; discriminate|].
  destruct (taken User.email _ _) eqn:Hemail; simpl in H;
    [invert_pair H; discriminate|].
  rewrite Hrole in H.
  match type of H with
  | context [AuditLogModel.create ?io ?d ?b] =>
      destruct (AuditLogModel.create io d b) as [[entry| |e] db2] eqn:Ha
  end.
  - invert_pair H. exists me, data. eexists _, entry.
    repeat (split; [reflexivity || assumption|]). reflexivity.
  - exfalso. revert Ha. unfold AuditLogModel.create, await.
    destruct (rejects io_audit); [discriminate|].
    destruct (taken AuditLog.id _ _); discriminate.
  - invert_pair H. destruct e; discriminate.
Qed.

(** X15. Creating a user whose e-mail address is already stored is
    answered 400 "User with this email already exists" and leaves the
    database as it was. *)
Theorem duplicate_email_is_refused req me data existing io_find io_create
    io_audit db :
  AuthRequest.user req = Some me ->
  UsersRoutes.createUserSchema is_email (AuthRequest.body req) = Some data ->
  rejects io_find = false ->
  In existing (users db) ->
  User.email existing = UsersRoutes.email data ->
  UsersRoutes.POST_root is_email argon2_hash req io_find io_create io_audit db
  = (res_status 400 (Error "User with this email already exists"), db).
Proof.
  intros Hu Hdata Hio Hin Hemail.
  unfold UsersRoutes.POST_root. unfold_task. rewrite Hu, Hdata.
  unfold UserModel.findByEmail, await. rewrite Hio.
  destruct (first_or_null _) eqn:E; [reflexivity|].
  exfalso. unfold first_or_null, select_where in E.
  assert (In existing
            (filter (fun u => String.eqb (User.email u)
                                (UsersRoutes.email data)) (users db))) as H.
  { apply filter_In. split; [assumption|]. rewrite Hemail.
    apply String.eqb_refl. }
  destruct (filter _ _); [contradiction|discriminate].
Qed.

(** X16. A user creation that reports success has stored one user: an
    editor, active, under the drawn id, with the e-mail address of the
    request and the Argon2 hash of its password (never the password
    itself). [findById] and [findByEmail] find that user afterwards, the
    response carries its id, address, role and flag, and the audit log has
    one more entry: [create], [user], that id, in the name of the
    caller. *)
Theorem created_user_round_trip req io_find io_create io_audit db r db' :
  UsersRoutes.POST_root is_email argon2_hash req io_find io_create io_audit db
  = (r, db') ->
  succeeded r ->
  exists me data newUser entry,
    AuthRequest.user req = Some me /\
    UsersRoutes.createUserSchema is_email (AuthRequest.body req)
      = Some data /\
    users db' = (users db ++ [newUser])%list /\
    User.id newUser = uuid io_create /\
    User.email newUser = UsersRoutes.email data /\
    User.password newUser = argon2_hash (UsersRoutes.password data) /\
    User.role newUser = EDITOR /\
    User.isActive newUser = true /\
    UserModel.lookup (User.id newUser) db' = Some newUser /\
    (forall io, rejects io = false ->
                UserModel.findByEmail io (User.email newUser) db'
                = (Value (Some newUser), db')) /\
    r = res_json
          (Success "User created successfully"
             (UserData (User.id newUser) (User.email newUser) EDITOR true)) /\
    auditLogs db' = (auditLogs db ++ [entry])%list /\
    AuditLog.userId entry = JWTPayload.userId me /\
    AuditLog.action entry = CREATE /\
    AuditLog.resourceType entry = Some "user" /\
    AuditLog.resourceId entry = Some (User.id newUser).
Proof.
  intros H Hr.
  destruct (users_POST_root_succeeded _ _ _ _ _ H Hr)
    as (me & data & newUser & entry & Hu & Hdata & _ & _ & Hid & Hemail
        & -> & Ha & ->).
  apply AuditLogModel_create_inv in Ha
    as (_ & _ & Huid & Hact & Hty & Hrid & _ & _ & ->).
  exists me, data. eexists _, entry. simpl in *.
  repeat (split; [assumption || reflexivity|]).
  split; [|split; [|repeat (split; [assumption || reflexivity|]);
                     assumption]].
  - unfold UserModel.lookup. cbn [User.id]. rewrite Uuid_input_uuid.
    unfold UserModel.has_id, select_where. fold (uuid io_create). simpl.
    rewrite filter_app.
    fold (select_where (fun r => String.eqb (User.id r) (uuid io_create))
            (users db)).
    rewrite (select_where_fresh _ _ _ Hid).
    cbn [app filter User.id]. rewrite String.eqb_refl. reflexivity.
  - intros io Hio. unfold UserModel.findByEmail, await. rewrite Hio. simpl.
    unfold select_where. rewrite filter_app.
    fold (select_where
            (fun r => String.eqb (User.email r) (UsersRoutes.email data))
            (users db)).
    rewrite (select_where_fresh _ _ _ Hemail). simpl.
    rewrite String.eqb_refl. reflexivity.
Qed.

End UserManagementFurther.

(** The rows a key selects in [users], after an update that keeps ids. *)
Lemma users_select_same_id (s : User.t -> User.t) id t :
  (forall r, User.id (s r) = User.id r) ->
  select_where (UserModel.has_id id) (update_where (UserModel.has_id id) s t)
  = map s (select_where (UserModel.has_id id) t).
Proof.
  intros Hs. rewrite select_update_where.
  - apply update_where_all, select_where_all.
  - intros r. unfold UserModel.has_id. rewrite Hs. reflexivity.
Qed.

Lemma users_select_other_id (s : User.t -> User.t) id id' t :
  (forall r, User.id (s r) = User.id r) ->
  id' <> id ->
  select_where (UserModel.has_id id') (update_where (UserModel.has_id id) s t)
  = select_where (UserModel.has_id id') t.
Proof.
  intros Hs Hne. rewrite select_update_where.
  - apply update_where_none.
    eapply Forall_impl; [|apply select_where_all].
    intros r Hr. eapply user_has_other_id; eassumption.
  - intros r. unfold UserModel.has_id. rewrite Hs. reflexivity.
Qed.

(** Finish a handler after its write, looking at the audit statement. *)
Ltac audit_outcomes io :=
  unfold AuditLogModel.create, await;
  destruct (rejects io); simpl;
  [|destruct (taken AuditLog.id (uuid io) _); simpl].


(** X17. What the successful updates of a user do. A role update that
    reports success leaves the user's id, e-mail address, role, active
    flag and password as they were (the user was an editor and is made an
    editor). A change of the active flag that reports success sets the
    flag asked for and nothing else of these. A deletion that reports
    success removes the user, to whom no audit entry and no pending change
    referred: [findById] finds nothing under the id afterwards. In the
    three cases the user was stored as an editor under the uuid the id of
    the request spells, and every user under another uuid is read back as
    before; for the flag and the deletion, the id is not spelled as the
    caller's id is in the token. *)
Theorem user_updates_do_what_they_say :
  (forall req io_find io_update io_audit db r db',
      UsersRoutes.PATCH_id_role req io_find io_update io_audit db = (r, db') ->
      succeeded r ->
      exists id u u',
        truthy (AuthRequest.id req) = Some id /\
        UserModel.lookup id db = Some u /\ User.role u = EDITOR /\
        UserModel.lookup id db' = Some u' /\ identity u' = identity u /\
        User.password u' = User.password u /\
        forall id', Uuid.input id' <> Uuid.input id ->
                    UserModel.lookup id' db' = UserModel.lookup id' db) /\
  (forall req io_find io_update io_audit db r db',
      UsersRoutes.PATCH_id_active req io_find io_update io_audit db
      = (r, db') ->
      succeeded r ->
      exists id u u' isActive,
        truthy (AuthRequest.id req) = Some id /\
        UsersRoutes.toggleActiveSchema (AuthRequest.body req)
        = Some isActive /\
        Some id <> option_map JWTPayload.userId (AuthRequest.user req) /\
        UserModel.lookup id db = Some u /\ User.role u = EDITOR /\
        UserModel.lookup id db' = Some u' /\
        identity u' = (User.id u, User.email u, EDITOR, isActive) /\
        User.password u' = User.password u /\
        forall id', Uuid.input id' <> Uuid.input id ->
                    UserModel.lookup id' db' = UserModel.lookup id' db) /\
  (forall req io_find io_delete io_audit db r db',
      UsersRoutes.DELETE_id req io_find io_delete io_audit db = (r, db') ->
      succeeded r ->
      exists id uid u,
        truthy (AuthRequest.id req) = Some id /\
        Some id <> option_map JWTPayload.userId (AuthRequest.user req) /\
        Uuid.input id = Some uid /\
        UserModel.lookup id db = Some u /\ User.role u = EDITOR /\
        UserModel.referred_to uid db = false /\
        UserModel.lookup id db' = None /\
        forall id', Uuid.input id' <> Uuid.input id ->
                    UserModel.lookup id' db' = UserModel.lookup id' db).
Proof.
  split; [|split].
  - intros req io_find io_update io_audit db r db'.
    unfold UsersRoutes.PATCH_id_role, succeeded. unfold_task.
    destruct (AuthRequest.user req) as [me|];
      [|intros H; invert_pair H; discriminate].
    destruct (truthy _) as [id|]; [|intros H; invert_pair H; discriminate].
    destruct (UsersRoutes.updateRoleSchema _) as [role|] eqn:Hrole;
      [|intros H; invert_pair H; discriminate].
    apply updateRoleSchema_role in Hrole. subst role.
    unfold UserModel.findById, await.
    destruct (rejects io_find); [intros H; invert_pair H; discriminate|].
    destruct (Uuid.input id) as [uid|] eqn:Hinput;
      [|intros H; invert_pair H; discriminate].
    destruct (UserModel.lookup id db) as [u|] eqn:Hu;
      [|intros H; invert_pair H; discriminate].
    destruct (User.role u) eqn:Hru; simpl;
      [intros H; invert_pair H; discriminate|].
    unfold UserModel.updateRole, await.
    destruct (rejects io_update); [intros H; invert_pair H; discriminate|].
    rewrite Hinput.
    audit_outcomes io_audit; intros H Hr; invert_pair H;
      try discriminate.
    exists id, u, (UserModel.set_role io_update EDITOR u).
    split; [reflexivity|]. split; [exact Hu|]. split; [exact Hru|].
    unfold UserModel.lookup in *. rewrite Hinput in *. simpl.
    split; [|split; [|split]].
    + rewrite users_select_same_id by reflexivity.
      rewrite first_or_null_map, Hu. reflexivity.
    + unfold identity. simpl. rewrite Hru. reflexivity.
    + reflexivity.
    + intros id' Hne. destruct (Uuid.input id') as [uid'|]; [|reflexivity].
      rewrite users_select_other_id; [reflexivity|reflexivity|congruence].
  - intros req io_find io_update io_audit db r db'.
    unfold UsersRoutes.PATCH_id_active, succeeded. unfold_task.
    destruct (AuthRequest.user req) as [me|];
      [|intros H; invert_pair H; discriminate].
    destruct (truthy _) as [id|]; [|intros H; invert_pair H; discriminate].
    destruct (UsersRoutes.toggleActiveSchema _) as [isActive|];
      [|intros H; invert_pair H; discriminate].
    unfold UserModel.findById, await.
    destruct (rejects io_find); [intros H; invert_pair H; discriminate|].
    destruct (Uuid.input id) as [uid|] eqn:Hinput;
      [|intros H; invert_pair H; discriminate].
    destruct (UserModel.lookup id db) as [u|] eqn:Hu;
      [|intros H; invert_pair H; discriminate].
    destruct (User.role u) eqn:Hru; simpl;
      [intros H; invert_pair H; discriminate|].
    destruct (String.eqb_spec id (JWTPayload.userId me)) as [Eid|Hne];
      simpl; [intros H; invert_pair H; discriminate|].
    unfold UserModel.toggleActive, await.
    destruct (rejects io_update); [intros H; invert_pair H; discriminate|].
    rewrite Hinput.
    audit_outcomes io_audit; intros H Hr; invert_pair H;
      try discriminate.
    exists id, u, (UserModel.set_isActive io_update isActive u), isActive.
    split; [reflexivity|]. split; [reflexivity|].
    split; [simpl; congruence|]. split; [exact Hu|]. split; [exact Hru|].
    unfold UserModel.lookup in *. rewrite Hinput in *. simpl.
    split; [|split; [|split]].
    + rewrite users_select_same_id by reflexivity.
      rewrite first_or_null_map, Hu. reflexivity.
    + unfold identity. simpl. rewrite Hru. reflexivity.
    + reflexivity.
    + intros id' Hne'. destruct (Uuid.input id') as [uid'|]; [|reflexivity].
      rewrite users_select_other_id; [reflexivity|reflexivity|congruence].
  - intros req io_find io_delete io_audit db r db'.
    unfold UsersRoutes.DELETE_id, succeeded. unfold_task.
    destruct (AuthRequest.user req) as [me|];
      [|intros H; invert_pair H; discriminate].
    destruct (truthy _) as [id|]; [|intros H; invert_pair H; discriminate].
    unfold UserModel.findById, await.
    destruct (rejects io_find); [intros H; invert_pair H; discriminate|].
    destruct (Uuid.input id) as [uid|] eqn:Hinput;
      [|intros H; invert_pair H; discriminate].
    destruct (UserModel.lookup id db) as [u|] eqn:Hu;
      [|intros H; invert_pair H; discriminate].
    destruct (User.role u) eqn:Hru; simpl;
      [intros H; invert_pair H; discriminate|].
    destruct (String.eqb_spec id (JWTPayload.userId me)) as [Eid|Hne];
      simpl; [intros H; invert_pair H; discriminate|].
    unfold UserModel.deleteById, await.
    destruct (rejects io_delete); [intros H; invert_pair H; discriminate|].
    rewrite Hinput. cbv zeta.
    unfold UserModel.lookup in Hu. rewrite Hinput in Hu.
    destruct (select_where (UserModel.has_id uid) (users db))
      as [|row rows] eqn:Hrows; [discriminate|].
    destruct (UserModel.referred_to uid db) eqn:Href;
      [intros H; invert_pair H; discriminate|].
    audit_outcomes io_audit; intros H Hr; invert_pair H;
      try discriminate.
    exists id, uid, u.
    split; [reflexivity|]. split; [simpl; congruence|].
    split; [exact Hinput|].
    unfold UserModel.lookup. rewrite Hinput, Hrows.
    split; [exact Hu|]. split; [exact Hru|]. split; [exact Href|].
    simpl. split.
    + rewrite select_where_delete_where_same. reflexivity.
    + intros id' Hne'. destruct (Uuid.input id') as [uid'|]; [|reflexivity].
      rewrite select_where_delete_where; [reflexivity|].
      intros x Hx. eapply user_has_other_id; [|eassumption]. congruence.
Qed.

(** X18. A user id under which no user is found: the role update, the
    change of the active flag and the deletion leave the database as it
    was. When the id spells a uuid, under which no user is stored, they
    answer 404 "User not found"; when it spells no uuid, the lookup fails
    in PostgreSQL and they answer 500 "Internal server error". (For an
    authenticated caller, a request that names an id and, for the two
    updates, a body the schema accepts.) *)
Theorem unknown_user_is_not_found req me id io_find io_write io_audit db :
  AuthRequest.user req = Some me ->
  truthy (AuthRequest.id req) = Some id ->
  rejects io_find = false ->
  UserModel.lookup id db = None ->
  let answer :=
    (match Uuid.input id with
     | Some _ => res_status 404 (Error "User not found")
     | None => StorageFailure
     end, db) in
  (UsersRoutes.updateRoleSchema (AuthRequest.body req) <> None ->
   UsersRoutes.PATCH_id_role req io_find io_write io_audit db = answer) /\
  (UsersRoutes.toggleActiveSchema (AuthRequest.body req) <> None ->
   UsersRoutes.PATCH_id_active req io_find io_write io_audit db = answer) /\
  UsersRoutes.DELETE_id req io_find io_write io_audit db = answer.
Proof.
  intros Hme Hid Hio Hnone answer. subst answer.
  unfold UsersRoutes.PATCH_id_role, UsersRoutes.PATCH_id_active,
    UsersRoutes.DELETE_id.
  unfold_task. rewrite Hme, Hid. unfold UserModel.findById, await.
  rewrite Hio.
  split; [|split].
  - destruct (UsersRoutes.updateRoleSchema _); [|congruence].
    destruct (Uuid.input id); cbv beta; rewrite ?Hnone; reflexivity.
  - destruct (UsersRoutes.toggleActiveSchema _); [|congruence].
    destruct (Uuid.input id); cbv beta; rewrite ?Hnone; reflexivity.
  - destruct (Uuid.input id); cbv beta; rewrite ?Hnone; reflexivity.
Qed.

Section UserManagementRefusals.
Variable is_email : string -> bool.
Variable argon2_hash : string -> string.

(** X19. A call of the user management that is refused writes nothing:
    when a creation, a role update, a change of the active flag or a
    deletion is answered with a status other than 200 and 500 (401, 400,
    403, 404), the database is as it was. *)
Theorem refused_user_calls_write_nothing c req io1 io2 io3 db :
  let answer :=
    UsersRoutes.handle is_email argon2_hash c req io1 io2 io3 db in
  statusCode (fst answer) <> 200 ->
  statusCode (fst answer) <> 500 ->
  snd answer = db.
Proof.
  destruct c; simpl.
  - unfold UsersRoutes.POST_root. unfold_task.
    destruct (AuthRequest.user req) as [me|]; [|reflexivity].
    destruct (UsersRoutes.createUserSchema _ _) as [data|]; [|reflexivity].
    unfold UserModel.findByEmail, await.
    destruct (rejects io1); [reflexivity|].
    destruct (first_or_null _); simpl; [reflexivity|].
    unfold UserModel.create, await.
    destruct (rejects io2); [reflexivity|].
    destruct (taken User.id _ _ || taken User.email _ _); [reflexivity|].
    unfold AuditLogModel.create, await.
    destruct (rejects io3); simpl; [congruence|].
    destruct (taken AuditLog.id _ _); simpl; congruence.
  - unfold UsersRoutes.PATCH_id_role. unfold_task.
    destruct (AuthRequest.user req) as [me|]; [|reflexivity].
    destruct (truthy _) as [id|]; [|reflexivity].
    destruct (UsersRoutes.updateRoleSchema _) as [role|]; [|reflexivity].
    unfold UserModel.findById, await.
    destruct (rejects io1); [reflexivity|].
    destruct (Uuid.input id) as [uu|] eqn:Hinput; [|reflexivity].
    destruct (UserModel.lookup id db) as [u|]; [|reflexivity].
    destruct (UserRole_eqb _ _); simpl; [reflexivity|].
    unfold UserModel.updateRole, await.
    destruct (rejects io2); [reflexivity|].
    try rewrite Hinput.
    unfold AuditLogModel.create, await.
    destruct (rejects io3); simpl; [congruence|].
    destruct (taken AuditLog.id _ _); simpl; congruence.
  - unfold UsersRoutes.PATCH_id_active. unfold_task.
    destruct (AuthRequest.user req) as [me|]; [|reflexivity].
    destruct (truthy _) as [id|]; [|reflexivity].
    destruct (UsersRoutes.toggleActiveSchema _) as [isActive|];
      [|reflexivity].
    unfold UserModel.findById, await.
    destruct (rejects io1); [reflexivity|].
    destruct (Uuid.input id) as [uu|] eqn:Hinput; [|reflexivity].
    destruct (UserModel.lookup id db) as [u|]; [|reflexivity].
    destruct (UserRole_eqb _ _); simpl; [reflexivity|].
    destruct (String.eqb id _); simpl; [reflexivity|].
    unfold UserModel.toggleActive, await.
    destruct (rejects io2); [reflexivity|].
    try rewrite Hinput.
    unfold AuditLogModel.create, await.
    destruct (rejects io3); simpl; [congruence|].
    destruct (taken AuditLog.id _ _); simpl; congruence.
  - unfold UsersRoutes.DELETE_id. unfold_task.
    destruct (AuthRequest.user req) as [me|]; [|reflexivity].
    destruct (truthy _) as [id|]; [|reflexivity].
    unfold UserModel.findById, await.
    destruct (rejects io1); [reflexivity|].
    destruct (Uuid.input id) as [uu|] eqn:Hinput; [|reflexivity].
    destruct (UserModel.lookup id db) as [u|]; [|reflexivity].
    destruct (UserRole_eqb _ _); simpl; [reflexivity|].
    destruct (String.eqb id _); simpl; [reflexivity|].
    unfold UserModel.deleteById, await.
    destruct (rejects io2); [reflexivity|].
    rewrite Hinput. cbv zeta.
    destruct (match select_where _ _ with [] => false | _ :: _ => _ end);
      [reflexivity|].
    unfold AuditLogModel.create, await.
    destruct (rejects io3); simpl; [congruence|].
    destruct (taken AuditLog.id _ _); simpl; congruence.
Qed.

End UserManagementRefusals.

(** ** The accounts over the whole API *)

(** *** The constraints of [users] *)

Lemma users_kept_refl db : users_kept db db.
Proof. intros H. exact H. Qed.

Lemma users_kept_trans a b c :
  users_kept a b -> users_kept b c -> users_kept a c.
Proof. unfold users_kept. auto. Qed.

Lemma users_kept_same db db' : users db' = users db -> users_kept db db'.
Proof.
  intros E. unfold users_kept, users_ok, users_keyed, emails_unique.
  rewrite E. auto.
Qed.

#[local] Hint Resolve users_kept_refl users_kept_same : keeps.

Lemma column_update_where {Row K} (col : Row -> K) p s (t : list Row) :
  (forall r, col (s r) = col r) ->
  map col (update_where p s t) = map col t.
Proof.
  intros Hs. unfold update_where. rewrite map_map. apply map_ext.
  intros r. destruct (p r); auto.
Qed.

Lemma column_delete_where {Row K} (col : Row -> K) p (t : list Row) :
  NoDup (map col t) -> NoDup (map col (delete_where p t)).
Proof.
  unfold delete_where. induction t as [|r t IH]; simpl; intros Hnd;
    [constructor|].
  inversion Hnd as [|? ? Hr Hnd']; subst.
  destruct (p r); simpl; [auto|].
  constructor; [|auto].
  intros Hin. apply Hr. apply in_map_iff in Hin as (x & Hx & Hin).
  apply filter_In in Hin as (Hin & _). rewrite <- Hx.
  apply in_map. assumption.
Qed.

Lemma column_insert {Row} (col : Row -> string) (t : list Row) r :
  NoDup (map col t) ->
  taken col (col r) t = false ->
  NoDup (map col (t ++ [r])).
Proof.
  intros Hnd Hfresh. apply taken_false_not_In in Hfresh.
  rewrite map_app. simpl. apply NoDup_app; [assumption| |].
  - constructor; [intros []|constructor].
  - intros k Hk [<-|[]]. contradiction.
Qed.

(** An update that keeps ids and e-mail addresses keeps the constraints. *)
Lemma users_kept_update p s db :
  (forall r, User.id (s r) = User.id r) ->
  (forall r, User.email (s r) = User.email r) ->
  users_kept db (with_users (update_where p s (users db)) db).
Proof.
  intros Hid Hemail (Hk & Hu).
  unfold users_ok, users_keyed, emails_unique in *. simpl.
  rewrite !column_update_where by assumption. auto.
Qed.

Lemma keeps_users_AuditLogModel_create io data :
  keeps users_kept (AuditLogModel.create io data).
Proof. unfold AuditLogModel.create. keeps_statement. Qed.

Lemma keeps_users_PendingChangeModel_create io data :
  keeps users_kept (PendingChangeModel.create io data).
Proof. unfold PendingChangeModel.create. keeps_statement. Qed.

Lemma keeps_users_PendingChangeModel_review io id data :
  keeps users_kept (PendingChangeModel.review io id data).
Proof. unfold PendingChangeModel.review. keeps_statement. Qed.

Lemma keeps_users_UserModel_create io email password role :
  keeps users_kept (UserModel.create io email password role).
Proof.
  unfold UserModel.create. keeps_statement.
  match goal with
  | H : _ || _ = false |- _ => apply orb_false_elim in H as (Hid & Hemail)
  end.
  intros (Hk & Hu). unfold users_ok, users_keyed, emails_unique in *. simpl.
  split.
  - apply (column_insert User.id); assumption.
  - apply (column_insert User.email); assumption.
Qed.

Lemma keeps_users_UserModel_updateRole io id role :
  keeps users_kept (UserModel.updateRole io id role).
Proof.
  unfold UserModel.updateRole. keeps_statement.
  apply users_kept_update; reflexivity.
Qed.

Lemma keeps_users_UserModel_toggleActive io id isActive :
  keeps users_kept (UserModel.toggleActive io id isActive).
Proof.
  unfold UserModel.toggleActive. keeps_statement.
  apply users_kept_update; reflexivity.
Qed.

Lemma keeps_users_UserModel_updatePassword io id hashed :
  keeps users_kept (UserModel.updatePassword io id hashed).
Proof.
  unfold UserModel.updatePassword. keeps_statement.
  apply users_kept_update; reflexivity.
Qed.

Lemma keeps_users_UserModel_deleteById io id :
  keeps users_kept (UserModel.deleteById io id).
Proof.
  unfold UserModel.deleteById. keeps_statement.
  intros (Hk & Hu). unfold users_ok, users_keyed, emails_unique in *. simpl.
  split; apply column_delete_where; assumption.
Qed.

#[local] Hint Resolve keeps_users_AuditLogModel_create
  keeps_users_PendingChangeModel_create keeps_users_PendingChangeModel_review
  keeps_users_UserModel_create keeps_users_UserModel_updateRole
  keeps_users_UserModel_toggleActive keeps_users_UserModel_deleteById
  keeps_users_UserModel_updatePassword : keeps.

Lemma users_kept_effect is_email argon2_hash argon2_verify c db :
  users_kept db (Api.effect is_email argon2_hash argon2_verify c db).
Proof.
  revert db.
  destruct c as [[req io1 io2|req io1 io2 io3]|[[] req io1 io2 io3]
                |req io1 io2]; simpl;
    unfold PendingChangesRoutes.POST_root,
      PendingChangesRoutes.POST_id_review,
      UsersRoutes.POST_root, UsersRoutes.PATCH_id_role,
      UsersRoutes.PATCH_id_active, UsersRoutes.DELETE_id,
      AuthRoutes.POST_change_password;
    keeps_handler users_kept users_kept_refl users_kept_trans.
Qed.

(** *** The administrators *)

Lemma same_administrators_refl db : same_administrators db db.
Proof. reflexivity. Qed.

Lemma same_administrators_trans a b c :
  same_administrators a b -> same_administrators b c ->
  same_administrators a c.
Proof. unfold same_administrators. congruence. Qed.

Lemma same_administrators_same db db' :
  users db' = users db -> same_administrators db db'.
Proof.
  intros E. unfold same_administrators, administrators. rewrite E.
  reflexivity.
Qed.

#[local] Hint Resolve same_administrators_refl same_administrators_same
  : keeps.

(** An update that keeps every row's identity keeps the administrators. *)
Lemma administrators_update p s db :
  (forall r, identity (s r) = identity r) ->
  same_administrators db (with_users (update_where p s (users db)) db).
Proof.
  intros Hs. unfold same_administrators, administrators. simpl.
  unfold update_where.
  induction (users db) as [|r t IH]; simpl; [reflexivity|].
  assert (is_admin (if p r then s r else r) = is_admin r) as E.
  { destruct (p r); [|reflexivity].
    specialize (Hs r). unfold identity in Hs. unfold is_admin. congruence. }
  rewrite E. destruct (is_admin r); simpl; [|exact IH].
  rewrite IH. f_equal. destruct (p r); [apply Hs|reflexivity].
Qed.

Lemma keeps_administrators_AuditLogModel_create io data :
  keeps same_administrators (AuditLogModel.create io data).
Proof. unfold AuditLogModel.create. keeps_statement. Qed.

Lemma keeps_administrators_PendingChangeModel_create io data :
  keeps same_administrators (PendingChangeModel.create io data).
Proof. unfold PendingChangeModel.create. keeps_statement. Qed.

Lemma keeps_administrators_PendingChangeModel_review io id data :
  keeps same_administrators (PendingChangeModel.review io id data).
Proof. unfold PendingChangeModel.review. keeps_statement. Qed.

Lemma keeps_administrators_UserModel_updatePassword io id hashed :
  keeps same_administrators (UserModel.updatePassword io id hashed).
Proof.
  unfold UserModel.updatePassword. keeps_statement.
  apply administrators_update. reflexivity.
Qed.

#[local] Hint Resolve keeps_administrators_AuditLogModel_create
  keeps_administrators_PendingChangeModel_create
  keeps_administrators_PendingChangeModel_review
  keeps_administrators_UserModel_updatePassword : keeps.

Lemma same_administrators_effect is_email argon2_hash argon2_verify c db :
  users_keyed db ->
  same_administrators db
    (Api.effect is_email argon2_hash argon2_verify c db).
Proof.
  intros Hk.
  destruct c as [[req io1 io2|req io1 io2 io3]|[[] req io1 io2 io3]
                |req io1 io2]; simpl.
  - revert db Hk. unfold PendingChangesRoutes.POST_root.
    keeps_handler same_administrators same_administrators_refl
      same_administrators_trans.
  - revert db Hk. unfold PendingChangesRoutes.POST_id_review.
    keeps_handler same_administrators same_administrators_refl
      same_administrators_trans.
  - unfold same_administrators, administrators. f_equal.
    apply (POST_root_admins is_email argon2_hash req io1 io2 io3 Hk).
  - unfold same_administrators, administrators. f_equal.
    apply (PATCH_id_role_admins req io1 io2 io3 Hk).
  - unfold same_administrators, administrators. f_equal.
    apply (PATCH_id_active_admins req io1 io2 io3 Hk).
  - unfold same_administrators, administrators. f_equal.
    apply (DELETE_id_admins req io1 io2 io3 Hk).
  - revert db Hk. unfold AuthRoutes.POST_change_password.
    keeps_handler same_administrators same_administrators_refl
      same_administrators_trans.
Qed.

(** X20. The accounts stay well formed over the whole API. On a table of
    users whose ids are distinct and whose e-mail addresses are distinct,
    after any sequence of calls that submit or review a change, manage
    users or change a password, whatever each of them answers, ids and
    e-mail addresses are still distinct, and the administrators are the
    same accounts in the same order: same id, e-mail address, role and
    active flag (a password change is all that touches an
    administrator's row). *)
Theorem accounts_stay_well_formed
    (is_email : string -> bool) (argon2_hash : string -> string)
    (argon2_verify : string -> string -> bool) calls db :
  users_keyed db ->
  emails_unique db ->
  users_keyed (Api.serve is_email argon2_hash argon2_verify calls db) /\
  emails_unique (Api.serve is_email argon2_hash argon2_verify calls db) /\
  administrators (Api.serve is_email argon2_hash argon2_verify calls db)
  = administrators db.
Proof.
  intros Hk Hu. assert (users_ok db) as H by (split; assumption).
  clear Hk Hu. revert db H.
  induction calls as [|c calls IH]; intros db H; simpl.
  - destruct H. auto.
  - pose proof (users_kept_effect is_email argon2_hash argon2_verify c H)
      as H'.
    destruct (IH _ H') as (Hk' & Hu' & Ha').
    split; [exact Hk'|]. split; [exact Hu'|].
    rewrite Ha'. apply same_administrators_effect. apply H.
Qed.

(** *** Each part of the API keeps to its tables *)

Lemma same_users_same db db' : users db' = users db -> same_users db db'.
Proof. intros E. exact E. Qed.

Lemma same_pendingChanges_same db db' :
  pendingChanges db' = pendingChanges db -> same_pendingChanges db db'.
Proof. intros E. exact E. Qed.

#[local] Hint Resolve same_users_same same_pendingChanges_same : keeps.

Lemma keeps_same_users_AuditLogModel_create io data :
  keeps same_users (AuditLogModel.create io data).
Proof. unfold AuditLogModel.create. keeps_statement. Qed.

Lemma keeps_same_users_PendingChangeModel_create io data :
  keeps same_users (PendingChangeModel.create io data).
Proof. unfold PendingChangeModel.create. keeps_statement. Qed.

Lemma keeps_same_users_PendingChangeModel_review io id data :
  keeps same_users (PendingChangeModel.review io id data).
Proof. unfold PendingChangeModel.review. keeps_statement. Qed.

Lemma keeps_same_changes_AuditLogModel_create io data :
  keeps same_pendingChanges (AuditLogModel.create io data).
Proof. unfold AuditLogModel.create. keeps_statement. Qed.

Lemma keeps_same_changes_UserModel_create io email password role :
  keeps same_pendingChanges (UserModel.create io email password role).
Proof. unfold UserModel.create. keeps_statement. Qed.

Lemma keeps_same_changes_UserModel_updateRole io id role :
  keeps same_pendingChanges (UserModel.updateRole io id role).
Proof. unfold UserModel.updateRole. keeps_statement. Qed.

Lemma keeps_same_changes_UserModel_toggleActive io id isActive :
  keeps same_pendingChanges (UserModel.toggleActive io id isActive).
Proof. unfold UserModel.toggleActive. keeps_statement. Qed.

Lemma keeps_same_changes_UserModel_deleteById io id :
  keeps same_pendingChanges (UserModel.deleteById io id).
Proof. unfold UserModel.deleteById. keeps_statement. Qed.

Lemma keeps_same_changes_UserModel_updatePassword io id hashed :
  keeps same_pendingChanges (UserModel.updatePassword io id hashed).
Proof. unfold UserModel.updatePassword. keeps_statement. Qed.

#[local] Hint Resolve keeps_same_users_AuditLogModel_create
  keeps_same_users_PendingChangeModel_create
  keeps_same_users_PendingChangeModel_review
  keeps_same_changes_AuditLogModel_create
  keeps_same_changes_UserModel_create keeps_same_changes_UserModel_updateRole
  keeps_same_changes_UserModel_toggleActive
  keeps_same_changes_UserModel_deleteById
  keeps_same_changes_UserModel_updatePassword : keeps.

(** X21. Each part of the API keeps to its tables. A submission or a
    review, whatever it answers, leaves the table of users as it was: in
    particular, approving a change applies nothing of it. A call of the
    user management or a password change, whatever it answers, leaves the
    table of pending changes as it was: in particular, deleting a user
    leaves the changes that user submitted or reviewed. *)
Theorem calls_keep_to_their_tables
    (is_email : string -> bool) (argon2_hash : string -> string)
    (argon2_verify : string -> string -> bool) :
  (forall c db, users (snd (Workflow.handle c db)) = users db) /\
  (forall c req io1 io2 io3 db,
      pendingChanges
        (snd (UsersRoutes.handle is_email argon2_hash c req io1 io2 io3 db))
      = pendingChanges db) /\
  (forall req io_find io_update db,
      pendingChanges
        (snd (AuthRoutes.POST_change_password argon2_hash argon2_verify req
                io_find io_update db))
      = pendingChanges db).
Proof.
  split; [|split].
  - intros c. change (forall db, same_users db (snd (Workflow.handle c db))).
    destruct c as [req io1 io2|req io1 io2 io3]; simpl;
      unfold PendingChangesRoutes.POST_root,
        PendingChangesRoutes.POST_id_review;
      keeps_handler same_users same_users_refl same_users_trans.
  - intros c req io1 io2 io3.
    change (forall db,
               same_pendingChanges db
                 (snd (UsersRoutes.handle is_email argon2_hash c req io1 io2
                         io3 db))).
    destruct c; simpl;
      unfold UsersRoutes.POST_root, UsersRoutes.PATCH_id_role,
        UsersRoutes.PATCH_id_active, UsersRoutes.DELETE_id;
      keeps_handler same_pendingChanges same_pendingChanges_refl
        same_pendingChanges_trans.
  - intros req io_find io_update.
    change (forall db,
               same_pendingChanges db
                 (snd (AuthRoutes.POST_change_password argon2_hash
                         argon2_verify req io_find io_update db))).
    unfold AuthRoutes.POST_change_password.
    keeps_handler same_pendingChanges same_pendingChanges_refl
      same_pendingChanges_trans.
Qed.

(** ** Logging in and changing the password *)

Section Authentication.
Variable is_email : string -> bool.
Variable argon2_hash : string -> string.
Variable argon2_verify : string -> string -> bool.
Variable jwt_sign : JWTPayload.t -> string.

(** X22. A login that is turned down says the same thing whatever was
    wrong: for a body the schema accepts, if no stored user has this
    e-mail address together with a password hash the password verifies
    against (the address is unknown, or the password is wrong), the answer
    is 401 "Invalid credentials", and the database is as it was. *)
Theorem login_refusal_is_uniform body data io_find db :
  AuthRoutes.loginSchema is_email body = Some data ->
  rejects io_find = false ->
  (forall u, In u (users db) ->
             User.email u = AuthRoutes.email data ->
             argon2_verify (User.password u) (AuthRoutes.password data)
             = false) ->
  AuthRoutes.POST_login is_email argon2_verify jwt_sign body io_find db
  = (inl (res_status 401 (Error "Invalid credentials")), db).
Proof.
  intros Hdata Hio Hno.
  unfold AuthRoutes.POST_login, try_catch_sending. unfold_task.
  rewrite Hdata. unfold UserModel.findByEmail, await. rewrite Hio.
  destruct (first_or_null _) as [u|] eqn:Hu; [|reflexivity].
  apply first_or_null_select_In in Hu as (Hin & Hemail).
  apply String.eqb_eq in Hemail.
  rewrite (Hno u Hin Hemail). reflexivity.
Qed.

(** X23. A login that succeeds is the login of a stored user: the user
    has the e-mail address of the request, the password of the request
    verifies against the stored hash, the cookie carries the token signed
    for this user's id, e-mail address and role as stored, and the body
    names the same id, e-mail address and role. The database is as it
    was. *)
Theorem login_is_of_a_stored_user body io_find db answer db' :
  AuthRoutes.POST_login is_email argon2_verify jwt_sign body io_find db
  = (inr answer, db') ->
  exists data u,
    AuthRoutes.loginSchema is_email body = Some data /\
    In u (users db) /\
    User.email u = AuthRoutes.email data /\
    argon2_verify (User.password u) (AuthRoutes.password data) = true /\
    AuthRoutes.cookie answer
    = jwt_sign {| JWTPayload.userId := User.id u;
                  JWTPayload.email := User.email u;
                  JWTPayload.role := User.role u |} /\
    AuthRoutes.user_id answer = User.id u /\
    AuthRoutes.user_email answer = User.email u /\
    AuthRoutes.user_role answer = User.role u /\
    db' = db.
Proof.
  unfold AuthRoutes.POST_login, try_catch_sending. unfold_task.
  destruct (AuthRoutes.loginSchema _ _) as [data|]; [|discriminate].
  unfold UserModel.findByEmail, await.
  destruct (rejects io_find); [discriminate|].
  destruct (first_or_null _) as [u|] eqn:Hu; [|discriminate].
  apply first_or_null_select_In in Hu as (Hin & Hemail).
  apply String.eqb_eq in Hemail.
  destruct (argon2_verify _ _) eqn:Hv; simpl; [|discriminate].
  intros H. invert_pair H. exists data, u. simpl.
  split; [reflexivity|]. split; [exact Hin|]. split; [exact Hemail|].
  split; [exact Hv|]. repeat (split; [reflexivity|]). reflexivity.
Qed.

(** X24. A password change that succeeds is the caller's, and it is a
    change of the password alone: the caller is stored, the current
    password of the request verifies against the stored hash, afterwards
    the caller's row carries the Argon2 hash of the new password with the
    same id, e-mail address, role and active flag, every other user (every
    id that does not spell the caller's uuid) is read back as before, and
    the audit log has no entry for it. *)
Theorem password_change_is_the_callers req io_find io_update db message db' :
  AuthRoutes.POST_change_password argon2_hash argon2_verify req io_find
    io_update db
  = (inr message, db') ->
  exists me data u u',
    AuthRequest.user req = Some me /\
    AuthRoutes.changePasswordSchema (AuthRequest.body req) = Some data /\
    UserModel.lookup (JWTPayload.userId me) db = Some u /\
    argon2_verify (User.password u) (AuthRoutes.currentPassword data)
    = true /\
    UserModel.lookup (JWTPayload.userId me) db' = Some u' /\
    User.password u' = argon2_hash (AuthRoutes.newPassword data) /\
    identity u' = identity u /\
    (forall id, Uuid.input id <> Uuid.input (JWTPayload.userId me) ->
                UserModel.lookup id db' = UserModel.lookup id db) /\
    auditLogs db' = auditLogs db.
Proof.
  unfold AuthRoutes.POST_change_password, try_catch_sending. unfold_task.
  destruct (AuthRequest.user req) as [me|]; [|discriminate].
  destruct (AuthRoutes.changePasswordSchema _) as [data|]; [|discriminate].
  unfold UserModel.findById, await.
  destruct (rejects io_find); [discriminate|].
  destruct (Uuid.input _) as [uu|] eqn:Hinput; [|discriminate].
  destruct (UserModel.lookup _ db) as [u|] eqn:Hu; [|discriminate].
  destruct (argon2_verify _ _) eqn:Hv; cbn [negb]; [|discriminate].
  unfold UserModel.updatePassword, await.
  destruct (rejects io_update); [discriminate|].
  assert (User.id u = Uuid.out uu) as Hid.
  { unfold UserModel.lookup in Hu. rewrite Hinput in Hu.
    apply first_or_null_select_In in Hu as (_ & Hid).
    apply String.eqb_eq in Hid. exact Hid. }
  rewrite Hid, Uuid_input_out. cbv zeta.
  intros H. invert_pair H.
  exists me, data, u,
    (UserModel.set_password io_update
       (argon2_hash (AuthRoutes.newPassword data)) u).
  split; [reflexivity|]. split; [reflexivity|]. split; [exact Hu|].
  split; [exact Hv|].
  unfold UserModel.lookup in *. rewrite Hinput in *.
  cbn [users with_users].
  split; [|split; [|split; [|split]]].
  - rewrite users_select_same_id by reflexivity.
    rewrite first_or_null_map, Hu. reflexivity.
  - reflexivity.
  - reflexivity.
  - intros id Hne. destruct (Uuid.input id) as [other|]; [|reflexivity].
    rewrite users_select_other_id; [reflexivity|reflexivity|congruence].
  - reflexivity.
Qed.

(** X25. A password change that does not report success has changed
    nothing, whatever went wrong; and with a current password that does
    not verify against the caller's stored hash, the answer is 401
    "Current password is incorrect". *)
Theorem failed_password_change_changes_nothing req io_find io_update db :
  (forall r db',
      AuthRoutes.POST_change_password argon2_hash argon2_verify req io_find
        io_update db
      = (inl r, db') ->
      db' = db) /\
  (forall me data u,
      AuthRequest.user req = Some me ->
      AuthRoutes.changePasswordSchema (AuthRequest.body req) = Some data ->
      rejects io_find = false ->
      UserModel.lookup (JWTPayload.userId me) db = Some u ->
      argon2_verify (User.password u) (AuthRoutes.currentPassword data)
      = false ->
      AuthRoutes.POST_change_password argon2_hash argon2_verify req io_find
        io_update db
      = (inl (res_status 401 (Error "Current password is incorrect")), db)).
Proof.
  unfold AuthRoutes.POST_change_password, try_catch_sending. unfold_task.
  split.
  - intros r db'.
    destruct (AuthRequest.user req) as [me|];
      [|intros H; invert_pair H; reflexivity].
    destruct (AuthRoutes.changePasswordSchema _) as [data|];
      [|intros H; invert_pair H; reflexivity].
    unfold UserModel.findById, await.
    destruct (rejects io_find); [intros H; invert_pair H; reflexivity|].
    destruct (Uuid.input _) as [uu|] eqn:Hinput;
      [|intros H; invert_pair H; reflexivity].
    destruct (UserModel.lookup _ db) as [u|];
      [|intros H; invert_pair H; reflexivity].
    destruct (argon2_verify _ _); cbn [negb];
      [|intros H; invert_pair H; reflexivity].
    unfold UserModel.updatePassword, await.
    destruct (rejects io_update); [intros H; invert_pair H; reflexivity|].
    destruct (Uuid.input (User.id u));
      [discriminate|intros H; invert_pair H; reflexivity].
  - intros me data u Hme Hdata Hio Hu Hv.
    rewrite Hme, Hdata. unfold UserModel.findById, await.
    rewrite Hio.
    destruct (user_lookup_input _ _ Hu) as (uu & Hinput & _).
    rewrite Hinput. cbv beta. rewrite Hu, Hv. reflexivity.
Qed.

End Authentication.

(** ** The writes of [UserModel] *)

Lemma select_where_nil {Row} (p : Row -> bool) t :
  select_where p t = [] -> Forall (fun r => p r = false) t.
Proof.
  unfold select_where. induction t as [|r t IH]; simpl; intros H;
    [constructor|].
  destruct (p r) eqn:E; [discriminate|]. constructor; auto.
Qed.

Lemma delete_where_none {Row} (p : Row -> bool) t :
  Forall (fun r => p r = false) t -> delete_where p t = t.
Proof.
  unfold delete_where. induction 1 as [|r t Hr _ IH]; simpl;
    [reflexivity|]. rewrite Hr. simpl. rewrite IH. reflexivity.
Qed.

Lemma with_users_same db : with_users (users db) db = db.
Proof. destruct db. reflexivity. Qed.

(** X26. The writes of [UserModel] say whether they found the row. For an
    id that spells a uuid, [updateRole], [toggleActive] and
    [updatePassword] answer [true] when a user is stored under it and
    [false] when none is; [deleteById] does the same, unless the user it
    found is referred to from the audit log or from a pending change: then
    PostgreSQL rejects the deletion and the database is as it was. When no
    user is stored under the id, the four of them leave the database as it
    was. For an id that spells no uuid the four statements are rejected,
    and the database is as it was. *)
Theorem user_writes_say_whether_found io id role isActive hashed db :
  rejects io = false ->
  match Uuid.input id with
  | Some u =>
      let found :=
        match UserModel.lookup id db with Some _ => true | None => false end
      in
      UserModel.updateRole io id role db
      = (Value found, snd (UserModel.updateRole io id role db)) /\
      UserModel.toggleActive io id isActive db
      = (Value found, snd (UserModel.toggleActive io id isActive db)) /\
      UserModel.updatePassword io id hashed db
      = (Value found, snd (UserModel.updatePassword io id hashed db)) /\
      UserModel.deleteById io id db
      = (if found && UserModel.referred_to u db then Thrown DbError
         else Value found,
         snd (UserModel.deleteById io id db)) /\
      (found && UserModel.referred_to u db = true ->
       snd (UserModel.deleteById io id db) = db) /\
      (found = false ->
       snd (UserModel.updateRole io id role db) = db /\
       snd (UserModel.toggleActive io id isActive db) = db /\
       snd (UserModel.updatePassword io id hashed db) = db /\
       snd (UserModel.deleteById io id db) = db)
  | None =>
      UserModel.updateRole io id role db = (Thrown DbError, db) /\
      UserModel.toggleActive io id isActive db = (Thrown DbError, db) /\
      UserModel.updatePassword io id hashed db = (Thrown DbError, db) /\
      UserModel.deleteById io id db = (Thrown DbError, db)
  end.
Proof.
  intros Hio.
  unfold UserModel.updateRole, UserModel.toggleActive,
    UserModel.updatePassword, UserModel.deleteById, UserModel.lookup, await,
    update_returning, first_or_null.
  rewrite Hio.
  destruct (Uuid.input id) as [uid|];
    [|repeat (split; [reflexivity|]); reflexivity].
  cbv zeta. cbn [fst snd].
  fold (select_where (UserModel.has_id uid) (users db)).
  destruct (select_where (UserModel.has_id uid) (users db)) as [|u rows]
    eqn:Hrows.
  - cbn [map length Z.of_nat Z.ltb Z.compare andb snd].
    repeat (split; [reflexivity|]).
    split; [discriminate|]. intros _.
    apply select_where_nil in Hrows.
    rewrite !update_where_none, delete_where_none by exact Hrows.
    rewrite with_users_same.
    split; [reflexivity|]. split; [reflexivity|]. split; reflexivity.
  - cbn [map length andb].
    repeat (split; [reflexivity|]).
    destruct (UserModel.referred_to uid db); cbn [snd].
    + split; [reflexivity|]. split; [reflexivity|discriminate].
    + split; [reflexivity|]. split; discriminate.
Qed.

(** ** The further properties on sample data *)

Lemma review_unknown_change_witness :
  PendingChangesRoutes.POST_id_review
    (Sample.review Sample.admin1 (Sample.id "pc9") "approved" "ok")
    (Sample.io "" 20) (Sample.io "" 21) (Sample.io "log2" 22)
    Sample.submitted
  = (res_status 404 (Error "Pending change not found"), Sample.submitted) /\
  PendingChangesRoutes.POST_id_review
    (Sample.review Sample.admin1 "pc9" "approved" "ok")
    (Sample.io "" 20) (Sample.io "" 21) (Sample.io "log2" 22)
    Sample.submitted
  = (StorageFailure, Sample.submitted).
Proof.
  split.
  - apply (@review_unknown_change _ Sample.admin1 (Sample.id "pc9")
             (PendingChangesRoutes.mkReview APPROVED (Some "ok")));
      [split; [|split]; reflexivity | reflexivity | reflexivity].
  - apply (@review_unknown_change _ Sample.admin1 "pc9"
             (PendingChangesRoutes.mkReview APPROVED (Some "ok")));
      [split; [|split]; reflexivity | reflexivity | reflexivity].
Defined.

Lemma refused_workflow_calls_write_nothing_witness :
  snd (Workflow.handle
         (Workflow.Review (Sample.review Sample.admin2 (Sample.id "pc1") "rejected" "no")
            (Sample.io "" 50) (Sample.io "" 51) (Sample.io "log5" 52))
         Sample.approved)
  = Sample.approved.
Proof.
  apply refused_workflow_calls_write_nothing; vm_compute; discriminate.
Defined.

Lemma submit_round_trip_witness :
  succeeded (fst Sample.submission) /\
  exists pc,
    fst Sample.submission
    = res_json (Success "Change submitted for approval"
                  (PendingChangeData pc)) /\
    PendingChangeModel.lookup (Sample.id "pc1") Sample.submitted = Some pc /\
    PendingChange.action pc = UPDATE /\
    PendingChange.createdAt pc = 10.
Proof.
  split; [reflexivity|].
  destruct (@submit_round_trip (Sample.submit Sample.editor1)
              (Sample.io "pc1" 10) (Sample.io "log1" 11) Sample.seeded
              (fst Sample.submission) Sample.submitted eq_refl eq_refl)
    as (user & data & pc & _ & Hdata & Hr & Hl & Hid & _ & Ha & _ & _ & _
        & _ & Hc).
  exists pc. split; [exact Hr|].
  simpl in Hid. rewrite Hid in Hl. split; [exact Hl|].
  vm_compute in Hdata. injection Hdata as <-.
  split; [exact Ha|exact Hc].
Defined.

Lemma changes_by_status_witness :
  PendingChangesRoutes.GET_status (Some "done") (Sample.io "" 90)
    Sample.approved
  = (inl (res_status 400 (Error "Invalid status")), Sample.approved) /\
  exists changes,
    PendingChangesRoutes.GET_status (Some "approved") (Sample.io "" 90)
      Sample.approved
    = (inr (mkPage changes (Z.of_nat (List.length changes))),
       Sample.approved) /\
    (forall pc,
        In pc changes <->
        In pc (pendingChanges Sample.approved) /\
        PendingChange.status pc = APPROVED) /\
    StronglySorted newer_change changes.
Proof.
  split.
  - apply (proj1 (changes_by_status (Sample.io "" 90) Sample.approved)).
    intros st. destruct st; simpl; discriminate.
  - apply (proj1 (proj2 (changes_by_status (Sample.io "" 90)
                           Sample.approved)) APPROVED).
    reflexivity.
Defined.

Lemma lists_follow_workflow_witness :
  (exists changes pc,
      PendingChangesRoutes.GET_my_changes (Sample.submit Sample.editor1)
        (Sample.io "" 90) Sample.submitted
      = (inr (res_page changes), Sample.submitted) /\
      In pc changes /\
      fst Sample.submission
      = res_json (Success "Change submitted for approval"
                    (PendingChangeData pc))) /\
  (let reviewed :=
     snd (PendingChangesRoutes.POST_id_review
            (Sample.review Sample.admin1 Scenario.pc1_respelled "approved"
               "ok")
            (Sample.io "" 20) (Sample.io "" 21) (Sample.io "log2" 22)
            Sample.submitted) in
   exists changes,
     PendingChangesRoutes.GET_pending (Sample.io "" 90) reviewed
     = (inr (res_page changes), reviewed) /\
     forall pc, In pc changes -> PendingChange.id pc <> Sample.id "pc1").
Proof.
  split.
  - destruct (proj1 lists_follow_workflow (Sample.submit Sample.editor1)
                (Sample.io "pc1" 10) (Sample.io "log1" 11) Sample.seeded
                _ _ (Sample.io "" 90) eq_refl eq_refl)
      as (_ & changes & E & Hin).
    exists changes. eexists. split; [exact E|]. split; [exact Hin|].
    reflexivity.
  - destruct (proj2 lists_follow_workflow
                (Sample.review Sample.admin1 Scenario.pc1_respelled
                   "approved" "ok")
                (Sample.io "" 20) (Sample.io "" 21) (Sample.io "log2" 22)
                Sample.submitted _ _ _ (Sample.io "" 90) eq_refl eq_refl)
      as ((changes & E & Hno) & _).
    exists changes. split; [exact E|].
    intros pc Hin. exact (proj1 (Hno pc Hin)).
Defined.

Lemma workflow_calls_touch_one_change_witness :
  exists pc,
    PendingChangeModel.lookup (Sample.id "pc1") Sample.submitted = Some pc /\
    PendingChangeModel.lookup (Sample.id "pc1")
      (snd (Workflow.handle
              (Workflow.Review
                 (Sample.review Sample.admin1 (Sample.id "pc2") "rejected" "no")
                 (Sample.io "" 20) (Sample.io "" 21) (Sample.io "log2" 22))
              (Workflow.serve
                 [Workflow.Submit (Sample.submit Sample.editor1)
                    (Sample.io "pc2" 30) (Sample.io "log3" 31)]
                 Sample.submitted)))
    = Some pc.
Proof.
  eexists. split; [reflexivity|].
  apply workflow_calls_touch_one_change; [reflexivity|].
  intros req io_get io_review io_audit id' H Hid. injection H as <- _ _ _.
  vm_compute in Hid. injection Hid as <-. vm_compute. discriminate.
Defined.

Lemma delete_change_witness :
  (exists db',
      PendingChangeModel.delete (Sample.io "" 90) (Sample.id "pc1")
        Sample.approved
      = (Value true, db') /\
      PendingChangeModel.lookup (Sample.id "pc1") db' = None /\
      auditLogs db' = auditLogs Sample.approved) /\
  PendingChangeModel.delete (Sample.io "" 90) "pc1" Sample.approved
  = (Thrown DbError, Sample.approved).
Proof.
  split.
  - pose proof (@delete_change (Sample.io "" 90) (Sample.id "pc1")
                  Sample.approved eq_refl) as H.
    unfold Sample.id in H. rewrite Uuid_input_out in H.
    destruct H as (db' & E & Hnone & _ & _ & Hlogs).
    exists db'. split; [exact E|]. split; [exact Hnone|exact Hlogs].
  - pose proof (@delete_change (Sample.io "" 90) "pc1" Sample.approved
                  eq_refl) as H.
    change (Uuid.input "pc1") with (@None Uuid.t) in H. exact H.
Defined.

Lemma changes_stay_well_formed_witness :
  changes_keyed
    (Api.serve Sample.is_email Sample.argon2_hash Scenario.argon2_verify
       Scenario.calls Scenario.accounts) /\
  Forall metadata_invariant
    (pendingChanges
       (Api.serve Sample.is_email Sample.argon2_hash Scenario.argon2_verify
          Scenario.calls Scenario.accounts)).
Proof.
  apply changes_stay_well_formed.
  - unfold changes_keyed. simpl.
    constructor; [intros []|constructor].
  - simpl. constructor; [|constructor].
    unfold metadata_invariant, unreviewed. simpl.
    split; [|split]; reflexivity.
Defined.


Lemma trail_of_a_change_is_permanent_witness :
  (let later :=
     Api.serve Sample.is_email Sample.argon2_hash Scenario.argon2_verify
       Scenario.calls Sample.submitted in
   exists logs e,
     AuditRoutes.GET_resource (Some (Sample.id "pc1")) (Sample.io "" 100)
       later
     = (inr (res_page logs), later) /\
     In e logs /\
     AuditLog.action e = CREATE /\
     AuditLog.userId e = Sample.id "editor1") /\
  (let later :=
     snd (PendingChangesRoutes.POST_id_review
            (Sample.review Sample.admin1 Scenario.pc1_respelled "approved"
               "ok")
            (Sample.io "" 20) (Sample.io "" 21) (Sample.io "log2" 22)
            Sample.submitted) in
   exists logs e,
     AuditRoutes.GET_resource (Some Scenario.pc1_respelled)
       (Sample.io "" 100) later
     = (inr (res_page logs), later) /\
     In e logs /\
     AuditLog.action e = APPROVE /\
     forall e', In e' logs ->
                AuditLog.resourceId e' = Some Scenario.pc1_respelled).
Proof.
  split.
  - destruct (proj1 (trail_of_a_change_is_permanent Sample.is_email
                       Sample.argon2_hash Scenario.argon2_verify)
                (Sample.submit Sample.editor1)
                (Sample.io "pc1" 10) (Sample.io "log1" 11) Sample.seeded
                _ _ Scenario.calls (Sample.io "" 100) eq_refl)
      as (logs & e & E & Hin & Haction & _ & Huser & _).
    + simpl. discriminate.
    + reflexivity.
    + exists logs, e. split; [exact E|]. split; [exact Hin|].
      split; [exact Haction|]. simpl in Huser. congruence.
  - destruct (proj2 (trail_of_a_change_is_permanent Sample.is_email
                       Sample.argon2_hash Scenario.argon2_verify)
                (Sample.review Sample.admin1 Scenario.pc1_respelled
                   "approved" "ok")
                (Sample.io "" 20) (Sample.io "" 21) (Sample.io "log2" 22)
                Sample.submitted _ _ _ [] (Sample.io "" 100)
                eq_refl eq_refl)
      as (id & logs & e & Hid & _ & E & Hin & Haction & _ & _ & _ & Hall).
    simpl in Hid. injection Hid as <-.
    exists logs, e. split; [exact E|]. split; [exact Hin|].
    split.
    + destruct Haction as [(Ha & _)|(_ & Hs)]; [exact Ha|discriminate Hs].
    + exact Hall.
Defined.

Lemma auditLog_never_changes_the_answer_witness :
  AuditMiddleware.auditLog Scenario.trim CREATE (Some "pending_change")
    Scenario.request Sample.down Scenario.answered Sample.submitted
  = Scenario.answered Sample.submitted.
Proof.
  pose proof (auditLog_never_changes_the_answer Scenario.trim CREATE
                (Some "pending_change") Scenario.request Sample.down
                Scenario.answered Sample.submitted) as H.
  revert H.
  destruct (Scenario.answered Sample.submitted) as [r db1].
  destruct (AuditMiddleware.auditLog _ _ _ _ _ _ _) as [r' db2].
  intros (Hr & _ & _ & _ & _ & Hdown).
  rewrite Hr, (Hdown eq_refl). reflexivity.
Defined.

Lemma auditLog_records_success_witness :
  exists e,
    auditLogs
      (snd (AuditMiddleware.auditLog Scenario.trim CREATE
              (Some "pending_change") Scenario.request (Sample.io "log9" 99)
              Scenario.answered Sample.submitted))
    = (auditLogs (snd (Scenario.answered Sample.submitted)) ++ [e])%list /\
    AuditLog.userId e = (Sample.id "admin1") /\
    AuditLog.resourceId e = Some (Sample.id "pc2") /\
    AuditLog.ipAddress e = Some "203.0.113.7" /\
    AuditLog.userAgent e = Some "curl/8.0".
Proof.
  destruct (@auditLog_records_success Scenario.trim CREATE
              (Some "pending_change") Scenario.request (Sample.io "log9" 99)
              Scenario.answered Sample.submitted Sample.admin1
              eq_refl eq_refl eq_refl eq_refl)
    as (e & E & _ & Huser & _ & _ & _ & _ & Hbody & Hproxy & _ & Hagent).
  exists e. split; [exact E|]. split; [exact Huser|].
  split; [|split].
  - exact (proj1 (Hbody eq_refl) _ _ eq_refl).
  - apply (Hproxy "203.0.113.7" "10.0.0.1"); [reflexivity|].
    intros c Hc Ec. subst c. vm_compute in Hc.
    repeat (destruct Hc as [Hc|Hc]; [discriminate Hc|]). exact Hc.
  - apply Hagent. reflexivity.
Defined.


Lemma duplicate_email_is_refused_witness :
  UsersRoutes.POST_root Sample.is_email Sample.argon2_hash
    (Scenario.new_user "editor@gogreen.com")
    (Sample.io "" 50) (Sample.io "editor2" 51) (Sample.io "log5" 52)
    Scenario.accounts
  = (res_status 400 (Error "User with this email already exists"),
     Scenario.accounts).
Proof.
  apply (@duplicate_email_is_refused Sample.is_email Sample.argon2_hash
           (Scenario.new_user "editor@gogreen.com") Sample.admin1
           (UsersRoutes.mkCreateUser "editor@gogreen.com" "secret2" EDITOR)
           Scenario.editor);
    [reflexivity|reflexivity|reflexivity|right; left; reflexivity
    |reflexivity].
Defined.

Lemma created_user_round_trip_witness :
  exists newUser db',
    snd (UsersRoutes.POST_root Sample.is_email Sample.argon2_hash
           (Scenario.new_user "new@gogreen.com")
           (Sample.io "" 50) (Sample.io "editor2" 51) (Sample.io "log5" 52)
           Scenario.accounts)
    = db' /\
    UserModel.lookup (Sample.id "editor2") db' = Some newUser /\
    User.role newUser = EDITOR /\
    User.password newUser = Sample.argon2_hash "secret2".
Proof.
  destruct (@created_user_round_trip Sample.is_email Sample.argon2_hash
              (Scenario.new_user "new@gogreen.com")
              (Sample.io "" 50) (Sample.io "editor2" 51)
              (Sample.io "log5" 52) Scenario.accounts _ _ eq_refl eq_refl)
    as (me & data & newUser & entry & _ & Hdata & _ & Hid & _ & Hpw & Hrole
        & _ & Hl & _).
  exists newUser. eexists. split; [reflexivity|].
  simpl in Hid. rewrite Hid in Hl. split; [exact Hl|].
  split; [exact Hrole|].
  vm_compute in Hdata. injection Hdata as <-. exact Hpw.
Defined.

Lemma user_updates_do_what_they_say_witness :
  (exists u',
      UserModel.lookup (Sample.id "editor1")
        (snd (UsersRoutes.PATCH_id_active
                (Sample.on_user Sample.admin1 (Sample.id "editor1")
                   (JObj [("isActive", JBool false)]))
                (Sample.io "" 60) (Sample.io "" 61) (Sample.io "log6" 62)
                Scenario.accounts))
      = Some u' /\
      identity u'
      = (Sample.id "editor1", "editor@gogreen.com", EDITOR, false)) /\
  UserModel.lookup (Sample.id "editor1")
    (snd (UsersRoutes.DELETE_id
            (Sample.on_user Sample.admin1 (Sample.id "editor1") JNull)
            (Sample.io "" 80) (Sample.io "" 81) (Sample.io "log7" 82)
            Sample.seeded))
  = None.
Proof.
  split.
  - destruct (proj1 (proj2 user_updates_do_what_they_say)
                (Sample.on_user Sample.admin1 (Sample.id "editor1")
                   (JObj [("isActive", JBool false)]))
                (Sample.io "" 60) (Sample.io "" 61) (Sample.io "log6" 62)
                Scenario.accounts _ _ eq_refl eq_refl)
      as (id & u & u' & isActive & Hid & Hbody & _ & Hu & _ & Hu' & Hident
          & _).
    simpl in Hid. injection Hid as <-.
    simpl in Hbody. injection Hbody as <-.
    vm_compute in Hu. injection Hu as <-.
    exists u'. split; [exact Hu'|exact Hident].
  - destruct (proj2 (proj2 user_updates_do_what_they_say)
                (Sample.on_user Sample.admin1 (Sample.id "editor1") JNull)
                (Sample.io "" 80) (Sample.io "" 81) (Sample.io "log7" 82)
                Sample.seeded _ _ eq_refl eq_refl)
      as (id & uid & u & Hid & _ & _ & _ & _ & _ & Hnone & _).
    simpl in Hid. injection Hid as <-. exact Hnone.
Defined.

Lemma unknown_user_is_not_found_witness :
  UsersRoutes.DELETE_id
    (Sample.on_user Sample.admin1 (Sample.id "ghost") JNull)
    (Sample.io "" 80) (Sample.io "" 81) (Sample.io "log7" 82)
    Scenario.accounts
  = (res_status 404 (Error "User not found"), Scenario.accounts) /\
  UsersRoutes.PATCH_id_role
    (Sample.on_user Sample.admin1 (Sample.id "ghost")
       (JObj [("role", JStr "editor")]))
    (Sample.io "" 80) (Sample.io "" 81) (Sample.io "log7" 82)
    Scenario.accounts
  = (res_status 404 (Error "User not found"), Scenario.accounts) /\
  UsersRoutes.DELETE_id (Sample.on_user Sample.admin1 "ghost" JNull)
    (Sample.io "" 80) (Sample.io "" 81) (Sample.io "log7" 82)
    Scenario.accounts
  = (StorageFailure, Scenario.accounts).
Proof.
  split; [|split].
  - destruct (@unknown_user_is_not_found
                (Sample.on_user Sample.admin1 (Sample.id "ghost") JNull)
                Sample.admin1 (Sample.id "ghost")
                (Sample.io "" 80) (Sample.io "" 81)
                (Sample.io "log7" 82) Scenario.accounts
                eq_refl eq_refl eq_refl eq_refl)
      as (_ & _ & Hdelete).
    exact Hdelete.
  - destruct (@unknown_user_is_not_found
                (Sample.on_user Sample.admin1 (Sample.id "ghost")
                   (JObj [("role", JStr "editor")])) Sample.admin1
                (Sample.id "ghost") (Sample.io "" 80) (Sample.io "" 81)
                (Sample.io "log7" 82) Scenario.accounts
                eq_refl eq_refl eq_refl eq_refl)
      as (Hrole & _ & _).
    apply Hrole. simpl. discriminate.
  - destruct (@unknown_user_is_not_found
                (Sample.on_user Sample.admin1 "ghost" JNull)
                Sample.admin1 "ghost"
                (Sample.io "" 80) (Sample.io "" 81)
                (Sample.io "log7" 82) Scenario.accounts
                eq_refl eq_refl eq_refl eq_refl)
      as (_ & _ & Hdelete).
    exact Hdelete.
Defined.

Lemma refused_user_calls_write_nothing_witness :
  snd (UsersRoutes.handle Sample.is_email Sample.argon2_hash
         UsersRoutes.DeleteUserCall
         (Sample.on_user Sample.admin1 (Sample.id "admin1") JNull)
         (Sample.io "" 80) (Sample.io "" 81) (Sample.io "log7" 82)
         Scenario.accounts)
  = Scenario.accounts.
Proof.
  apply (@refused_user_calls_write_nothing Sample.is_email
           Sample.argon2_hash UsersRoutes.DeleteUserCall);
    vm_compute; discriminate.
Defined.

Lemma accounts_stay_well_formed_witness :
  users_keyed
    (Api.serve Sample.is_email Sample.argon2_hash Scenario.argon2_verify
       Scenario.calls Scenario.accounts) /\
  emails_unique
    (Api.serve Sample.is_email Sample.argon2_hash Scenario.argon2_verify
       Scenario.calls Scenario.accounts) /\
  administrators
    (Api.serve Sample.is_email Sample.argon2_hash Scenario.argon2_verify
       Scenario.calls Scenario.accounts)
  = administrators Scenario.accounts.
Proof.
  apply accounts_stay_well_formed.
  - unfold users_keyed. simpl.
    constructor; [|constructor; [intros []|constructor]].
    intros [H|[]]. discriminate H.
  - unfold emails_unique. simpl.
    constructor; [|constructor; [intros []|constructor]].
    intros [H|[]]. discriminate H.
Defined.

Lemma login_refusal_is_uniform_witness :
  AuthRoutes.POST_login Sample.is_email Scenario.argon2_verify
    Scenario.jwt_sign
    (Scenario.credentials "editor@gogreen.com" "not-the-password")
    (Sample.io "" 90) Scenario.accounts
  = (inl (res_status 401 (Error "Invalid credentials")),
     Scenario.accounts) /\
  AuthRoutes.POST_login Sample.is_email Scenario.argon2_verify
    Scenario.jwt_sign
    (Scenario.credentials "nobody@gogreen.com" "secret1")
    (Sample.io "" 90) Scenario.accounts
  = (inl (res_status 401 (Error "Invalid credentials")),
     Scenario.accounts).
Proof.
  split.
  - apply (@login_refusal_is_uniform Sample.is_email Scenario.argon2_verify
             Scenario.jwt_sign _
             (AuthRoutes.mkLogin "editor@gogreen.com" "not-the-password"));
      [reflexivity|reflexivity|].
    intros u [<-|[<-|[]]] E; [discriminate E|reflexivity].
  - apply (@login_refusal_is_uniform Sample.is_email Scenario.argon2_verify
             Scenario.jwt_sign _
             (AuthRoutes.mkLogin "nobody@gogreen.com" "secret1"));
      [reflexivity|reflexivity|].
    intros u [<-|[<-|[]]] E; discriminate E.
Defined.

Lemma login_is_of_a_stored_user_witness :
  exists answer u,
    AuthRoutes.POST_login Sample.is_email Scenario.argon2_verify
      Scenario.jwt_sign
      (Scenario.credentials "editor@gogreen.com" "secret1")
      (Sample.io "" 90) Scenario.accounts
    = (inr answer, Scenario.accounts) /\
    In u (users Scenario.accounts) /\
    User.email u = "editor@gogreen.com" /\
    AuthRoutes.user_id answer = User.id u /\
    AuthRoutes.user_role answer = User.role u.
Proof.
  destruct (@login_is_of_a_stored_user Sample.is_email
              Scenario.argon2_verify Scenario.jwt_sign
              (Scenario.credentials "editor@gogreen.com" "secret1")
              (Sample.io "" 90) Scenario.accounts _ _ eq_refl)
    as (data & u & Hdata & Hin & Hemail & _ & _ & Hid & _ & Hrole & _).
  eexists. exists u. split; [reflexivity|]. split; [exact Hin|].
  vm_compute in Hdata. injection Hdata as <-.
  split; [exact Hemail|]. split; [exact Hid|exact Hrole].
Defined.

Lemma password_change_is_the_callers_witness :
  exists db' u',
    AuthRoutes.POST_change_password Sample.argon2_hash
      Scenario.argon2_verify (Scenario.new_password "secret1" "secret3")
      (Sample.io "" 70) (Sample.io "" 71) Scenario.accounts
    = (inr "Password changed successfully", db') /\
    UserModel.lookup (Sample.id "editor1") db' = Some u' /\
    User.password u' = Sample.argon2_hash "secret3" /\
    identity u' = identity Scenario.editor /\
    UserModel.lookup (Sample.id "admin1") db' = Some Scenario.admin.
Proof.
  destruct (@password_change_is_the_callers Sample.argon2_hash
              Scenario.argon2_verify
              (Scenario.new_password "secret1" "secret3")
              (Sample.io "" 70) (Sample.io "" 71) Scenario.accounts
              _ _ eq_refl)
    as (me & data & u & u' & Hme & Hdata & Hu & _ & Hu' & Hpw & Hident
        & Hothers & _).
  simpl in Hme. injection Hme as <-.
  vm_compute in Hdata. injection Hdata as <-.
  vm_compute in Hu. injection Hu as <-.
  eexists. exists u'. split; [reflexivity|].
  split; [exact Hu'|]. split; [exact Hpw|]. split; [exact Hident|].
  rewrite (Hothers (Sample.id "admin1")); [reflexivity|discriminate].
Defined.

Lemma failed_password_change_changes_nothing_witness :
  AuthRoutes.POST_change_password Sample.argon2_hash Scenario.argon2_verify
    (Scenario.new_password "a-guess" "secret3")
    (Sample.io "" 70) (Sample.io "" 71) Scenario.accounts
  = (inl (res_status 401 (Error "Current password is incorrect")),
     Scenario.accounts).
Proof.
  apply (proj2 (@failed_password_change_changes_nothing Sample.argon2_hash
                  Scenario.argon2_verify
                  (Scenario.new_password "a-guess" "secret3")
                  (Sample.io "" 70) (Sample.io "" 71) Scenario.accounts)
           Sample.editor1
           (AuthRoutes.mkChangePassword "a-guess" "secret3")
           Scenario.editor);
    reflexivity.
Defined.

Lemma user_writes_say_whether_found_witness :
  UserModel.deleteById (Sample.io "" 80) (Sample.id "ghost")
    Scenario.accounts
  = (Value false, Scenario.accounts) /\
  fst (UserModel.updatePassword (Sample.io "" 71) (Sample.id "editor1")
         (Sample.argon2_hash "secret3") Scenario.accounts)
  = Value true /\
  UserModel.deleteById (Sample.io "" 80) (Sample.id "editor1")
    Scenario.accounts
  = (Thrown DbError, Scenario.accounts) /\
  UserModel.deleteById (Sample.io "" 80) "ghost" Scenario.accounts
  = (Thrown DbError, Scenario.accounts).
Proof.
  split; [|split; [|split]].
  - pose proof (@user_writes_say_whether_found (Sample.io "" 80)
                  (Sample.id "ghost") EDITOR true "" Scenario.accounts
                  eq_refl) as H.
    unfold Sample.id in H. rewrite Uuid_input_out in H.
    destruct H as (_ & _ & _ & E & _ & H).
    destruct (H eq_refl) as (_ & _ & _ & Hdb).
    unfold Sample.id. rewrite E, Hdb. reflexivity.
  - pose proof (@user_writes_say_whether_found (Sample.io "" 71)
                  (Sample.id "editor1") EDITOR true
                  (Sample.argon2_hash "secret3") Scenario.accounts
                  eq_refl) as H.
    unfold Sample.id in H. rewrite Uuid_input_out in H.
    destruct H as (_ & _ & E & _).
    unfold Sample.id. rewrite E. reflexivity.
  - pose proof (@user_writes_say_whether_found (Sample.io "" 80)
                  (Sample.id "editor1") EDITOR true "" Scenario.accounts
                  eq_refl) as H.
    unfold Sample.id in H. rewrite Uuid_input_out in H.
    destruct H as (_ & _ & _ & E & Hdb & _).
    unfold Sample.id. rewrite E, (Hdb eq_refl). reflexivity.
  - pose proof (@user_writes_say_whether_found (Sample.io "" 80)
                  "ghost" EDITOR true "" Scenario.accounts eq_refl) as H.
    change (Uuid.input "ghost") with (@None Uuid.t) in H.
    destruct H as (_ & _ & _ & E). exact E.
Defined.
